(** * Savantra: the syllabus-to-topics pipeline

    A shallow embedding of the topic extraction client
    ([TopicExtractionService]), the document reader ([FileReaderService]),
    the screen that runs the two ([AddContentScreen]), the editable list of
    the review screen ([ReviewTopicsScreen]), the status line of a course
    ([CourseDetailScreen]), the topic persistence gateway ([TopicService])
    and the topic actions of the store ([useCourseStore]), followed by the
    properties of these operations. *)

From Stdlib Require Import Floats.
From Stdlib Require Import Ascii String DecimalString.
From Stdlib Require Import List Bool Arith NArith ZArith QArith Lia Permutation.
Import ListNotations.

Set Implicit Arguments.
Close Scope Q_scope.
Set Warnings "-register-all".

(* ===================================================================== *)
(** * JavaScript strings *)
(* ===================================================================== *)

(** A JavaScript string is a sequence of UTF-16 code units. *)
Module Str.

Definition jsstring := list N.

(** A literal of the source, written as a Rocq string of ASCII characters. *)
Definition lit (s : string) : jsstring :=
  List.map N_of_ascii (list_ascii_of_string s).

Definition TAB : N := 9.
Definition LF : N := 10.
Definition CR : N := 13.
Definition SPACE : N := 32.
Definition QUOTE : N := 34.

Definition eqb (a b : jsstring) : bool :=
  if list_eq_dec N.eq_dec a b then true else false.

Definition is_empty (s : jsstring) : bool :=
  match s with [] => true | _ => false end.

(** [WhiteSpace] and [LineTerminator] of ECMAScript: what [String.prototype.trim]
    removes and what the regular expression class [\s] matches. *)
Definition is_space (c : N) : bool :=
  ((9 <=? c) && (c <=? 13) || (c =? 32) || (c =? 160) || (c =? 5760)
   || (8192 <=? c) && (c <=? 8202) || (c =? 8232) || (c =? 8233)
   || (c =? 8239) || (c =? 8287) || (c =? 12288) || (c =? 65279))%N.

Fixpoint trimStart (s : jsstring) : jsstring :=
  match s with
  | [] => []
  | c :: t => if is_space c then trimStart t else s
  end.

Fixpoint trimEnd (s : jsstring) : jsstring :=
  match s with
  | [] => []
  | c :: t =>
      match trimEnd t with
      | [] => if is_space c then [] else [c]
      | t' => c :: t'
      end
  end.

(** [s.trim()] *)
Definition trim (s : jsstring) : jsstring := trimEnd (trimStart s).

Fixpoint startsWith (s p : jsstring) {struct p} : bool :=
  match p, s with
  | [], _ => true
  | _ :: _, [] => false
  | a :: p', b :: s' => (a =? b)%N && startsWith s' p'
  end.

(** [s.includes(p)] *)
Fixpoint includes (s p : jsstring) : bool :=
  startsWith s p || match s with [] => false | _ :: t => includes t p end.

(** [s.substring(0, n)] *)
Definition substring0 (n : N) (s : jsstring) : jsstring := firstn (N.to_nat n) s.

(** [ks.join(sep)] *)
Fixpoint join (sep : jsstring) (ks : list jsstring) : jsstring :=
  match ks with
  | [] => []
  | [k] => k
  | k :: rest => k ++ sep ++ join sep rest
  end.

(** [s.split(sep)] for a non-empty separator, read from left to right:
    [cur] holds, in reverse, the characters of the piece being read, and
    [skip] counts the characters of a separator just found that are still
    to be passed over. *)
Fixpoint split_from (sep : jsstring) (skip : nat) (cur : jsstring) (s : jsstring)
  : list jsstring :=
  match s with
  | [] => [rev cur]
  | c :: t =>
      match skip with
      | S k => split_from sep k cur t
      | O =>
          if startsWith s sep
          then rev cur :: split_from sep (length sep - 1) [] t
          else split_from sep 0 (c :: cur) t
      end
  end.

Definition split (sep : jsstring) (s : jsstring) : list jsstring :=
  split_from sep 0 [] s.

(** [.replace(/\r\n/g, '\n')] *)
Fixpoint replace_crlf (s : jsstring) : jsstring :=
  match s with
  | [] => []
  | c :: t =>
      match t with
      | d :: t' =>
          if ((c =? CR) && (d =? LF))%N then LF :: replace_crlf t'
          else c :: replace_crlf t
      | [] => [c]
      end
  end.

(** [.replace(/\r/g, '\n')] *)
Definition replace_cr (s : jsstring) : jsstring :=
  List.map (fun c => if (c =? CR)%N then LF else c) s.

(** [.replace(/\n{3,}/g, '\n\n')]: of every maximal run of line feeds the
    first two are kept; [seen] is the number of line feeds of the current
    run already read. A run of one or two is not matched and stays. *)
Fixpoint collapse_newlines (seen : nat) (s : jsstring) : jsstring :=
  match s with
  | [] => []
  | c :: t =>
      if (c =? LF)%N
      then if (seen <? 2)%nat then LF :: collapse_newlines (S seen) t
           else collapse_newlines (S seen) t
      else c :: collapse_newlines 0 t
  end.

Definition is_blank (c : N) : bool := ((c =? SPACE) || (c =? TAB))%N.

(** [.replace(/[ \t]+/g, ' ')]: every maximal run of spaces and tabs becomes
    one space, written when the run starts; [in_run] tells that the
    previous character belonged to the run. *)
Fixpoint collapse_blanks (in_run : bool) (s : jsstring) : jsstring :=
  match s with
  | [] => []
  | c :: t =>
      if is_blank c
      then if in_run then collapse_blanks true t
           else SPACE :: collapse_blanks true t
      else c :: collapse_blanks false t
  end.

(** [String(n)] for a non-negative integer. *)
Definition of_nat (n : nat) : jsstring :=
  lit (NilZero.string_of_uint (Nat.to_uint n)).

Definition of_N (n : N) : jsstring :=
  lit (NilZero.string_of_uint (N.to_uint n)).

(** [s.endsWith(p)] *)
Definition endsWith (s p : jsstring) : bool := startsWith (rev s) (rev p).

End Str.

(* ===================================================================== *)
(** * JSON values and the JavaScript operations on them *)
(* ===================================================================== *)

Module Json.
Import Str.

(** What [JSON.parse] and [response.json()] produce. An object is the list
    of its own properties. [undefined] is not a JSON value: a property read
    returns an [option], [None] standing for [undefined]. *)
Inductive value : Type :=
| JNull
| JBool (b : bool)
| JNum (q : Q)
| JString (s : jsstring)
| JArray (items : list value)
| JObject (fields : list (jsstring * value)).

Fixpoint assoc (name : jsstring) (fields : list (jsstring * value)) : option value :=
  match fields with
  | [] => None
  | (k, v) :: rest => if Str.eqb k name then Some v else assoc name rest
  end.

(** Truthiness, as tested by [!x] and [x || y]. *)
Definition truthy (v : option value) : bool :=
  match v with
  | None => false
  | Some JNull => false
  | Some (JBool b) => b
  | Some (JNum q) => negb (Qeq_bool q 0%Q)
  | Some (JString s) => negb (is_empty s)
  | Some (JArray _) => true
  | Some (JObject _) => true
  end.

(** [v.name] for a value that is neither [null] nor [undefined], and for the
    names read by this program ([choices], [message], [content], [topics],
    [title], [keywords], [error], [trim]), none of which is a built-in
    property of a string, number, boolean or array that JSON can produce
    (a string's [trim] is handled where it is called). *)
Definition get (v : value) (name : jsstring) : option value :=
  match v with
  | JObject fields => assoc name fields
  | _ => None
  end.

(** [v[0]] for a value that is neither [null] nor [undefined]. *)
Definition first (v : value) : option value :=
  match v with
  | JArray items => match items with [] => None | x :: _ => Some x end
  | JString s => match s with [] => None | c :: _ => Some (JString [c]) end
  | JObject fields => assoc (lit "0") fields
  | _ => None
  end.

(** [Array.isArray(v)] *)
Definition isArray (v : option value) : bool :=
  match v with Some (JArray _) => true | _ => false end.

(** [typeof v === 'string'] *)
Definition isString (v : value) : bool :=
  match v with JString _ => true | _ => false end.

End Json.

(* ===================================================================== *)
(** * Exceptions *)
(* ===================================================================== *)

(** The result of a computation that may throw an [Error]; only the
    [message] of the error is observed by the program. *)
Inductive outcome (A : Type) : Type :=
| Ok (a : A)
| Throw (message : Str.jsstring).
Arguments Ok {A} a.
Arguments Throw {A} message.

Definition obind {A B} (m : outcome A) (f : A -> outcome B) : outcome B :=
  match m with
  | Ok a => f a
  | Throw e => Throw e
  end.

Declare Scope outcome_scope.
Delimit Scope outcome_scope with outcome.
Notation "'let!' x ':=' m 'in' k" := (obind m (fun x => k))
  (at level 10, x name, m at level 100, k at level 200) : outcome_scope.

(** [xs.map((x, index) => f(x, index))] where [f] may throw: elements are
    visited from left to right and the first exception ends the loop. *)
Fixpoint map_indexed {A B} (f : A -> nat -> outcome B) (index : nat) (xs : list A)
  : outcome (list B) :=
  match xs with
  | [] => Ok []
  | x :: rest =>
      match f x index with
      | Throw e => Throw e
      | Ok y =>
          match map_indexed f (S index) rest with
          | Throw e => Throw e
          | Ok ys => Ok (y :: ys)
          end
      end
  end.

(* ===================================================================== *)
(** * JavaScript numbers *)
(* ===================================================================== *)

(** A JavaScript number is an IEEE 754 double: the primitive floating-point
    numbers, with their operations rounding to nearest, ties to even. *)
Module Num.

(** The number of a length or a count: the nearest double. *)
Definition of_nat (n : nat) : float :=
  SF2Prim (binary_normalize prec emax (Z.of_nat n) 0 false).

(** [Math.max(a, b)]: [NaN] when an argument is [NaN]; [+0] is larger than
    [-0]. *)
Definition max (a b : float) : float :=
  if PrimFloat.is_nan a || PrimFloat.is_nan b then nan
  else if PrimFloat.ltb a b then b
  else if PrimFloat.ltb b a then a
  else match PrimFloat.classify a with NZero => b | _ => a end.

(** [Math.min(a, b)]: [NaN] when an argument is [NaN]; [-0] is smaller than
    [+0]. *)
Definition min (a b : float) : float :=
  if PrimFloat.is_nan a || PrimFloat.is_nan b then nan
  else if PrimFloat.ltb a b then a
  else if PrimFloat.ltb b a then b
  else match PrimFloat.classify a with NZero => a | _ => b end.

End Num.

(* ===================================================================== *)
(** * The topic extraction client (TopicExtractionService) *)
(* ===================================================================== *)

Module TopicExtractionService.
Import Str Json.
Local Open Scope outcome_scope.

Record ExtractedTopic : Type := {
  id : jsstring;
  title : jsstring;
  order : Z;
  keywords : option (list jsstring)
}.

Record Metadata : Type := {
  totalTopics : nat;
  processingTime : Z;
  confidence : float
}.

Record TopicExtractionResponse : Type := {
  success : bool;
  topics : list ExtractedTopic;
  error : option jsstring;
  metadata : option Metadata
}.

Record OpenAIConfig : Type := {
  apiKey : jsstring;
  model : option jsstring;
  maxTokens : option N;
  temperature : option Q
}.

(** The static [config] of the class before [initialize]. *)
Definition default_config : OpenAIConfig :=
  {| apiKey := [];
     model := Some (lit "gpt-3.5-turbo");
     maxTokens := Some 2000%N;
     temperature := Some (3 # 10)%Q |}.

Definition initialize (config : OpenAIConfig) (key : jsstring) : OpenAIConfig :=
  {| apiKey := key;
     model := model config;
     maxTokens := maxTokens config;
     temperature := temperature config |}.

(** The [fetch] call: the request sent, and what the network answers. *)
Record Request : Type := {
  url : jsstring;
  method : jsstring;
  header_content_type : jsstring;
  header_authorization : jsstring;
  body_model : option jsstring;
  body_system_content : jsstring;
  body_user_content : jsstring;
  body_max_tokens : option N;
  body_temperature : option Q;
  body_response_format : jsstring
}.

Inductive FetchResult : Type :=
| Rejected (message : jsstring)
    (** [fetch] rejects: the network is unreachable *)
| Response (status : N) (json : outcome value)
    (** a response with its status and what [response.json()] gives *).

Definition response_ok (status : N) : bool :=
  ((200 <=? status) && (status <=? 299))%N.

(** The parts of the JavaScript engine that the client relies on. *)
Record Engine : Type := {
  JSON_parse : value -> outcome value;
    (** [JSON.parse(x)]: the value, or the [SyntaxError] *)
  String_of : value -> jsstring;
    (** the text of a value that is not a string inside a template literal *)
  TypeError : jsstring -> jsstring
    (** the message of the [TypeError] raised when the property of that name
        is read from [null] or called though it is not a function *)
}.

Definition createExtractionPrompt (syllabusText : jsstring) : jsstring :=
  [LF]
  ++ lit "  Please analyze the following course syllabus and extract the main topics/units that will be covered in the course." ++ [LF]
  ++ lit "  " ++ [LF]
  ++ lit "  For each topic, provide:" ++ [LF]
  ++ lit "  1. A clear, concise title" ++ [LF]
  ++ lit "  2. Key concepts/keywords related to the topic" ++ [LF]
  ++ lit "  " ++ [LF]
  ++ lit "  Format your response as a JSON object with this exact structure:" ++ [LF]
  ++ lit "  {" ++ [LF]
  ++ lit "    " ++ [QUOTE] ++ lit "topics" ++ [QUOTE] ++ lit ": [" ++ [LF]
  ++ lit "      {" ++ [LF]
  ++ lit "        " ++ [QUOTE] ++ lit "title" ++ [QUOTE] ++ lit ": "
       ++ [QUOTE] ++ lit "Topic Title" ++ [QUOTE] ++ lit "," ++ [LF]
  ++ lit "        " ++ [QUOTE] ++ lit "keywords" ++ [QUOTE] ++ lit ": ["
       ++ [QUOTE] ++ lit "keyword1" ++ [QUOTE] ++ lit ", "
       ++ [QUOTE] ++ lit "keyword2" ++ [QUOTE] ++ lit ", "
       ++ [QUOTE] ++ lit "keyword3" ++ [QUOTE] ++ lit "]" ++ [LF]
  ++ lit "      }" ++ [LF]
  ++ lit "    ]" ++ [LF]
  ++ lit "  }" ++ [LF]
  ++ lit "  " ++ [LF]
  ++ lit "  Guidelines:" ++ [LF]
  ++ lit "  - Extract 5-15 main topics (avoid too granular or too broad)" ++ [LF]
  ++ lit "  - Focus on learning objectives, not administrative details" ++ [LF]
  ++ lit "  - Order topics logically (introductory to advanced)" ++ [LF]
  ++ lit "  - Be consistent with naming conventions" ++ [LF]
  ++ lit "  - Skip course policies, grading, textbooks, etc." ++ [LF]
  ++ lit "  - Include 2-5 relevant keywords per topic" ++ [LF]
  ++ lit "  " ++ [LF]
  ++ lit "  Syllabus Text:" ++ [LF]
  ++ lit "  " ++ syllabusText ++ [LF]
  ++ lit "  " ++ [LF]
  ++ lit "  Respond with valid JSON only:".

Definition cleanSyllabusText (text : jsstring) : jsstring :=
  substring0 8000
    (trim
       (collapse_blanks false
          (collapse_newlines 0
             (replace_cr
                (replace_crlf text))))).

(** [typeof k === 'string'] keeps the strings of a JSON array. *)
Fixpoint strings_of (items : list value) : list jsstring :=
  match items with
  | [] => []
  | JString s :: rest => s :: strings_of rest
  | _ :: rest => strings_of rest
  end.

(** The callback of [parsed.topics.map] in [parseOpenAIResponse]. *)
Definition parse_topic (E : Engine) (topic : value) (index : nat)
  : outcome ExtractedTopic :=
  let! title_ :=
    match topic with
    | JNull => Throw (TypeError E (lit "title"))
    | _ => Ok (get topic (lit "title"))
    end in
  if negb (truthy title_) then
    Throw (lit "Topic " ++ of_nat (index + 1) ++ lit " missing title")
  else
    let! trimmed :=
      match title_ with
      | Some (JString s) => Ok (trim s)
      | _ => Throw (TypeError E (lit "trim"))
      end in
    Ok {| id := lit "topic-" ++ of_nat (index + 1);
          title := trimmed;
          order := Z.of_nat (index + 1);
          keywords :=
            match get topic (lit "keywords") with
            | Some (JArray ks) => Some (strings_of ks)
            | _ => None
            end |}.

(** [data.choices?.[0]?.message?.content] *)
Definition response_content (E : Engine) (data : value) : outcome (option value) :=
  match data with
  | JNull => Throw (TypeError E (lit "choices"))
  | _ =>
      match get data (lit "choices") with
      | None | Some JNull => Ok None
      | Some choices =>
          match first choices with
          | None | Some JNull => Ok None
          | Some choice =>
              match get choice (lit "message") with
              | None | Some JNull => Ok None
              | Some message => Ok (get message (lit "content"))
              end
          end
      end
  end.

(** The body of the [try] block of [parseOpenAIResponse]. *)
Definition parse_body (E : Engine) (data : value) : outcome (list ExtractedTopic) :=
  let! content := response_content E data in
  match content with
  | None => Throw (lit "No content in OpenAI response")
  | Some content_ =>
      if negb (truthy content) then Throw (lit "No content in OpenAI response")
      else
        let! parsed := JSON_parse E content_ in
        let! topics_ :=
          match parsed with
          | JNull => Throw (TypeError E (lit "topics"))
          | _ => Ok (get parsed (lit "topics"))
          end in
        match topics_ with
        | Some (JArray entries) =>
            let! topics := map_indexed (parse_topic E) 0 entries in
            if (length topics =? 0)%nat
            then Throw (lit "No valid topics extracted")
            else Ok topics
        | _ => Throw (lit "Invalid response format: topics array not found")
        end
  end.

Definition parseOpenAIResponse (E : Engine) (data : value)
  : outcome (list ExtractedTopic) :=
  match parse_body E data with
  | Ok topics => Ok topics
  | Throw message => Throw (lit "Failed to parse AI response: " ++ message)
  end.

Definition has_keywords (t : ExtractedTopic) : bool :=
  match keywords t with
  | Some (_ :: _) => true
  | _ => false
  end.

Definition calculateConfidence (topics : list ExtractedTopic) : float :=
  let score := 0%float in
  let score := if (0 <? length topics)%nat then (score + 40)%float else score in
  let score :=
    if ((5 <=? length topics) && (length topics <=? 15))%nat
    then (score + 30)%float else score in
  let withKeywords := length (filter has_keywords topics) in
  let score :=
    (score + (Num.of_nat withKeywords / Num.of_nat (length topics)) * 30)%float in
  Num.min 100 (Num.max 0 score).

(** [getErrorMessage(error)], on the [message] of the error. *)
Definition getErrorMessage (error_message : jsstring) : jsstring :=
  let message := if is_empty error_message then lit "Unknown error" else error_message in
  if includes message (lit "API key") then
    lit "OpenAI API key is invalid or missing. Please check your configuration."
  else if includes message (lit "quota") || includes message (lit "billing") then
    lit "OpenAI API quota exceeded. Please check your billing settings."
  else if includes message (lit "rate limit") then
    lit "Too many requests. Please wait a moment and try again."
  else if includes message (lit "network") || includes message (lit "fetch") then
    lit "Network error. Please check your internet connection and try again."
  else
    lit "Topic extraction failed: " ++ message.

Definition failure (message : jsstring) : TopicExtractionResponse :=
  {| success := false; topics := []; error := Some message; metadata := None |}.

Definition build_request (config : OpenAIConfig) (prompt : jsstring) : Request :=
  {| url := lit "https://api.openai.com/v1/chat/completions";
     method := lit "POST";
     header_content_type := lit "application/json";
     header_authorization := lit "Bearer " ++ apiKey config;
     body_model := model config;
     body_system_content :=
       lit "You are an expert educational content analyzer. Extract course topics from syllabi with high accuracy and consistency.";
     body_user_content := prompt;
     body_max_tokens := maxTokens config;
     body_temperature := temperature config;
     body_response_format := lit "json_object" |}.

(** What follows the [fetch] call inside the [try] block of [extractTopics]. *)
Definition handle_response (E : Engine) (answer : FetchResult)
  : outcome (list ExtractedTopic) :=
  match answer with
  | Rejected message => Throw message
  | Response status json =>
      if negb (response_ok status) then
        let errorData := match json with Ok d => d | Throw _ => JObject [] end in
        let! detail :=
          match errorData with
          | JNull => Throw (TypeError E (lit "error"))
          | _ =>
              match get errorData (lit "error") with
              | None | Some JNull => Ok None
              | Some err => Ok (get err (lit "message"))
              end
          end in
        Throw (lit "OpenAI API error: " ++ of_nat (N.to_nat status) ++ lit " - "
               ++ (if truthy detail
                   then match detail with
                        | Some (JString s) => s
                        | Some d => String_of E d
                        | None => []
                        end
                   else lit "Unknown error"))
      else
        let! data := json in
        parseOpenAIResponse E data
  end.

(** [extractTopics(syllabusText)]: the response, and the requests sent to the
    network, in order. [startTime] and [endTime] are the two readings of
    [Date.now()]. *)
Definition extractTopics (E : Engine) (config : OpenAIConfig)
    (fetch : Request -> FetchResult) (startTime endTime : Z)
    (syllabusText : jsstring) : TopicExtractionResponse * list Request :=
  if is_empty (apiKey config) then
    (failure (lit "OpenAI API key not configured"), [])
  else if is_empty syllabusText || (length (trim syllabusText) <? 50)%nat then
    (failure (lit "Syllabus text is too short. Please provide more detailed content."), [])
  else
    let cleanedText := cleanSyllabusText syllabusText in
    let prompt := createExtractionPrompt cleanedText in
    let request := build_request config prompt in
    match handle_response E (fetch request) with
    | Ok topics =>
        ({| success := true;
            topics := topics;
            error := None;
            metadata := Some {| totalTopics := length topics;
                                processingTime := endTime - startTime;
                                confidence := calculateConfidence topics |} |},
         [request])
    | Throw message => (failure (getErrorMessage message), [request])
    end.

End TopicExtractionService.

(* ===================================================================== *)
(** * The document reader's clean-up (FileReaderService) *)
(* ===================================================================== *)

Module FileReaderService.
Import Str.

(** The characters kept by [.replace(/[^\x20-\x7E\n]/g, '')]. *)
Definition is_printable (c : N) : bool :=
  ((32 <=? c) && (c <=? 126) || (c =? LF))%N.

(** [^\s+|\s+$] with the [g] flag removes the white space at both ends, as
    [trim] does. *)
Definition cleanExtractedText (text : jsstring) : jsstring :=
  if is_empty text then []
  else
    substring0 10000
      (filter is_printable
         (trim
            (collapse_blanks false
               (collapse_newlines 0
                  (replace_cr
                     (replace_crlf text)))))).

Record FileInfo : Type := {
  uri : jsstring;
  name : jsstring;
  type : jsstring;
  size : N
}.

Record FileMetadata : Type := {
  fileName : jsstring;
  fileSize : N;
  fileType : jsstring;
  processingTime : Z;
  textLength : nat
}.

Record FileReadResult : Type := {
  success : bool;
  text : option jsstring;
  error : option jsstring;
  metadata : option FileMetadata
}.

Record Validation : Type := {
  isValid : bool;
  validation_error : option jsstring
}.

Definition maxSize : N := 50 * 1024 * 1024.

Definition supportedTypes : list jsstring :=
  [ lit "application/pdf";
    lit "application/msword";
    lit "application/vnd.openxmlformats-officedocument.wordprocessingml.document" ].

Definition validateFile (file : FileInfo) : Validation :=
  if (maxSize <? size file)%N then
    {| isValid := false;
       validation_error := Some (lit "File size exceeds 50MB limit. Please use a smaller file.") |}
  else
    let isSupported :=
      existsb (fun t => includes (type file) t) supportedTypes
      || endsWith (name file) (lit ".pdf")
      || endsWith (name file) (lit ".doc")
      || endsWith (name file) (lit ".docx") in
    if negb isSupported then
      {| isValid := false;
         validation_error :=
           Some (lit "Unsupported file type. Please select a PDF or Word document.") |}
    else {| isValid := true; validation_error := None |}.

Definition getMockPDFContent (fileName : jsstring) : jsstring :=
  trim (join [LF]
    [ [];
      lit "  Course Syllabus: Advanced Computer Science";
      lit "  Professor: Dr. Emily Chen";
      lit "  Department: Computer Science";
      lit "  Semester: Fall 2024";
      lit "  ";
      lit "  Course Description:";
      lit "  This advanced course covers sophisticated topics in computer science including advanced algorithms, data structures, machine learning fundamentals, and software architecture patterns. Students will engage in hands-on projects and research.";
      lit "  ";
      lit "  Learning Objectives:";
      lit "  Upon completion of this course, students will be able to:";
      lit "  - Design and analyze complex algorithms and data structures";
      lit "  - Understand machine learning concepts and applications";
      lit "  - Implement scalable software architecture patterns";
      lit "  - Conduct independent research in computer science";
      lit "  - Work effectively in team-based development projects";
      lit "  ";
      lit "  Course Topics and Schedule:";
      lit "  ";
      lit "  Week 1-2: Advanced Algorithm Analysis";
      lit "  - Time and space complexity analysis";
      lit "  - Advanced sorting and searching algorithms";
      lit "  - Dynamic programming techniques";
      lit "  - Graph algorithms and optimization";
      lit "  ";
      lit "  Week 3-4: Advanced Data Structures";
      lit "  - Self-balancing trees (AVL, Red-Black)";
      lit "  - Hash tables and collision resolution";
      lit "  - Heaps and priority queues";
      lit "  - Disjoint set data structures";
      lit "  ";
      lit "  Week 5-6: Machine Learning Fundamentals";
      lit "  - Supervised learning algorithms";
      lit "  - Unsupervised learning techniques";
      lit "  - Neural networks and deep learning basics";
      lit "  - Model evaluation and validation";
      lit "  ";
      lit "  Week 7-8: Software Architecture Patterns";
      lit "  - Design patterns and principles";
      lit "  - Microservices architecture";
      lit "  - Event-driven systems";
      lit "  - Scalability and performance optimization";
      lit "  ";
      lit "  Week 9-10: Database Systems and Big Data";
      lit "  - Advanced SQL and query optimization";
      lit "  - NoSQL databases and use cases";
      lit "  - Big data processing frameworks";
      lit "  - Data warehouse concepts";
      lit "  ";
      lit "  Week 11-12: Distributed Systems";
      lit "  - Consensus algorithms";
      lit "  - Fault tolerance and reliability";
      lit "  - Load balancing and caching strategies";
      lit "  - Cloud computing concepts";
      lit "  ";
      lit "  Week 13-14: Security and Cryptography";
      lit "  - Cryptographic algorithms and protocols";
      lit "  - Web application security";
      lit "  - Network security principles";
      lit "  - Privacy and data protection";
      lit "  ";
      lit "  Week 15-16: Final Projects and Presentations";
      lit "  - Independent research projects";
      lit "  - Peer code reviews";
      lit "  - Project presentations";
      lit "  - Course reflection and feedback";
      lit "  ";
      lit "  Assessment Methods:";
      lit "  - Programming Assignments: 40%";
      lit "  - Midterm Examination: 20%";
      lit "  - Final Project: 25%";
      lit "  - Class Participation: 10%";
      lit "  - Peer Reviews: 5%";
      lit "  ";
      lit "  Required Materials:";
      lit "  - " ++ [QUOTE] ++ lit "Introduction to Algorithms" ++ [QUOTE] ++ lit " by Cormen, Leiserson, Rivest, and Stein";
      lit "  - " ++ [QUOTE] ++ lit "Designing Data-Intensive Applications" ++ [QUOTE] ++ lit " by Martin Kleppmann";
      lit "  - Access to development environment (provided)";
      lit "  ";
      lit "  Prerequisites:";
      lit "  - Data Structures and Algorithms (CS 201)";
      lit "  - Software Engineering (CS 301)";
      lit "  - Statistics (MATH 203)";
      lit "  ";
      lit "  Office Hours:";
      lit "  Monday, Wednesday, Friday: 2:00-4:00 PM";
      lit "  Or by appointment";
      lit "  ";
      lit "  Course Policies:";
      lit "  - Late assignments penalized 10% per day";
      lit "  - Collaboration encouraged on projects, individual work on exams";
      lit "  - Academic integrity strictly enforced";
      lit "  - Regular attendance expected";
      lit "      " ]).

Definition getMockWordContent (fileName : jsstring) : jsstring :=
  trim (join [LF]
    [ [];
      lit "  Business Analytics 301";
      lit "  Professor: Dr. Michael Rodriguez";
      lit "  School of Business Administration";
      lit "  Spring 2024";
      lit "  ";
      lit "  COURSE OVERVIEW";
      lit "  ";
      lit "  This course introduces students to the fundamental concepts and techniques of business analytics. Students will learn to use data-driven approaches to solve business problems and make strategic decisions.";
      lit "  ";
      lit "  LEARNING OUTCOMES";
      lit "  ";
      lit "  By the end of this course, students will be able to:";
      lit "  1. Apply statistical methods to business data analysis";
      lit "  2. Use analytics software tools for data visualization";
      lit "  3. Interpret and communicate analytical findings";
      lit "  4. Develop data-driven business recommendations";
      lit "  5. Understand ethical considerations in data analytics";
      lit "  ";
      lit "  COURSE CONTENT";
      lit "  ";
      lit "  Module 1: Introduction to Business Analytics (Weeks 1-2)";
      lit "  - Overview of analytics in business";
      lit "  - Types of analytics: descriptive, predictive, prescriptive";
      lit "  - Data sources and collection methods";
      lit "  - Analytics project lifecycle";
      lit "  ";
      lit "  Module 2: Statistical Foundations (Weeks 3-4)";
      lit "  - Descriptive statistics and data summarization";
      lit "  - Probability distributions";
      lit "  - Hypothesis testing";
      lit "  - Correlation and regression analysis";
      lit "  ";
      lit "  Module 3: Data Visualization (Weeks 5-6)";
      lit "  - Principles of effective visualization";
      lit "  - Chart types and when to use them";
      lit "  - Dashboard design";
      lit "  - Storytelling with data";
      lit "  ";
      lit "  Module 4: Predictive Analytics (Weeks 7-9)";
      lit "  - Linear and logistic regression";
      lit "  - Decision trees and random forests";
      lit "  - Clustering techniques";
      lit "  - Model validation and selection";
      lit "  ";
      lit "  Module 5: Business Intelligence (Weeks 10-11)";
      lit "  - Data warehousing concepts";
      lit "  - OLAP and data cubes";
      lit "  - Key performance indicators (KPIs)";
      lit "  - Balanced scorecard methodology";
      lit "  ";
      lit "  Module 6: Advanced Topics (Weeks 12-13)";
      lit "  - Text analytics and sentiment analysis";
      lit "  - Social media analytics";
      lit "  - Customer analytics and segmentation";
      lit "  - Supply chain analytics";
      lit "  ";
      lit "  Module 7: Ethics and Implementation (Weeks 14-15)";
      lit "  - Privacy and data protection";
      lit "  - Bias in analytics models";
      lit "  - Change management for analytics";
      lit "  - Building an analytics culture";
      lit "  ";
      lit "  Module 8: Final Projects (Week 16)";
      lit "  - Student project presentations";
      lit "  - Peer feedback and discussion";
      lit "  - Course wrap-up and reflection";
      lit "  ";
      lit "  ASSESSMENT STRUCTURE";
      lit "  ";
      lit "  Individual Assignments: 30%";
      lit "  - Weekly analytics exercises";
      lit "  - Software proficiency demonstrations";
      lit "  - Case study analyses";
      lit "  ";
      lit "  Group Project: 35%";
      lit "  - Real-world business analytics project";
      lit "  - Data collection and analysis";
      lit "  - Final presentation and report";
      lit "  ";
      lit "  Examinations: 30%";
      lit "  - Midterm exam (15%)";
      lit "  - Final exam (15%)";
      lit "  ";
      lit "  Class Participation: 5%";
      lit "  - Discussion contributions";
      lit "  - Peer feedback";
      lit "  - Workshop activities";
      lit "  ";
      lit "  REQUIRED RESOURCES";
      lit "  ";
      lit "  Textbooks:";
      lit "  - " ++ [QUOTE] ++ lit "Business Analytics: Data Analysis and Decision Making" ++ [QUOTE] ++ lit " by Albright & Winston";
      lit "  - " ++ [QUOTE] ++ lit "Storytelling with Data" ++ [QUOTE] ++ lit " by Cole Nussbaumer Knaflic";
      lit "  ";
      lit "  Software:";
      lit "  - Microsoft Excel with Analysis ToolPak";
      lit "  - Tableau (student license provided)";
      lit "  - R or Python (optional but recommended)";
      lit "  ";
      lit "  COURSE POLICIES";
      lit "  ";
      lit "  Attendance: Regular attendance is expected. More than two unexcused absences may result in grade reduction.";
      lit "  ";
      lit "  Late Work: Assignments submitted late will be penalized 5% per day unless prior arrangements are made.";
      lit "  ";
      lit "  Academic Integrity: All work must be original. Proper citation required for all sources. Collaboration guidelines will be specified for each assignment.";
      lit "  ";
      lit "  Accommodations: Students with documented disabilities should contact the Office of Disability Services to arrange reasonable accommodations.";
      lit "  ";
      lit "  SCHEDULE OF IMPORTANT DATES";
      lit "  ";
      lit "  January 15: Course begins";
      lit "  February 19: Midterm exam";
      lit "  March 11-15: Spring break (no classes)";
      lit "  April 16: Group project presentations begin";
      lit "  May 7: Final exam";
      lit "  May 10: Course ends";
      lit "      " ]).

(** The two extractors are stubs: they return the embedded text whatever
    the file holds; the [catch] that wraps their errors is kept. *)
Definition extractFromPDF (file : FileInfo) : outcome jsstring :=
  match Ok (getMockPDFContent (name file)) with
  | Ok t => Ok t
  | Throw message => Throw (lit "Failed to extract text from PDF: " ++ message)
  end.

Definition extractFromWord (file : FileInfo) : outcome jsstring :=
  match Ok (getMockWordContent (name file)) with
  | Ok t => Ok t
  | Throw message => Throw (lit "Failed to extract text from Word document: " ++ message)
  end.

(** [getErrorMessage(error)] of the reader, on the [message] of the error. *)
Definition getErrorMessage (error_message : jsstring) : jsstring :=
  let message := if is_empty error_message then lit "Unknown error" else error_message in
  if includes message (lit "network") || includes message (lit "fetch") then
    lit "Network error while reading file. Please check your connection and try again."
  else if includes message (lit "permission") || includes message (lit "access") then
    lit "Permission denied. Please ensure the app has access to read files."
  else if includes message (lit "corrupted") || includes message (lit "invalid") then
    lit "The file appears to be corrupted or invalid. Please try a different file."
  else
    lit "File reading failed: " ++ message.

Definition rejected (message : option jsstring) : FileReadResult :=
  {| success := false; text := None; error := message; metadata := None |}.

(** The body of the [try] block of [readFileText]. *)
Definition read_body (startTime endTime : Z) (file : FileInfo) : outcome FileReadResult :=
  let validation := validateFile file in
  if negb (isValid validation) then Ok (rejected (validation_error validation))
  else
    let extracted :=
      if includes (type file) (lit "pdf") then Some (extractFromPDF file)
      else if includes (type file) (lit "word") || includes (type file) (lit "document")
              || endsWith (name file) (lit ".docx")
           then Some (extractFromWord file)
           else None in
    match extracted with
    | None => Ok (rejected (Some (lit "Unsupported file type: " ++ type file)))
    | Some (Throw message) => Throw message
    | Some (Ok extractedText) =>
        let cleanedText := cleanExtractedText extractedText in
        if is_empty cleanedText || (length cleanedText <? 50)%nat then
          Ok (rejected (Some (lit "Could not extract meaningful text from the file. The file may be image-based or corrupted.")))
        else
          Ok {| success := true;
                text := Some cleanedText;
                error := None;
                metadata := Some {| fileName := name file;
                                    fileSize := size file;
                                    fileType := type file;
                                    processingTime := endTime - startTime;
                                    textLength := length cleanedText |} |}
    end.

(** [readFileText(file)]; [startTime] and [endTime] are the two readings of
    [Date.now()]. *)
Definition readFileText (startTime endTime : Z) (file : FileInfo) : FileReadResult :=
  match read_body startTime endTime file with
  | Ok result => result
  | Throw message => rejected (Some (getErrorMessage message))
  end.

(** [testWithSampleFile()] *)
Definition testWithSampleFile (startTime endTime : Z) : FileReadResult :=
  readFileText startTime endTime
    {| uri := lit "file://sample-syllabus.pdf";
       name := lit "CS-Advanced-Syllabus.pdf";
       type := lit "application/pdf";
       size := 1024 * 500 |}.

End FileReaderService.

(* ===================================================================== *)
(** * The review screen's editable list (ReviewTopicsScreen) *)
(* ===================================================================== *)

Module ReviewTopicsScreen.
Import Str TopicExtractionService.

(** [filtered.map((topic, index) => ({...topic, order: index + 1}))] *)
Fixpoint reorder (index : nat) (topics : list ExtractedTopic) : list ExtractedTopic :=
  match topics with
  | [] => []
  | topic :: rest =>
      {| id := id topic;
         title := title topic;
         order := Z.of_nat (index + 1);
         keywords := keywords topic |} :: reorder (S index) rest
  end.

(** The state update of [addNewTopic]; [now] is the reading of [Date.now()]. *)
Definition addNewTopic (now : N) (topics : list ExtractedTopic) : list ExtractedTopic :=
  let newTopic :=
    {| id := lit "topic-" ++ of_N now;
       title := lit "New Topic";
       order := Z.of_nat (length topics + 1);
       keywords := Some [] |} in
  topics ++ [newTopic].

(** The state update of [removeTopic], once the removal is confirmed. *)
Definition removeTopic (topicId : jsstring) (prevTopics : list ExtractedTopic)
  : list ExtractedTopic :=
  let filtered := filter (fun topic => negb (Str.eqb (id topic) topicId)) prevTopics in
  reorder 0 filtered.

(** The three pieces of state of the screen. *)
Record State : Type := {
  topics : list ExtractedTopic;
  editingId : option jsstring;
  editingTitle : jsstring
}.

Definition startEditing (topicId currentTitle : jsstring) (st : State) : State :=
  {| topics := topics st; editingId := Some topicId; editingTitle := currentTitle |}.

(** [addNewTopic()]: the topic is appended and its title is put in edition. *)
Definition addNewTopic_action (now : N) (st : State) : State :=
  startEditing (lit "topic-" ++ of_N now) (lit "New Topic")
    {| topics := addNewTopic now (topics st);
       editingId := editingId st;
       editingTitle := editingTitle st |}.

Definition rename (target newTitle : jsstring) (topic : ExtractedTopic) : ExtractedTopic :=
  if Str.eqb (id topic) target
  then {| id := id topic; title := newTitle; order := order topic; keywords := keywords topic |}
  else topic.

Definition saveEdit (st : State) : State :=
  match editingId st with
  | None => st
  | Some target =>
      if is_empty target || is_empty (trim (editingTitle st)) then st
      else {| topics := List.map (rename target (trim (editingTitle st))) (topics st);
              editingId := None;
              editingTitle := [] |}
  end.

Definition cancelEdit (st : State) : State :=
  {| topics := topics st; editingId := None; editingTitle := [] |}.

(** [setEditingTitle(text)]: the [onChangeText] of the title field. *)
Definition setEditingTitle (text : jsstring) (st : State) : State :=
  {| topics := topics st; editingId := editingId st; editingTitle := text |}.

(** The state when the screen opens: the three [useState] calls. *)
Definition initial (initialTopics : list ExtractedTopic) : State :=
  {| topics := initialTopics; editingId := None; editingTitle := [] |}.

Definition removeTopic_action (topicId : jsstring) (st : State) : State :=
  {| topics := removeTopic topicId (topics st);
     editingId := editingId st;
     editingTitle := editingTitle st |}.

(** [handleSave()]: the list handed to [onSave] once the user confirms, or
    nothing when the screen only shows the alert [No Topics]. *)
Definition handleSave (st : State) : option (list ExtractedTopic) :=
  if (length (topics st) =? 0)%nat then None else Some (topics st).

End ReviewTopicsScreen.

(* ===================================================================== *)
(** * The course detail screen (CourseDetailScreen) *)
(* ===================================================================== *)

Module CourseDetailScreen.
Import Str.

Inductive Status : Type := ended | urgent | active.

(** The colours of the theme that the status uses. *)
Inductive Color : Type := textLight | accent | textSecondary.

Record CourseStatus : Type := {
  text : jsstring;
  color : Color;
  status : Status
}.

(** [Math.ceil(a / b)] for integers [a] and [b > 0]. The quotient is exact
    here; the program computes it on floating-point numbers. *)
Definition ceil_div (a b : Z) : Z := (- ((- a) / b))%Z.

(** [getCourseStatus()], for valid dates: [endTime] and [today] are the
    readings [end.getTime()] and [today.getTime()], in milliseconds. *)
Definition getCourseStatus (endTime today : Z) : CourseStatus :=
  let diffTime := (endTime - today)%Z in
  let diffDays := ceil_div diffTime (1000 * 60 * 60 * 24) in
  if (diffDays <? 0)%Z then
    {| text := lit "Ended " ++ of_N (Z.to_N (Z.abs diffDays)) ++ lit " days ago";
       color := textLight; status := ended |}
  else if (diffDays <=? 7)%Z then
    {| text := of_N (Z.to_N diffDays) ++ lit " day"
               ++ (if (diffDays =? 1)%Z then [] else lit "s") ++ lit " remaining";
       color := accent; status := urgent |}
  else
    let weeks := ceil_div diffDays 7 in
    {| text := of_N (Z.to_N weeks) ++ lit " week"
               ++ (if (weeks =? 1)%Z then [] else lit "s") ++ lit " remaining";
       color := textSecondary; status := active |}.

End CourseDetailScreen.

(* ===================================================================== *)
(** * The hosted backend (the Supabase client) *)
(* ===================================================================== *)

(** The backend is an external service. It is modelled as two tables and a
    session, with an answer chosen by the environment for every call: the
    call is served, refused with an error object, or it throws. *)
Module Supabase.
Import Str.

Record Course : Type := {
  course_id : jsstring;
  userId : jsstring;
  name : jsstring;
  endDate : jsstring;
  description : option jsstring;
  syllabusUrl : option jsstring;
  topicsExtracted : bool;
  course_createdAt : jsstring;
  updatedAt : jsstring
}.

Record Topic : Type := {
  id : jsstring;
  courseId : jsstring;
  title : jsstring;
  content : jsstring;
  orderIndex : Z;
  createdAt : jsstring
}.

(** A row given to [insert]: the identifier is chosen by the database. *)
Record NewTopic : Type := {
  new_courseId : jsstring;
  new_title : jsstring;
  new_content : jsstring;
  new_orderIndex : Z;
  new_createdAt : jsstring
}.

Record PostgrestError : Type := {
  pg_message : jsstring;
  pg_code : option jsstring
}.

Inductive Answer : Type :=
| Served
| Refused (e : PostgrestError)
| Broken (message : jsstring).

Record Backend : Type := {
  session : option jsstring;   (** the identifier of the signed-in user *)
  courses : list Course;
  topics : list Topic;
  next_row : nat;              (** source of fresh row identifiers *)
  clock : jsstring;            (** [new Date().toISOString()] *)
  answers : list Answer        (** answers to the coming calls; none left: served *)
}.

Definition with_answers (a : list Answer) (w : Backend) : Backend :=
  {| session := session w; courses := courses w; topics := topics w;
     next_row := next_row w; clock := clock w; answers := a |}.

Definition with_topics (t : list Topic) (n : nat) (w : Backend) : Backend :=
  {| session := session w; courses := courses w; topics := t;
     next_row := n; clock := clock w; answers := answers w |}.

Definition with_courses (c : list Course) (w : Backend) : Backend :=
  {| session := session w; courses := c; topics := topics w;
     next_row := next_row w; clock := clock w; answers := answers w |}.

(** Computations that call the backend and may throw. *)
Definition M (A : Type) : Type := Backend -> outcome A * Backend.

Definition ret {A} (a : A) : M A := fun w => (Ok a, w).

Definition bind {A B} (m : M A) (f : A -> M B) : M B :=
  fun w =>
    match m w with
    | (Ok a, w') => f a w'
    | (Throw e, w') => (Throw e, w')
    end.

(** [try { m } catch (error) { handler(error) }] *)
Definition try_catch {A} (m : M A) (handler : jsstring -> M A) : M A :=
  fun w =>
    match m w with
    | (Ok a, w') => (Ok a, w')
    | (Throw e, w') => handler e w'
    end.

Declare Scope backend_scope.
Delimit Scope backend_scope with backend.
Notation "x <- m ;; k" := (bind m (fun x => k))
  (at level 61, m at next level, right associativity) : backend_scope.
Local Open Scope backend_scope.

(** Every call takes the next answer. *)
Definition next_answer : M Answer :=
  fun w =>
    match answers w with
    | [] => (Ok Served, w)
    | a :: rest => (Ok a, with_answers rest w)
    end.

Definition throw {A} (message : jsstring) : M A := fun w => (Throw message, w).

Definition now : M jsstring := fun w => (Ok (clock w), w).

(** The result of a call: [{ data, error }]. *)
Definition Reply (A : Type) : Type := (PostgrestError + A)%type.

Definition call {A} (serve : Backend -> Reply A * Backend) : M (Reply A) :=
  a <- next_answer ;;
  match a with
  | Served => fun w => let (r, w') := serve w in (Ok r, w')
  | Refused e => ret (inl e)
  | Broken message => throw message
  end.

(** The error of [.single()] when the rows are not exactly one. *)
Definition not_single : PostgrestError :=
  {| pg_message := lit "JSON object requested, multiple (or no) rows returned";
     pg_code := Some (lit "PGRST116") |}.

Definition single {A} (rows : list A) : Reply A :=
  match rows with
  | [row] => inr row
  | _ => inl not_single
  end.

(** [supabase.auth.getUser()]: the user of the response, if any. *)
Definition auth_getUser : M (option jsstring) :=
  r <- call (fun w => (inr (session w), w)) ;;
  match r with
  | inr user => ret user
  | inl _ => ret None
  end.

(** [from('courses').select(..).eq('id', courseId).eq('userId', userId).single()] *)
Definition courses_owned (courseId user : jsstring) (w : Backend) : list Course :=
  filter (fun c => Str.eqb (course_id c) courseId && Str.eqb (userId c) user) (courses w).

Definition select_course_of_user (courseId user : jsstring) : M (Reply Course) :=
  call (fun w => (single (courses_owned courseId user w), w)).

(** [from('topics').delete().eq('courseId', courseId)] *)
Definition remove_topics_of_course (courseId : jsstring) (w : Backend) : Backend :=
  with_topics (filter (fun t => negb (Str.eqb (Supabase.courseId t) courseId)) (topics w))
              (next_row w) w.

Definition delete_topics_of_course (courseId : jsstring) : M (Reply unit) :=
  call (fun w => (inr tt, remove_topics_of_course courseId w)).

Definition row_id (n : nat) : jsstring := lit "row-" ++ of_nat n.

Fixpoint store_rows (n : nat) (rows : list NewTopic) : list Topic :=
  match rows with
  | [] => []
  | r :: rest =>
      {| id := row_id n;
         courseId := new_courseId r;
         title := new_title r;
         content := new_content r;
         orderIndex := new_orderIndex r;
         createdAt := new_createdAt r |} :: store_rows (S n) rest
  end.

Definition add_rows (rows : list NewTopic) (w : Backend) : Backend :=
  with_topics (topics w ++ store_rows (next_row w) rows) (next_row w + length rows) w.

(** [from('topics').insert(rows).select()] *)
Definition insert_topics (rows : list NewTopic) : M (Reply (list Topic)) :=
  call (fun w => (inr (store_rows (next_row w) rows), add_rows rows w)).

(** [from('topics').insert(row).select().single()] *)
Definition insert_topic (row : NewTopic) : M (Reply Topic) :=
  call (fun w => (single (store_rows (next_row w) [row]), add_rows [row] w)).

(** The row update [{topicsExtracted: true, updatedAt: stamp}]. *)
Definition set_topics_extracted (stamp : jsstring) (c : Course) : Course :=
  {| course_id := course_id c; userId := userId c; name := name c;
     endDate := endDate c; description := description c;
     syllabusUrl := syllabusUrl c; topicsExtracted := true;
     course_createdAt := course_createdAt c; updatedAt := stamp |}.

(** [from('courses').update({topicsExtracted: true, updatedAt}).eq('id', courseId)] *)
Definition mark_course (courseId stamp : jsstring) (w : Backend) : Backend :=
  with_courses
    (List.map (fun c =>
       if Str.eqb (course_id c) courseId then set_topics_extracted stamp c else c)
       (courses w)) w.

Definition mark_topics_extracted (courseId stamp : jsstring) : M (Reply unit) :=
  call (fun w => (inr tt, mark_course courseId stamp w)).

(** Rows in ascending [orderIndex]; rows with equal keys keep their order. *)
Fixpoint insert_sorted (t : Topic) (sorted : list Topic) : list Topic :=
  match sorted with
  | [] => [t]
  | u :: rest =>
      if (orderIndex t <? orderIndex u)%Z then t :: sorted
      else u :: insert_sorted t rest
  end.

Definition order_by_orderIndex (rows : list Topic) : list Topic :=
  fold_right insert_sorted [] rows.

Definition topics_of_course (courseId : jsstring) (w : Backend) : list Topic :=
  filter (fun t => Str.eqb (Supabase.courseId t) courseId) (topics w).

(** [from('topics').select('*').eq('courseId', courseId).order('orderIndex')] *)
Definition select_topics_of_course (courseId : jsstring) : M (Reply (list Topic)) :=
  call (fun w => (inr (order_by_orderIndex (topics_of_course courseId w)), w)).

(** [from('topics').select('courseId, courses!inner(userId)').eq('id', topicId).single()]:
    the topic joined with its course; the reply carries the owner of the
    course. *)
Definition owners_of_topic (topicId : jsstring) (w : Backend) : list jsstring :=
  flat_map (fun t =>
      List.map userId
        (filter (fun c => Str.eqb (course_id c) (Supabase.courseId t)) (courses w)))
    (filter (fun t => Str.eqb (id t) topicId) (topics w)).

Definition select_owner_of_topic (topicId : jsstring) : M (Reply jsstring) :=
  call (fun w => (single (owners_of_topic topicId w), w)).

(** The fields given to [update]: [Partial<Pick<Topic, 'title' | 'content' |
    'orderIndex'>>]. *)
Record TopicPatch : Type := {
  patch_title : option jsstring;
  patch_content : option jsstring;
  patch_orderIndex : option Z
}.

Definition apply_patch (patch : TopicPatch) (t : Topic) : Topic :=
  {| id := id t;
     courseId := Supabase.courseId t;
     title := match patch_title patch with Some x => x | None => title t end;
     content := match patch_content patch with Some x => x | None => content t end;
     orderIndex := match patch_orderIndex patch with Some x => x | None => orderIndex t end;
     createdAt := createdAt t |}.

Definition patch_topic_row (topicId : jsstring) (patch : TopicPatch) (w : Backend) : Backend :=
  with_topics
    (List.map (fun t => if Str.eqb (id t) topicId then apply_patch patch t else t) (topics w))
    (next_row w) w.

(** [from('topics').update(updates).eq('id', topicId).select().single()] *)
Definition update_topic_row (topicId : jsstring) (patch : TopicPatch) : M (Reply Topic) :=
  call (fun w =>
    (single (List.map (apply_patch patch)
               (filter (fun t => Str.eqb (id t) topicId) (topics w))),
     patch_topic_row topicId patch w)).

(** [from('topics').delete().eq('id', topicId)] *)
Definition remove_topic_row (topicId : jsstring) (w : Backend) : Backend :=
  with_topics (filter (fun t => negb (Str.eqb (id t) topicId)) (topics w)) (next_row w) w.

Definition delete_topic_row (topicId : jsstring) : M (Reply unit) :=
  call (fun w => (inr tt, remove_topic_row topicId w)).

End Supabase.

(* ===================================================================== *)
(** * The topic persistence gateway (TopicService) *)
(* ===================================================================== *)

Module TopicService.
Import Str Supabase.
Local Open Scope backend_scope.

Definition ExtractedTopic := TopicExtractionService.ExtractedTopic.

(** The [details] field, which holds the raw error, is left out. *)
Record ServiceError : Type := {
  message : jsstring;
  code : option jsstring
}.

Record ServiceResponse (T : Type) : Type := {
  data : option T;
  error : option ServiceError;
  success : bool
}.

Definition failed {T} (msg : jsstring) (c : option jsstring) : ServiceResponse T :=
  {| data := None; error := Some {| message := msg; code := c |}; success := false |}.

Definition succeeded {T} (d : T) : ServiceResponse T :=
  {| data := Some d; error := None; success := true |}.

Definition getCurrentUserId : M (option jsstring) :=
  try_catch
    (user <- auth_getUser ;;
     match user with
     | Some uid => if is_empty uid then ret None else ret (Some uid)
     | None => ret None
     end)
    (fun _ => ret None).

Definition verifyCourseOwnership (courseId : jsstring) : M bool :=
  try_catch
    (userId <- getCurrentUserId ;;
     match userId with
     | None => ret false
     | Some uid =>
         r <- select_course_of_user courseId uid ;;
         match r with
         | inl _ => ret false
         | inr _ => ret true
         end
     end)
    (fun _ => ret false).

(** [extractedTopics.map((topic, index) => ({...}))] of [saveTopicsForCourse] *)
Fixpoint topicsToInsert (courseId stamp : jsstring) (index : nat)
    (extractedTopics : list ExtractedTopic) : list NewTopic :=
  match extractedTopics with
  | [] => []
  | topic :: rest =>
      {| new_courseId := courseId;
         new_title := TopicExtractionService.title topic;
         new_content :=
           match TopicExtractionService.keywords topic with
           | Some ks => join (lit ", ") ks
           | None => []
           end;
         new_orderIndex :=
           if (TopicExtractionService.order topic =? 0)%Z
           then Z.of_nat (index + 1)
           else TopicExtractionService.order topic;
         new_createdAt := stamp |} :: topicsToInsert courseId stamp (S index) rest
  end.

Definition saveTopicsForCourse (courseId : jsstring)
    (extractedTopics : list ExtractedTopic) : M (ServiceResponse (list Topic)) :=
  try_catch
    (userId <- getCurrentUserId ;;
     match userId with
     | None => ret (failed (lit "User not authenticated") None)
     | Some _ =>
         hasAccess <- verifyCourseOwnership courseId ;;
         if negb hasAccess then
           ret (failed (lit "Course not found or access denied") None)
         else
           deleted <- delete_topics_of_course courseId ;;
           match deleted with
           | inl deleteError =>
               ret (failed (lit "Failed to clear existing topics") (pg_code deleteError))
           | inr _ =>
               stamp <- now ;;
               let rows := topicsToInsert courseId stamp 0 extractedTopics in
               if (length rows =? 0)%nat then
                 _ <- mark_topics_extracted courseId stamp ;;
                 ret (succeeded [])
               else
                 inserted <- insert_topics rows ;;
                 match inserted with
                 | inl e => ret (failed (lit "Failed to save topics") (pg_code e))
                 | inr stored =>
                     _ <- mark_topics_extracted courseId stamp ;;
                     ret (succeeded stored)
                 end
           end
     end)
    (fun _ => ret (failed (lit "Network error while saving topics") None)).

Definition getTopicsForCourse (courseId : jsstring) : M (ServiceResponse (list Topic)) :=
  try_catch
    (userId <- getCurrentUserId ;;
     match userId with
     | None => ret (failed (lit "User not authenticated") None)
     | Some _ =>
         hasAccess <- verifyCourseOwnership courseId ;;
         if negb hasAccess then
           ret (failed (lit "Course not found or access denied") None)
         else
           r <- select_topics_of_course courseId ;;
           match r with
           | inl e => ret (failed (lit "Failed to fetch topics") (pg_code e))
           | inr rows => ret (succeeded rows)
           end
     end)
    (fun _ => ret (failed (lit "Network error while fetching topics") None)).

(** [Pick<Topic, 'title' | 'content' | 'orderIndex'>] *)
Record TopicData : Type := {
  data_title : jsstring;
  data_content : jsstring;
  data_orderIndex : Z
}.

Definition createTopic (courseId : jsstring) (topicData : TopicData)
  : M (ServiceResponse Topic) :=
  try_catch
    (userId <- getCurrentUserId ;;
     match userId with
     | None => ret (failed (lit "User not authenticated") None)
     | Some _ =>
         hasAccess <- verifyCourseOwnership courseId ;;
         if negb hasAccess then
           ret (failed (lit "Course not found or access denied") None)
         else
           stamp <- now ;;
           r <- insert_topic {| new_courseId := courseId;
                                new_title := data_title topicData;
                                new_content := data_content topicData;
                                new_orderIndex := data_orderIndex topicData;
                                new_createdAt := stamp |} ;;
           match r with
           | inl e => ret (failed (lit "Failed to create topic") (pg_code e))
           | inr row => ret (succeeded row)
           end
     end)
    (fun _ => ret (failed (lit "Network error while creating topic") None)).

Definition deleteTopic (topicId : jsstring) : M (ServiceResponse bool) :=
  try_catch
    (userId <- getCurrentUserId ;;
     match userId with
     | None => ret (failed (lit "User not authenticated") None)
     | Some uid =>
         topic <- select_owner_of_topic topicId ;;
         match topic with
         | inl _ => ret (failed (lit "Topic not found or access denied") None)
         | inr owner =>
             if negb (Str.eqb owner uid) then
               ret (failed (lit "Topic not found or access denied") None)
             else
               r <- delete_topic_row topicId ;;
               match r with
               | inl e => ret (failed (lit "Failed to delete topic") (pg_code e))
               | inr _ => ret (succeeded true)
               end
         end
     end)
    (fun _ => ret (failed (lit "Network error while deleting topic") None)).

Definition updateTopic (topicId : jsstring) (updates : TopicPatch)
  : M (ServiceResponse Topic) :=
  try_catch
    (userId <- getCurrentUserId ;;
     match userId with
     | None => ret (failed (lit "User not authenticated") None)
     | Some uid =>
         topic <- select_owner_of_topic topicId ;;
         match topic with
         | inl _ => ret (failed (lit "Topic not found or access denied") None)
         | inr owner =>
             if negb (Str.eqb owner uid) then
               ret (failed (lit "Topic not found or access denied") None)
             else
               r <- update_topic_row topicId updates ;;
               match r with
               | inl e => ret (failed (lit "Failed to update topic") (pg_code e))
               | inr row => ret (succeeded row)
               end
         end
     end)
    (fun _ => ret (failed (lit "Network error while updating topic") None)).

(** [content.split(', ').filter(k => k.trim())] *)
Definition keywords_of_content (content : jsstring) : list jsstring :=
  filter (fun k => negb (is_empty (trim k))) (split (lit ", ") content).

Definition topicToExtractedTopic (topic : Topic) : ExtractedTopic :=
  {| TopicExtractionService.id := id topic;
     TopicExtractionService.title := title topic;
     TopicExtractionService.order := orderIndex topic;
     TopicExtractionService.keywords :=
       Some (if is_empty (content topic) then []
             else keywords_of_content (content topic)) |}.

(** [Omit<Topic, 'id' | 'createdAt'>] *)
Record TopicFields : Type := {
  f_courseId : jsstring;
  f_title : jsstring;
  f_content : jsstring;
  f_orderIndex : Z
}.

Definition extractedTopicToTopic (extractedTopic : ExtractedTopic) (courseId : jsstring)
  : TopicFields :=
  {| f_courseId := courseId;
     f_title := TopicExtractionService.title extractedTopic;
     f_content :=
       match TopicExtractionService.keywords extractedTopic with
       | Some ks => join (lit ", ") ks
       | None => []
       end;
     f_orderIndex := TopicExtractionService.order extractedTopic |}.

End TopicService.

(* ===================================================================== *)
(** * The screen that reads a syllabus and extracts its topics
      (AddContentScreen) *)
(* ===================================================================== *)

Module AddContentScreen.
Import Str.

(** The alert that [processSyllabus] ends with. The button of [Extracted]
    hands the topics to [onComplete], which opens the review screen. *)
Inductive Alert : Type :=
| NoFile
| Extracted (topics : list TopicExtractionService.ExtractedTopic)
| ProcessingFailed (message : jsstring).

(** [message || fallback] *)
Definition or_else (message : option jsstring) (fallback : string) : jsstring :=
  match message with
  | Some m => if is_empty m then lit fallback else m
  | None => lit fallback
  end.

(** The [try] block of [processSyllabus]: the topics or the error thrown,
    and the requests sent to the provider. [readStart], [readEnd],
    [startTime] and [endTime] are the readings of [Date.now()] in the
    reader and in the extraction client. *)
Definition process_body (E : TopicExtractionService.Engine)
    (config : TopicExtractionService.OpenAIConfig)
    (fetch : TopicExtractionService.Request -> TopicExtractionService.FetchResult)
    (readStart readEnd startTime endTime : Z) (selectedFile : FileReaderService.FileInfo)
  : outcome (list TopicExtractionService.ExtractedTopic)
    * list TopicExtractionService.Request :=
  let fileInfo :=
    {| FileReaderService.uri := FileReaderService.uri selectedFile;
       FileReaderService.name := FileReaderService.name selectedFile;
       FileReaderService.type := FileReaderService.type selectedFile;
       FileReaderService.size := FileReaderService.size selectedFile |} in
  let fileResult := FileReaderService.readFileText readStart readEnd fileInfo in
  match FileReaderService.success fileResult, FileReaderService.text fileResult with
  | true, Some text =>
      if is_empty text then
        (Throw (or_else (FileReaderService.error fileResult) "Failed to read file content"), [])
      else
        let (topicsResult, sent) :=
          TopicExtractionService.extractTopics E config fetch startTime endTime text in
        if negb (TopicExtractionService.success topicsResult) then
          (Throw (or_else (TopicExtractionService.error topicsResult)
                    "Failed to extract topics"), sent)
        else (Ok (TopicExtractionService.topics topicsResult), sent)
  | _, _ =>
      (Throw (or_else (FileReaderService.error fileResult) "Failed to read file content"), [])
  end.

Definition processSyllabus (E : TopicExtractionService.Engine)
    (config : TopicExtractionService.OpenAIConfig)
    (fetch : TopicExtractionService.Request -> TopicExtractionService.FetchResult)
    (readStart readEnd startTime endTime : Z)
    (selectedFile : option FileReaderService.FileInfo)
  : Alert * list TopicExtractionService.Request :=
  match selectedFile with
  | None => (NoFile, [])
  | Some file =>
      match process_body E config fetch readStart readEnd startTime endTime file with
      | (Ok topics, sent) => (Extracted topics, sent)
      | (Throw message, sent) =>
          (ProcessingFailed (or_else (Some message) "Failed to process syllabus"), sent)
      end
  end.

End AddContentScreen.

(* ===================================================================== *)
(** * The topic actions of the course store (useCourseStore) *)
(* ===================================================================== *)

Module CourseStore.
Import Str Supabase.
Local Open Scope backend_scope.

Record State : Type := {
  courses : list Course;
  selectedCourse : option Course;
  isLoading : bool;
  error : option jsstring;
  topics : list Topic;
  isLoadingTopics : bool;
  topicError : option jsstring
}.

Definition initial : State :=
  {| courses := []; selectedCourse := None; isLoading := false; error := None;
     topics := []; isLoadingTopics := false; topicError := None |}.

(** [set({ topics, isLoadingTopics, topicError })] *)
Definition set_topics (t : list Topic) (loading : bool) (e : option jsstring) (st : State)
  : State :=
  {| courses := courses st; selectedCourse := selectedCourse st;
     isLoading := isLoading st; error := error st;
     topics := t; isLoadingTopics := loading; topicError := e |}.

(** [set({ courses, selectedCourse })] *)
Definition set_courses (c : list Course) (sel : option Course) (st : State) : State :=
  {| courses := c; selectedCourse := sel;
     isLoading := isLoading st; error := error st;
     topics := topics st; isLoadingTopics := isLoadingTopics st;
     topicError := topicError st |}.

Definition resetTopics (st : State) : State := set_topics [] false None st.

(** [response.error?.message || fallback] *)
Definition error_text {T} (response : TopicService.ServiceResponse T) (fallback : string)
  : jsstring :=
  match TopicService.error response with
  | Some e => if is_empty (TopicService.message e) then lit fallback
              else TopicService.message e
  | None => lit fallback
  end.

Definition network_error : jsstring := lit "Network error - please check your connection".

Definition fetchTopicsForCourse (courseId : jsstring) (st : State) : M State :=
  let st := set_topics (topics st) true None st in
  try_catch
    (response <- TopicService.getTopicsForCourse courseId ;;
     match TopicService.success response, TopicService.data response with
     | true, Some rows => ret (set_topics rows false None st)
     | _, _ => ret (set_topics [] false (Some (error_text response "Failed to fetch topics")) st)
     end)
    (fun _ => ret (set_topics [] false (Some network_error) st)).

Definition saveTopicsForCourse (courseId : jsstring)
    (extractedTopics : list TopicExtractionService.ExtractedTopic) (st : State)
  : M (bool * State) :=
  let st := set_topics (topics st) true None st in
  try_catch
    (response <- TopicService.saveTopicsForCourse courseId extractedTopics ;;
     match TopicService.success response, TopicService.data response with
     | true, Some rows =>
         let st := set_topics rows false None st in
         stamp <- now ;;
         let mark c :=
           if Str.eqb (course_id c) courseId then set_topics_extracted stamp c else c in
         ret (true, set_courses (List.map mark (courses st))
                      (option_map mark (selectedCourse st)) st)
     | _, _ =>
         ret (false,
              set_topics (topics st) false
                (Some (error_text response "Failed to save topics")) st)
     end)
    (fun _ => ret (false, set_topics (topics st) false (Some network_error) st)).

Definition createTopic (courseId : jsstring) (topicData : TopicService.TopicData) (st : State)
  : M (bool * State) :=
  let st := set_topics (topics st) true None st in
  try_catch
    (response <- TopicService.createTopic courseId topicData ;;
     match TopicService.success response, TopicService.data response with
     | true, Some row => ret (true, set_topics (topics st ++ [row]) false None st)
     | _, _ =>
         ret (false,
              set_topics (topics st) false
                (Some (error_text response "Failed to create topic")) st)
     end)
    (fun _ => ret (false, set_topics (topics st) false (Some network_error) st)).

Definition updateTopic (topicId : jsstring) (updates : TopicPatch) (st : State)
  : M (bool * State) :=
  let st := set_topics (topics st) true None st in
  try_catch
    (response <- TopicService.updateTopic topicId updates ;;
     match TopicService.success response, TopicService.data response with
     | true, Some row =>
         ret (true,
              set_topics
                (List.map (fun topic => if Str.eqb (id topic) topicId then row else topic)
                   (topics st)) false None st)
     | _, _ =>
         ret (false,
              set_topics (topics st) false
                (Some (error_text response "Failed to update topic")) st)
     end)
    (fun _ => ret (false, set_topics (topics st) false (Some network_error) st)).

Definition deleteTopic (topicId : jsstring) (st : State) : M (bool * State) :=
  let st := set_topics (topics st) true None st in
  try_catch
    (response <- TopicService.deleteTopic topicId ;;
     if TopicService.success response then
       ret (true,
            set_topics (filter (fun topic => negb (Str.eqb (id topic) topicId)) (topics st))
              false None st)
     else
       ret (false,
            set_topics (topics st) false
              (Some (error_text response "Failed to delete topic")) st))
    (fun _ => ret (false, set_topics (topics st) false (Some network_error) st)).

End CourseStore.

(* ===================================================================== *)
(** * Vocabulary of the properties *)
(* ===================================================================== *)

Module Spec.
Import Str Json.

(** A well-formed entry of the provider's [topics] array: an object whose
    [title] is a non-empty string. *)
Definition titled (entry : value) : Prop :=
  exists s, get entry (lit "title") = Some (JString s) /\ s <> [].

(** The [keywords] of the topic made from an entry. *)
Definition keywords_of_entry (entry : value) : option (list jsstring) :=
  match get entry (lit "keywords") with
  | Some (JArray ks) => Some (TopicExtractionService.strings_of ks)
  | _ => None
  end.

(** The first choice's message content of the provider's response is a
    non-empty text that parses to an object whose [topics] is the array
    [entries]. *)
Definition provider_response (E : TopicExtractionService.Engine) (data : value)
    (entries : list value) : Prop :=
  exists s parsed,
    TopicExtractionService.response_content E data = Ok (Some (JString s)) /\
    s <> [] /\
    TopicExtractionService.JSON_parse E (JString s) = Ok parsed /\
    get parsed (lit "topics") = Some (JArray entries).

(** The topic [t] is the one made from the entry [e] at position [i]
    (counted from 0) of the array. *)
Definition topic_of_entry (i : nat) (e : value)
    (t : TopicExtractionService.ExtractedTopic) : Prop :=
  TopicExtractionService.id t = lit "topic-" ++ of_nat (i + 1) /\
  TopicExtractionService.order t = Z.of_nat (i + 1) /\
  TopicExtractionService.keywords t = keywords_of_entry e /\
  exists s, get e (lit "title") = Some (JString s) /\
            TopicExtractionService.title t = trim s.

(** The substrings that [getErrorMessage] looks for. *)
Definition recognized (m : jsstring) : bool :=
  includes m (lit "API key") || includes m (lit "quota") || includes m (lit "billing")
  || includes m (lit "rate limit") || includes m (lit "network")
  || includes m (lit "fetch").

(** A keyword that survives the round trip through the [content] column:
    it does not contain the separator and is not blank. *)
Definition plain_keyword (k : jsstring) : Prop :=
  includes k (lit ", ") = false /\ is_empty (trim k) = false.

(** The row that the database makes of the fields it is given. *)
Definition stored_topic (rid created : jsstring) (f : TopicService.TopicFields)
  : Supabase.Topic :=
  {| Supabase.id := rid;
     Supabase.courseId := TopicService.f_courseId f;
     Supabase.title := TopicService.f_title f;
     Supabase.content := TopicService.f_content f;
     Supabase.orderIndex := TopicService.f_orderIndex f;
     Supabase.createdAt := created |}.

(** The backend once the next call has been answered. *)
Definition pop (w : Supabase.Backend) : Supabase.Backend :=
  Supabase.with_answers (tl (Supabase.answers w)) w.

(** The backend after the three calls that authenticate the caller and look
    the course up. *)
Definition checked (w : Supabase.Backend) : Supabase.Backend := pop (pop (pop w)).

(** Every coming call of the backend is served. *)
Definition all_served (w : Supabase.Backend) : Prop :=
  Forall (fun a => a = Supabase.Served) (Supabase.answers w).

(** The next [n] calls of the backend are served. *)
Definition served_calls (n : nat) (w : Supabase.Backend) : Prop :=
  Forall (fun a => a = Supabase.Served) (firstn n (Supabase.answers w)).

(** The caller is signed in as [uid] and the ownership lookup finds the
    course [c]. *)
Definition owns (w : Supabase.Backend) (uid courseId : jsstring) (c : Supabase.Course)
  : Prop :=
  Supabase.session w = Some uid /\ is_empty uid = false /\
  Supabase.courses_owned courseId uid w = [c].

(** The order indices of the stored topics of a course, in table order. *)
Definition course_orders (courseId : jsstring) (w : Supabase.Backend) : list Z :=
  List.map Supabase.orderIndex (Supabase.topics_of_course courseId w).

(** The numbers 1..n. *)
Definition one_to (n : nat) : list Z := List.map Z.of_nat (seq 1 n).

(** Order indices that are 1..n in some order: unique and without gaps. *)
Definition dense (orders : list Z) : Prop :=
  Permutation orders (one_to (length orders)).

(** The orders of the review screen's list are 1..n in array order. *)
Definition packed (topics : list TopicExtractionService.ExtractedTopic) : Prop :=
  List.map TopicExtractionService.order topics = one_to (length topics).

(** The steps shared by the two clean-up functions, before the characters
    are filtered and the text is cut. *)
Definition normalize (s : jsstring) : jsstring :=
  trim (collapse_blanks false (collapse_newlines 0 (replace_cr (replace_crlf s)))).

(** No run of line feeds is longer than two; [seen] line feeds come just
    before the text. *)
Fixpoint nl_ok (seen : nat) (s : jsstring) : Prop :=
  match s with
  | [] => True
  | c :: t => if (c =? LF)%N then (seen < 2)%nat /\ nl_ok (S seen) t else nl_ok 0 t
  end.

(** Every space stands alone and there is no tab; [prev] tells that a space
    comes just before the text. *)
Fixpoint blank_ok (prev : bool) (s : jsstring) : Prop :=
  match s with
  | [] => True
  | c :: t =>
      if is_blank c then c = SPACE /\ prev = false /\ blank_ok true t
      else blank_ok false t
  end.

Definition no_cr (s : jsstring) : Prop := Forall (fun c => (c =? CR)%N = false) s.

(** Printable ASCII, line feed, tab and carriage return. *)
Definition plain_char (c : N) : bool :=
  FileReaderService.is_printable c || (c =? TAB)%N || (c =? CR)%N.

(** The separator of the keywords in the [content] column: a comma and a
    space. *)
Definition sep : jsstring := [44; 32]%N.

(** The session and the two tables are the same in both backends. *)
Definition same_tables (w w' : Supabase.Backend) : Prop :=
  Supabase.session w' = Supabase.session w /\
  Supabase.courses w' = Supabase.courses w /\
  Supabase.topics w' = Supabase.topics w.

(** Every field of a course but its flag and its time of update. *)
Definition course_core (c : Supabase.Course) :=
  (Supabase.course_id c, Supabase.userId c, Supabase.name c, Supabase.endDate c,
   Supabase.description c, Supabase.syllabusUrl c, Supabase.course_createdAt c).

(** A course row is as it was, or it is the row of [courseId] with its flag
    set and nothing changed but the flag and the time of update. *)
Definition course_step (courseId : jsstring) (c c' : Supabase.Course) : Prop :=
  c' = c \/
  (Supabase.course_id c = courseId /\ course_core c' = course_core c /\
   Supabase.topicsExtracted c' = true).

Definition other_topics (courseId : jsstring) (w : Supabase.Backend) : list Supabase.Topic :=
  filter (fun t => negb (Str.eqb (Supabase.courseId t) courseId)) (Supabase.topics w).

(** What [saveTopicsForCourse] may change. *)
Definition save_frame (courseId : jsstring) (w w' : Supabase.Backend) : Prop :=
  Supabase.session w' = Supabase.session w /\
  other_topics courseId w' = other_topics courseId w /\
  Forall2 (course_step courseId) (Supabase.courses w) (Supabase.courses w').

(** What [createTopic] may change: rows of the course are appended. *)
Definition create_frame (courseId : jsstring) (w w' : Supabase.Backend) : Prop :=
  Supabase.session w' = Supabase.session w /\
  Supabase.courses w' = Supabase.courses w /\
  exists added,
    Supabase.topics w' = Supabase.topics w ++ added /\
    Forall (fun t => Supabase.courseId t = courseId) added.

(** What [updateTopic] may change: the title, content and order index of the
    rows with the given identifier. *)
Definition update_frame (topicId : jsstring) (w w' : Supabase.Backend) : Prop :=
  Supabase.session w' = Supabase.session w /\
  Supabase.courses w' = Supabase.courses w /\
  Forall2 (fun t t' =>
             Supabase.id t' = Supabase.id t /\
             Supabase.courseId t' = Supabase.courseId t /\
             Supabase.createdAt t' = Supabase.createdAt t /\
             (Supabase.id t <> topicId -> t' = t))
    (Supabase.topics w) (Supabase.topics w').

(** What [deleteTopic] may change: the rows with the given identifier go. *)
Definition delete_frame (topicId : jsstring) (w w' : Supabase.Backend) : Prop :=
  Supabase.session w' = Supabase.session w /\
  Supabase.courses w' = Supabase.courses w /\
  (Supabase.topics w' = Supabase.topics w \/
   Supabase.topics w'
   = filter (fun t => negb (Str.eqb (Supabase.id t) topicId)) (Supabase.topics w)).

(** A relation between the backend before and after that is a preorder and
    does not look at the answers to come. *)
Record frame (R : Supabase.Backend -> Supabase.Backend -> Prop) : Prop := {
  frame_refl : forall w, R w w;
  frame_trans : forall w1 w2 w3, R w1 w2 -> R w2 w3 -> R w1 w3;
  frame_answers : forall w a, R w (Supabase.with_answers a w)
}.

(** The computation keeps the relation, whatever the backend answers. *)
Definition keeps (R : Supabase.Backend -> Supabase.Backend -> Prop) {A}
    (m : Supabase.M A) : Prop :=
  forall w, R w (snd (m w)).

(** The caller is signed in as the one owner that the lookup of the topic
    finds. *)
Definition owns_topic (w : Supabase.Backend) (uid topicId : jsstring) : Prop :=
  Supabase.session w = Some uid /\ is_empty uid = false /\
  Supabase.owners_of_topic topicId w = [uid].

(** The rows that the database makes of the topics saved for a course. *)
Definition stored_rows (w : Supabase.Backend) (courseId : jsstring)
    (ets : list TopicExtractionService.ExtractedTopic) : list Supabase.Topic :=
  Supabase.store_rows (Supabase.next_row w)
    (TopicService.topicsToInsert courseId (Supabase.clock w) 0 ets).

(** The request that [extractTopics] sends for a text. *)
Definition request_for (config : TopicExtractionService.OpenAIConfig) (text : jsstring)
  : TopicExtractionService.Request :=
  TopicExtractionService.build_request config
    (TopicExtractionService.createExtractionPrompt
       (TopicExtractionService.cleanSyllabusText text)).

(** What [readFileText] returns once a text has been extracted and cleaned. *)
Definition read_result (startTime endTime : Z) (file : FileReaderService.FileInfo)
    (cleanedText : jsstring) : FileReaderService.FileReadResult :=
  if is_empty cleanedText || (length cleanedText <? 50)%nat then
    FileReaderService.rejected
      (Some (lit "Could not extract meaningful text from the file. The file may be image-based or corrupted."))
  else
    {| FileReaderService.success := true;
       FileReaderService.text := Some cleanedText;
       FileReaderService.error := None;
       FileReaderService.metadata :=
         Some {| FileReaderService.fileName := FileReaderService.name file;
                 FileReaderService.fileSize := FileReaderService.size file;
                 FileReaderService.fileType := FileReaderService.type file;
                 FileReaderService.processingTime := endTime - startTime;
                 FileReaderService.textLength := length cleanedText |} |}.

(** What the user does on the review screen, once an alert is confirmed. *)
Inductive event : Type :=
| AddPressed (now : N)
| TitlePressed (topicId currentTitle : jsstring)
| TitleTyped (text : jsstring)
| EditSubmitted
| EditCancelled
| RemoveConfirmed (topicId : jsstring).

Definition handle (st : ReviewTopicsScreen.State) (e : event) : ReviewTopicsScreen.State :=
  match e with
  | AddPressed now => ReviewTopicsScreen.addNewTopic_action now st
  | TitlePressed topicId currentTitle => ReviewTopicsScreen.startEditing topicId currentTitle st
  | TitleTyped text => ReviewTopicsScreen.setEditingTitle text st
  | EditSubmitted => ReviewTopicsScreen.saveEdit st
  | EditCancelled => ReviewTopicsScreen.cancelEdit st
  | RemoveConfirmed topicId => ReviewTopicsScreen.removeTopic_action topicId st
  end.

(** The state of the screen after the events, in order. *)
Definition after (events : list event) (st : ReviewTopicsScreen.State)
  : ReviewTopicsScreen.State :=
  fold_left handle events st.

(** The topic [t] of the screen comes from a topic the screen was opened
    with, or from a press on the add button: it has the identifier and the
    keywords of its origin. *)
Definition comes_from (initialTopics : list TopicExtractionService.ExtractedTopic)
    (events : list event) (t : TopicExtractionService.ExtractedTopic) : Prop :=
  (exists t0, In t0 initialTopics /\
              TopicExtractionService.id t = TopicExtractionService.id t0 /\
              TopicExtractionService.keywords t = TopicExtractionService.keywords t0) \/
  (exists now, In (AddPressed now) events /\
               TopicExtractionService.id t = lit "topic-" ++ of_N now /\
               TopicExtractionService.keywords t = Some []).

(** The topics are numbered from 1 in array order, in their identifiers and
    in their orders. *)
Definition numbered (topics : list TopicExtractionService.ExtractedTopic) : Prop :=
  forall i t, nth_error topics i = Some t ->
    TopicExtractionService.id t = lit "topic-" ++ of_nat (i + 1) /\
    TopicExtractionService.order t = Z.of_nat (i + 1).

(** The computation does not throw and what it returns satisfies [P],
    whatever the backend answers. *)
Definition returns {A} (P : A -> Prop) (m : Supabase.M A) : Prop :=
  forall w, exists a, fst (m w) = Ok a /\ P a.

(** What the computation returns, if it does, satisfies [P]. *)
Definition yields {A} (P : A -> Prop) (m : Supabase.M A) : Prop :=
  forall w a, fst (m w) = Ok a -> P a.

(** The two shapes of a response of the gateway. *)
Definition well_formed {T} (r : TopicService.ServiceResponse T) : Prop :=
  (TopicService.success r = true /\ (exists d, TopicService.data r = Some d) /\
   TopicService.error r = None) \/
  (TopicService.success r = false /\ TopicService.data r = None /\
   exists e, TopicService.error r = Some e /\ TopicService.message e <> []).

(** What [processSyllabus] does with the text that was read: the topics
    or the error thrown, and the requests sent. *)
Definition extract_step (E : TopicExtractionService.Engine)
    (config : TopicExtractionService.OpenAIConfig)
    (fetch : TopicExtractionService.Request -> TopicExtractionService.FetchResult)
    (startTime endTime : Z) (text : jsstring)
  : outcome (list TopicExtractionService.ExtractedTopic)
    * list TopicExtractionService.Request :=
  let (topicsResult, sent) :=
    TopicExtractionService.extractTopics E config fetch startTime endTime text in
  if negb (TopicExtractionService.success topicsResult) then
    (Throw (AddContentScreen.or_else (TopicExtractionService.error topicsResult)
              "Failed to extract topics"), sent)
  else (Ok (TopicExtractionService.topics topicsResult), sent).

(** The two texts that the reader gives, for a PDF and for a Word document. *)
Definition pdf_text : jsstring :=
  FileReaderService.cleanExtractedText (FileReaderService.getMockPDFContent []).

Definition word_text : jsstring :=
  FileReaderService.cleanExtractedText (FileReaderService.getMockWordContent []).

(** The confidence of a list of [n] topics, given the numbers [fk] of the
    topics with keywords and [fn] of the topics. *)
Definition confidence_of (n : nat) (fk fn : float) : float :=
  let score := 0%float in
  let score := if (0 <? n)%nat then (score + 40)%float else score in
  let score := if ((5 <=? n) && (n <=? 15))%nat then (score + 30)%float else score in
  let score := (score + (fk / fn) * 30)%float in
  Num.min 100 (Num.max 0 score).

(** The confidence of [n] topics, [k] of them with keywords, is between 40
    and 100, and is 100 exactly when [n] is 5 to 15 and [k] is [n]. *)
Definition confidence_in_range (n k : nat) (fn fk : float) : bool :=
  let c := confidence_of n fk fn in
  PrimFloat.leb 40 c && PrimFloat.leb c 100
  && Bool.eqb (PrimFloat.eqb c 100) ((5 <=? n) && (n <=? 15) && (k =? n))%nat.

(** The counts 0..bound with their numbers. *)
Definition counts (bound : nat) : list (nat * float) :=
  List.map (fun n => (n, Num.of_nat n)) (seq 0 (S bound)).

(** The check of [confidence_in_range] for every 1 <= n <= bound and
    every k <= n. *)
Definition confidence_table (bound : nat) : bool :=
  let rows := counts bound in
  forallb (fun row => let (n, fn) := row : nat * float in
                      (n =? 0)%nat
                      || forallb (fun col => let (k, fk) := col : nat * float in
                                             confidence_in_range n k fn fk)
                           (firstn (S n) rows)) rows.

(** The milliseconds of a day. *)
Definition day : Z := 1000 * 60 * 60 * 24.

(** The test by which [readFileText] chooses the Word extractor. *)
Definition word_like (file : FileReaderService.FileInfo) : bool :=
  includes (FileReaderService.type file) (lit "word")
  || includes (FileReaderService.type file) (lit "document")
  || endsWith (FileReaderService.name file) (lit ".docx").

End Spec.

(* ===================================================================== *)
(** * Concrete inputs used in the examples *)
(* ===================================================================== *)

Module Fixtures.
Import Str Json TopicExtractionService.

Definition quoted (s : string) : jsstring := [QUOTE] ++ lit s ++ [QUOTE].

(** The text [{"topics":[]}] (written here without its quotes: {topics:[]}). *)
Definition content_no_topics : jsstring :=
  lit "{" ++ quoted "topics" ++ lit ":[]}".

(** The text of an object with one topic, titled Limits, whose keywords are
    the array [a, 2, b, null] (a and b being strings). *)
Definition content_one_topic : jsstring :=
  lit "{" ++ quoted "topics" ++ lit ":[{" ++ quoted "title" ++ lit ":"
  ++ quoted "Limits" ++ lit "," ++ quoted "keywords" ++ lit ":[" ++ quoted "a"
  ++ lit ",2," ++ quoted "b" ++ lit ",null]}]}".

Definition entry_limits : value :=
  JObject [(lit "title", JString (lit "Limits"));
           (lit "keywords", JArray [JString (lit "a"); JNum 2%Q; JString (lit "b"); JNull])].

Definition entry_numeric_keywords : value :=
  JObject [(lit "title", JString (lit "Limits"));
           (lit "keywords", JArray [JNum 2%Q; JNull])].

(** An engine that parses the two texts above and rejects every other. *)
Definition engine : Engine :=
  {| JSON_parse := fun v =>
       match v with
       | JString s =>
           if Str.eqb s content_no_topics then Ok (JObject [(lit "topics", JArray [])])
           else if Str.eqb s content_one_topic
                then Ok (JObject [(lit "topics", JArray [entry_limits])])
                else Throw (lit "Unexpected token")
       | _ => Throw (lit "Unexpected token")
       end;
     String_of := fun _ => lit "[object Object]";
     TypeError := fun name => lit "Cannot read property " ++ name ++ lit " of null" |}.

Definition reply (content : jsstring) : value :=
  JObject [(lit "choices",
            JArray [JObject [(lit "message",
                              JObject [(lit "content", JString content)])]])].

Definition config : OpenAIConfig := initialize default_config (lit "sk-test").

Definition syllabus : jsstring :=
  lit "Week 1: Limits and continuity. Week 2: Derivatives and their applications.".

Definition network (content : jsstring) : Request -> FetchResult :=
  fun _ => Response 200 (Ok (reply content)).

Definition stamp : jsstring := lit "2025-01-10T09:00:00.000Z".

(** A course of user [u1] whose topics were extracted before. *)
Definition calculus : Supabase.Course :=
  {| Supabase.course_id := lit "c1";
     Supabase.userId := lit "u1";
     Supabase.name := lit "Calculus";
     Supabase.endDate := lit "2025-06-30";
     Supabase.description := None;
     Supabase.syllabusUrl := None;
     Supabase.topicsExtracted := true;
     Supabase.course_createdAt := stamp;
     Supabase.updatedAt := stamp |}.

Definition row (n : nat) (name : string) (index : Z) : Supabase.Topic :=
  {| Supabase.id := Supabase.row_id n;
     Supabase.courseId := lit "c1";
     Supabase.title := lit name;
     Supabase.content := [];
     Supabase.orderIndex := index;
     Supabase.createdAt := stamp |}.

(** User [u1] is signed in; the course has the given stored topics. *)
Definition backend (rows : list Supabase.Topic) (answers : list Supabase.Answer)
  : Supabase.Backend :=
  {| Supabase.session := Some (lit "u1");
     Supabase.courses := [calculus];
     Supabase.topics := rows;
     Supabase.next_row := 10;
     Supabase.clock := lit "2025-02-01T12:00:00.000Z";
     Supabase.answers := answers |}.

Definition three_rows : list Supabase.Topic :=
  [row 1 "Limits" 1; row 2 "Derivatives" 2; row 3 "Integrals" 3].

Definition extracted (n : nat) (name : string) : ExtractedTopic :=
  {| id := lit "topic-" ++ of_nat n;
     title := lit name;
     order := Z.of_nat n;
     keywords := None |}.

Definition constraint_violation : Supabase.PostgrestError :=
  {| Supabase.pg_message := lit "new row violates check constraint";
     Supabase.pg_code := Some (lit "23514") |}.

(** The delete of [saveTopicsForCourse] is served, the insert is refused. *)
Definition insert_refused : list Supabase.Answer :=
  [Supabase.Served; Supabase.Served; Supabase.Served; Supabase.Served;
   Supabase.Refused constraint_violation].

(** The body of the provider's answer to a request with a wrong key. *)
Definition unauthorized_body : value :=
  JObject [(lit "error",
            JObject [(lit "message",
                      JString (lit "Incorrect API key provided: sk-test."));
                     (lit "type", JString (lit "invalid_request_error"))])].

Definition blank_title_entry : value :=
  JObject [(lit "title", JString (lit "   "))].

(** The text of an object with one topic whose title is three spaces. *)
Definition content_blank_title : jsstring :=
  lit "{" ++ quoted "topics" ++ lit ":[{" ++ quoted "title" ++ lit ":"
  ++ quoted "   " ++ lit "}]}".

(** An engine that parses this text and rejects every other. *)
Definition engine_blank : Engine :=
  {| JSON_parse := fun v =>
       match v with
       | JString s =>
           if Str.eqb s content_blank_title
           then Ok (JObject [(lit "topics", JArray [blank_title_entry])])
           else Throw (lit "Unexpected token")
       | _ => Throw (lit "Unexpected token")
       end;
     String_of := fun _ => lit "[object Object]";
     TypeError := fun name => lit "Cannot read property " ++ name ++ lit " of null" |}.

(** A PDF picked on a device that reports a generic content type. *)
Definition octet_stream_pdf : FileReaderService.FileInfo :=
  {| FileReaderService.uri := lit "content://downloads/12";
     FileReaderService.name := lit "syllabus.pdf";
     FileReaderService.type := lit "application/octet-stream";
     FileReaderService.size := 204800 |}.

Definition plain_pdf : FileReaderService.FileInfo :=
  {| FileReaderService.uri := lit "file:///docs/cs.pdf";
     FileReaderService.name := lit "cs.pdf";
     FileReaderService.type := lit "application/pdf";
     FileReaderService.size := 204800 |}.

Definition word_file : FileReaderService.FileInfo :=
  {| FileReaderService.uri := lit "file:///docs/ba.docx";
     FileReaderService.name := lit "ba.docx";
     FileReaderService.type := lit "application/msword";
     FileReaderService.size := 1024 |}.

Definition series (index : Z) : TopicService.TopicData :=
  {| TopicService.data_title := lit "Series";
     TopicService.data_content := [];
     TopicService.data_orderIndex := index |}.

Definition rate_limit_message : jsstring :=
  lit "OpenAI API error: 429 - Rate limit reached for gpt-3.5-turbo. Please add a payment method to your account to increase your rate limit. Visit https://platform.openai.com/account/billing to add a payment method.".

(** A line with a bullet (U+2022) between two spaces. *)
Definition bulleted : jsstring := lit "Week 1 " ++ [8226%N] ++ lit " Limits".

(** 7,999 letters, a space and one more letter. *)
Definition long_line : jsstring := repeat 97%N (N.to_nat 7999) ++ lit " b".

(** A text with a tab, blank runs and four line breaks in a row. *)
Definition untidy : jsstring :=
  lit "  Week 1:" ++ [TAB] ++ lit "  Limits  " ++ [CR; LF; CR; LF; CR; LF; CR; LF]
  ++ lit "Week 2:  Derivatives " ++ [CR].

(** The provider's answer to a request with a wrong key. *)
Definition unauthorized : Request -> FetchResult :=
  fun _ => Response 401 (Ok unauthorized_body).

(** Nobody is signed in; the tables hold the course and three topics. *)
Definition signed_out (rows : list Supabase.Topic) (answers : list Supabase.Answer)
  : Supabase.Backend :=
  {| Supabase.session := None;
     Supabase.courses := [calculus];
     Supabase.topics := rows;
     Supabase.next_row := 10;
     Supabase.clock := lit "2025-02-01T12:00:00.000Z";
     Supabase.answers := answers |}.

(** The delete and the insert of [saveTopicsForCourse] are served, the
    update of the course is refused. *)
Definition flag_update_refused : list Supabase.Answer :=
  [Supabase.Served; Supabase.Served; Supabase.Served; Supabase.Served;
   Supabase.Served; Supabase.Refused constraint_violation].

Definition extracted_with (n : nat) (name : string) (ks : list jsstring) : ExtractedTopic :=
  {| id := lit "topic-" ++ of_nat n;
     title := lit name;
     order := Z.of_nat n;
     keywords := Some ks |}.

(** A course of user [u1] whose topics were never extracted. *)
Definition algebra : Supabase.Course :=
  {| Supabase.course_id := lit "c2";
     Supabase.userId := lit "u1";
     Supabase.name := lit "Algebra";
     Supabase.endDate := lit "2025-06-30";
     Supabase.description := None;
     Supabase.syllabusUrl := None;
     Supabase.topicsExtracted := false;
     Supabase.course_createdAt := stamp;
     Supabase.updatedAt := stamp |}.

(** A topic stored for the second course. *)
Definition algebra_row : Supabase.Topic :=
  {| Supabase.id := Supabase.row_id 4;
     Supabase.courseId := lit "c2";
     Supabase.title := lit "Groups";
     Supabase.content := [];
     Supabase.orderIndex := 1;
     Supabase.createdAt := stamp |}.

(** For an empty list, the delete of [saveTopicsForCourse] is served and
    the update of the course that follows is refused. *)
Definition update_refused : list Supabase.Answer :=
  [Supabase.Served; Supabase.Served; Supabase.Served; Supabase.Served;
   Supabase.Refused constraint_violation].

(** The delete of [saveTopicsForCourse] is refused. *)
Definition delete_refused : list Supabase.Answer :=
  [Supabase.Served; Supabase.Served; Supabase.Served;
   Supabase.Refused constraint_violation].

(** User [u1] is signed in and has the two courses. *)
Definition two_courses (answers : list Supabase.Answer) : Supabase.Backend :=
  {| Supabase.session := Some (lit "u1");
     Supabase.courses := [calculus; algebra];
     Supabase.topics := three_rows ++ [algebra_row];
     Supabase.next_row := 10;
     Supabase.clock := lit "2025-02-01T12:00:00.000Z";
     Supabase.answers := answers |}.

(** The store of this user, who looks at the second course. *)
Definition store_of_two : CourseStore.State :=
  {| CourseStore.courses := [calculus; algebra];
     CourseStore.selectedCourse := Some algebra;
     CourseStore.isLoading := false;
     CourseStore.error := None;
     CourseStore.topics := [];
     CourseStore.isLoadingTopics := false;
     CourseStore.topicError := None |}.

(** The store of a user who looks at the course and its three topics. *)
Definition store (rows : list Supabase.Topic) : CourseStore.State :=
  {| CourseStore.courses := [calculus];
     CourseStore.selectedCourse := Some calculus;
     CourseStore.isLoading := false;
     CourseStore.error := None;
     CourseStore.topics := rows;
     CourseStore.isLoadingTopics := false;
     CourseStore.topicError := None |}.

Definition three_topics : list ExtractedTopic :=
  [extracted 1 "Limits"; extracted 2 "Series"; extracted 3 "Integrals"].

(** The user adds a topic, names it, then removes the first topic. *)
Definition edits : list Spec.event :=
  [Spec.AddPressed 1738411200000; Spec.TitleTyped (lit " Vectors "); Spec.EditSubmitted;
   Spec.RemoveConfirmed (lit "topic-1")].

End Fixtures.

(* ===================================================================== *)
(** * Properties of the topic extraction client *)
(* ===================================================================== *)

Section ExtractionProperties.
Import Str Json TopicExtractionService Spec.

Variable E : Engine.

Lemma includes_nil (p : jsstring) : p <> [] -> includes [] p = false.
Proof. destruct p; [congruence | reflexivity]. Qed.

Lemma includes_nonempty (m p : jsstring) :
  p <> [] -> includes m p = true -> is_empty m = false.
Proof.
  intros Hp H. destruct m; [|reflexivity].
  rewrite includes_nil in H by assumption. discriminate.
Qed.

Lemma strings_of_filter (ks : list value) :
  List.map JString (strings_of ks) = filter isString ks.
Proof.
  induction ks as [|k ks IH]; [reflexivity|].
  destruct k; simpl; try exact IH. now rewrite IH.
Qed.

Lemma parse_topic_titled (entry : value) (index : nat) (s : jsstring) :
  get entry (lit "title") = Some (JString s) -> s <> [] ->
  parse_topic E entry index =
    Ok {| id := lit "topic-" ++ of_nat (index + 1);
          title := trim s;
          order := Z.of_nat (index + 1);
          keywords := keywords_of_entry entry |}.
Proof.
  intros Hget Hs. destruct entry; simpl in Hget; try discriminate.
  unfold parse_topic, keywords_of_entry. simpl obind.
  cbv beta. unfold get at 1. rewrite Hget. simpl truthy.
  destruct s as [|c s]; [congruence|]. reflexivity.
Qed.

Lemma map_indexed_titled (entries : list value) : forall index,
  Forall titled entries ->
  exists ts,
    map_indexed (parse_topic E) index entries = Ok ts /\
    length ts = length entries /\
    forall i e, nth_error entries i = Some e ->
      exists t, nth_error ts i = Some t /\ topic_of_entry (index + i) e t.
Proof.
  induction entries as [|e0 entries IH]; intros index Hall.
  - exists []. split; [reflexivity|]. split; [reflexivity|].
    intros [|i] e He; discriminate.
  - inversion Hall as [|? ? [s [Hget Hs]] Hrest]; subst.
    destruct (IH (S index) Hrest) as [ts [Hmap [Hlen Hnth]]].
    eexists. simpl map_indexed.
    rewrite (parse_topic_titled e0 index Hget Hs), Hmap.
    split; [reflexivity|]. split; [simpl; now rewrite Hlen|].
    intros [|i] e He; simpl in He.
    + inversion He; subst. eexists. split; [reflexivity|].
      rewrite Nat.add_0_r. unfold topic_of_entry; simpl.
      repeat split. now exists s.
    + destruct (Hnth i e He) as [t [Ht Hrel]].
      exists t. split; [exact Ht|].
      now replace (index + S i)%nat with (S index + i)%nat by lia.
Qed.

Lemma parse_body_titled (data : value) (entries : list value) :
  provider_response E data entries ->
  Forall titled entries ->
  entries <> [] ->
  exists ts,
    parseOpenAIResponse E data = Ok ts /\
    length ts = length entries /\
    forall i e, nth_error entries i = Some e ->
      exists t, nth_error ts i = Some t /\ topic_of_entry i e t.
Proof.
  intros [s [parsed [Hcontent [Hs [Hparse Htopics]]]]] Hall Hne.
  destruct (map_indexed_titled 0 Hall) as [ts [Hmap [Hlen Hnth]]].
  exists ts. split; [|split; assumption].
  unfold parseOpenAIResponse, parse_body. rewrite Hcontent. simpl obind.
  assert (Hempty : is_empty s = false)
    by (destruct s; [congruence | reflexivity]).
  rewrite Hempty. simpl negb. cbv iota. rewrite Hparse. simpl obind.
  assert (Hget : (match parsed with
                  | JNull => Throw (TypeError E (lit "topics"))
                  | _ => Ok (get parsed (lit "topics"))
                  end) = Ok (Some (JArray entries))).
  { destruct parsed; simpl in Htopics; try discriminate. now rewrite <- Htopics. }
  rewrite Hget. simpl obind. rewrite Hmap. simpl obind.
  destruct ts as [|t ts]; [|reflexivity].
  destruct entries; [congruence | discriminate].
Qed.

(** C1 (as amended). For a configured client, a text of at least 50
    characters after trimming and a successful provider response whose first
    choice's message content parses to an object with a [topics] array of
    N >= 1 entries, each with a non-empty title, [extractTopics] succeeds and
    returns N topics in the order of the array; the i-th (counted from 1) has
    identifier [topic-i] and order i, and is made from the i-th entry. *)
Theorem extractTopics_numbers_topics
    (config : OpenAIConfig) (fetch : Request -> FetchResult) (startTime endTime : Z)
    (text : jsstring) (status : N) (data : value) (entries : list value) :
  is_empty (apiKey config) = false ->
  50 <= length (trim text) ->
  fetch (build_request config (createExtractionPrompt (cleanSyllabusText text)))
    = Response status (Ok data) ->
  response_ok status = true ->
  provider_response E data entries ->
  Forall titled entries ->
  entries <> [] ->
  let r := fst (extractTopics E config fetch startTime endTime text) in
  success r = true /\
  length (topics r) = length entries /\
  forall i e, nth_error entries i = Some e ->
    exists t, nth_error (topics r) i = Some t /\
              id t = lit "topic-" ++ of_nat (i + 1) /\
              order t = Z.of_nat (i + 1) /\
              topic_of_entry i e t.
Proof.
  intros Hkey Hlen Hfetch Hok Hresp Hall Hne.
  destruct (parse_body_titled Hresp Hall Hne) as [ts [Hparse [Hlength Hnth]]].
  unfold extractTopics. rewrite Hkey.
  assert (Hempty : is_empty text = false).
  { destruct text; [simpl in Hlen; lia | reflexivity]. }
  rewrite Hempty. simpl orb.
  assert (Hlong : (length (trim text) <? 50)%nat = false)
    by (apply Nat.ltb_ge; exact Hlen).
  rewrite Hlong, Hfetch. unfold handle_response. rewrite Hok. simpl negb.
  cbv iota. simpl obind. rewrite Hparse. simpl.
  split; [reflexivity|]. split; [exact Hlength|].
  intros i e He. destruct (Hnth i e He) as [t [Ht Hrel]].
  exists t. split; [exact Ht|].
  destruct Hrel as [Hid [Hord Hrest]].
  repeat split; try assumption. apply Hrest. apply Hrest.
Qed.

(** ** Short texts *)

(** C6. For every text whose trimmed length is below 50, [extractTopics]
    returns [success: false] with an empty topic list and the error of the
    input validation, and sends no request. *)
Theorem extractTopics_short_text_rejected
    (config : OpenAIConfig) (fetch : Request -> FetchResult) (startTime endTime : Z)
    (text : jsstring) :
  length (trim text) < 50 ->
  let (r, sent) := extractTopics E config fetch startTime endTime text in
  success r = false /\
  topics r = [] /\
  error r = Some (if is_empty (apiKey config)
                  then lit "OpenAI API key not configured"
                  else lit "Syllabus text is too short. Please provide more detailed content.") /\
  metadata r = None /\
  sent = [].
Proof.
  intros Hshort. unfold extractTopics.
  destruct (is_empty (apiKey config)).
  - repeat split.
  - apply Nat.ltb_lt in Hshort. rewrite Hshort, orb_true_r. repeat split.
Qed.

(** ** Keywords *)

(** C5 (as amended). For every entry with a non-empty title, the topic made
    from it keeps exactly the string-typed entries of an array [keywords], in
    order, the list being present even when it is empty; the field is absent
    only when the entry's [keywords] is not an array. *)
Theorem parse_topic_keywords (entry : value) (index : nat) (s : jsstring) :
  get entry (lit "title") = Some (JString s) -> s <> [] ->
  exists t,
    parse_topic E entry index = Ok t /\
    (forall ks, get entry (lit "keywords") = Some (JArray ks) ->
       exists l, keywords t = Some l /\ List.map JString l = filter isString ks) /\
    (isArray (get entry (lit "keywords")) = false -> keywords t = None).
Proof.
  intros Hget Hs. eexists. split; [exact (parse_topic_titled entry index Hget Hs)|].
  unfold keywords_of_entry; simpl. split.
  - intros ks Hks. rewrite Hks. eexists. split; [reflexivity|].
    apply strings_of_filter.
  - intros Hno. destruct (get entry (lit "keywords")) as [[]|]; try reflexivity.
    discriminate.
Qed.

(** ** Classification of errors *)

(** C7 (as amended). The substrings are tried in a fixed order: a message
    containing [rate limit] maps to the rate-limit sentence when it contains
    none of [API key], [quota], [billing]; a message containing [quota] maps
    to the billing sentence when it does not contain [API key]; a message
    with no recognized substring is wrapped in the generic sentence (an empty
    message being replaced by [Unknown error]). *)
Theorem getErrorMessage_classification (m : jsstring) :
  (includes m (lit "rate limit") = true ->
   includes m (lit "API key") = false ->
   includes m (lit "quota") = false ->
   includes m (lit "billing") = false ->
   getErrorMessage m = lit "Too many requests. Please wait a moment and try again.") /\
  (includes m (lit "quota") = true ->
   includes m (lit "API key") = false ->
   getErrorMessage m = lit "OpenAI API quota exceeded. Please check your billing settings.") /\
  (recognized m = false ->
   getErrorMessage m =
     lit "Topic extraction failed: " ++ (if is_empty m then lit "Unknown error" else m)).
Proof.
  split; [|split].
  - intros Hrate Hkey Hquota Hbilling.
    assert (Hne : is_empty m = false)
      by (apply includes_nonempty with (p := lit "rate limit"); [discriminate | exact Hrate]).
    unfold getErrorMessage. cbv zeta. rewrite Hne, Hkey, Hquota, Hbilling, Hrate.
    reflexivity.
  - intros Hquota Hkey.
    assert (Hne : is_empty m = false)
      by (apply includes_nonempty with (p := lit "quota"); [discriminate | exact Hquota]).
    unfold getErrorMessage. cbv zeta. rewrite Hne, Hkey, Hquota. reflexivity.
  - intros Hnone. unfold recognized in Hnone.
    repeat (apply orb_false_iff in Hnone; destruct Hnone as [Hnone ?]).
    destruct m as [|c m]; [reflexivity|].
    unfold getErrorMessage. cbv zeta. simpl is_empty. cbv iota.
    repeat match goal with H : includes _ _ = false |- _ => rewrite H; clear H end.
    reflexivity.
Qed.

End ExtractionProperties.

(** C1 with no entry at all: the provider's content is the object whose
    [topics] is the empty array; every assumption of the claim holds, and
    [extractTopics] fails. *)
Lemma extractTopics_no_entries_fails :
  let data := Fixtures.reply Fixtures.content_no_topics in
  Str.is_empty (TopicExtractionService.apiKey Fixtures.config) = false /\
  50 <= length (Str.trim Fixtures.syllabus) /\
  Spec.provider_response Fixtures.engine data [] /\
  Forall Spec.titled [] /\
  TopicExtractionService.success
    (fst (TopicExtractionService.extractTopics Fixtures.engine Fixtures.config
            (Fixtures.network Fixtures.content_no_topics) 0 1 Fixtures.syllabus))
  = false.
Proof.
  cbv zeta. split; [reflexivity|]. split; [vm_compute; lia|].
  split; [|split; [constructor | vm_compute; reflexivity]].
  exists Fixtures.content_no_topics, (Json.JObject [(Str.lit "topics", Json.JArray [])]).
  split; [reflexivity|]. split; [discriminate|]. split; reflexivity.
Qed.

Lemma limits_titled : Spec.titled Fixtures.entry_limits.
Proof. exists (Str.lit "Limits"). split; [reflexivity | discriminate]. Defined.

Lemma reply_one_topic :
  Spec.provider_response Fixtures.engine (Fixtures.reply Fixtures.content_one_topic)
    [Fixtures.entry_limits].
Proof.
  exists Fixtures.content_one_topic,
    (Json.JObject [(Str.lit "topics", Json.JArray [Fixtures.entry_limits])]).
  split; [reflexivity|]. split; [discriminate|]. split; reflexivity.
Defined.

Lemma extractTopics_numbers_topics_witness :
  let r := fst (TopicExtractionService.extractTopics Fixtures.engine Fixtures.config
                  (Fixtures.network Fixtures.content_one_topic) 0 1 Fixtures.syllabus) in
  TopicExtractionService.success r = true /\
  length (TopicExtractionService.topics r) = 1 /\
  forall i e, nth_error [Fixtures.entry_limits] i = Some e ->
    exists t, nth_error (TopicExtractionService.topics r) i = Some t /\
              TopicExtractionService.id t = Str.lit "topic-" ++ Str.of_nat (i + 1) /\
              TopicExtractionService.order t = Z.of_nat (i + 1) /\
              Spec.topic_of_entry i e t.
Proof.
  apply (@extractTopics_numbers_topics Fixtures.engine Fixtures.config
           (Fixtures.network Fixtures.content_one_topic) 0 1 Fixtures.syllabus
           200%N (Fixtures.reply Fixtures.content_one_topic) [Fixtures.entry_limits]).
  - reflexivity.
  - vm_compute; lia.
  - reflexivity.
  - reflexivity.
  - exact reply_one_topic.
  - constructor; [exact limits_titled | constructor].
  - discriminate.
Defined.

Lemma extractTopics_short_text_rejected_witness :
  length (Str.trim (Str.lit "  Week 1: Limits  ")) < 50 /\
  let (r, sent) :=
    TopicExtractionService.extractTopics Fixtures.engine Fixtures.config
      (Fixtures.network Fixtures.content_one_topic) 0 1 (Str.lit "  Week 1: Limits  ") in
  TopicExtractionService.success r = false /\
  TopicExtractionService.topics r = [] /\
  TopicExtractionService.error r
    = Some (Str.lit "Syllabus text is too short. Please provide more detailed content.") /\
  TopicExtractionService.metadata r = None /\
  sent = [].
Proof.
  split; [vm_compute; lia|].
  apply (@extractTopics_short_text_rejected Fixtures.engine Fixtures.config
           (Fixtures.network Fixtures.content_one_topic) 0 1 (Str.lit "  Week 1: Limits  ")).
  vm_compute; lia.
Defined.

(** The example of the specification: of the keywords [a, 2, b, null] the
    strings [a] and [b] are kept. *)
Example parse_topic_keywords_example :
  exists t,
    TopicExtractionService.parse_topic Fixtures.engine Fixtures.entry_limits 0 = Ok t /\
    TopicExtractionService.keywords t = Some [Str.lit "a"; Str.lit "b"].
Proof. eexists. split; reflexivity. Qed.

(** C5, second half as stated: an entry whose keywords hold no string gives a
    topic whose keywords are the empty list, present, not an absent field. *)
Lemma parse_topic_keeps_empty_keywords :
  exists t,
    TopicExtractionService.parse_topic Fixtures.engine Fixtures.entry_numeric_keywords 0 = Ok t /\
    TopicExtractionService.keywords t = Some [] /\
    TopicExtractionService.keywords t <> None.
Proof. eexists. split; [reflexivity|]. split; [reflexivity | discriminate]. Qed.

Lemma parse_topic_keywords_witness :
  exists t,
    TopicExtractionService.parse_topic Fixtures.engine Fixtures.entry_limits 0 = Ok t /\
    (forall ks, Json.get Fixtures.entry_limits (Str.lit "keywords") = Some (Json.JArray ks) ->
       exists l, TopicExtractionService.keywords t = Some l /\
                 List.map Json.JString l = filter Json.isString ks) /\
    (Json.isArray (Json.get Fixtures.entry_limits (Str.lit "keywords")) = false ->
     TopicExtractionService.keywords t = None).
Proof.
  apply (@parse_topic_keywords Fixtures.engine Fixtures.entry_limits 0 (Str.lit "Limits")).
  - reflexivity.
  - discriminate.
Defined.

(** C7 as stated: the provider's rate-limit message mentions the billing
    page; it contains [rate limit] and is given the billing sentence, not the
    rate-limit one. *)
Lemma getErrorMessage_rate_limit_with_billing :
  Str.includes Fixtures.rate_limit_message (Str.lit "rate limit") = true /\
  TopicExtractionService.getErrorMessage Fixtures.rate_limit_message
    = Str.lit "OpenAI API quota exceeded. Please check your billing settings." /\
  TopicExtractionService.getErrorMessage Fixtures.rate_limit_message
    <> Str.lit "Too many requests. Please wait a moment and try again.".
Proof. split; [reflexivity|]. split; [reflexivity | discriminate]. Qed.

Lemma getErrorMessage_classification_witness :
  TopicExtractionService.getErrorMessage (Str.lit "OpenAI API error: 429 - rate limit reached")
    = Str.lit "Too many requests. Please wait a moment and try again." /\
  TopicExtractionService.getErrorMessage (Str.lit "You exceeded your current quota")
    = Str.lit "OpenAI API quota exceeded. Please check your billing settings." /\
  TopicExtractionService.getErrorMessage (Str.lit "Request timed out")
    = Str.lit "Topic extraction failed: " ++ Str.lit "Request timed out".
Proof.
  split; [|split].
  - apply (proj1 (getErrorMessage_classification
                    (Str.lit "OpenAI API error: 429 - rate limit reached"))); reflexivity.
  - apply (proj1 (proj2 (getErrorMessage_classification
                    (Str.lit "You exceeded your current quota")))); reflexivity.
  - apply (proj2 (proj2 (getErrorMessage_classification (Str.lit "Request timed out")))).
    reflexivity.
Defined.

(* ===================================================================== *)
(** * Properties of the text clean-up *)
(* ===================================================================== *)

Section Cleaning.
Import Str Spec.

(** ** The result of each step *)

Lemma replace_cr_no_cr (s : jsstring) : no_cr (replace_cr s).
Proof.
  unfold no_cr, replace_cr. apply Forall_forall. intros c Hin.
  apply in_map_iff in Hin. destruct Hin as [d [Hd _]]. subst c.
  destruct (d =? CR)%N eqn:E; [reflexivity | exact E].
Qed.

Lemma nl_ok_mono (s : jsstring) : forall m n, (m <= n)%nat -> nl_ok n s -> nl_ok m s.
Proof.
  induction s as [|c t IH]; intros m n Hle H; [exact I|].
  simpl in *. destruct (c =? LF)%N; [|exact H].
  destruct H as [Hn Ht]. split; [lia|]. apply (IH (S m) (S n)); [lia | exact Ht].
Qed.

Lemma collapse_newlines_ok (s : jsstring) : forall n, nl_ok n (collapse_newlines n s).
Proof.
  induction s as [|c t IH]; intros n; [exact I|].
  simpl. destruct (c =? LF)%N eqn:E.
  - destruct (n <? 2)%nat eqn:Hn.
    + simpl. change (LF =? LF)%N with true. cbv iota.
      apply Nat.ltb_lt in Hn. split; [exact Hn | apply IH].
    + apply nl_ok_mono with (n := S n); [lia | apply IH].
  - simpl. rewrite E. apply IH.
Qed.

Lemma blank_ok_mono (s : jsstring) : blank_ok true s -> blank_ok false s.
Proof.
  destruct s as [|c t]; [trivial|]. simpl.
  destruct (is_blank c); [|trivial]. intros [_ [H _]]. discriminate.
Qed.

Lemma collapse_blanks_ok (s : jsstring) : forall b, blank_ok b (collapse_blanks b s).
Proof.
  induction s as [|c t IH]; intros b; [exact I|].
  simpl. destruct (is_blank c) eqn:E.
  - destruct b.
    + specialize (IH true). revert IH.
      generalize (collapse_blanks true t) as r.
      intros r Hr. destruct r as [|d r]; [exact I|]. simpl in *.
      destruct (is_blank d); [|exact Hr]. destruct Hr as [_ [Hr _]]. discriminate.
    + simpl. change (is_blank SPACE) with true. cbv iota.
      repeat split. apply IH.
  - simpl. rewrite E. apply IH.
Qed.

(** ** What the later steps keep *)

Lemma collapse_newlines_Forall (P : N -> Prop) (s : jsstring) : forall n,
  Forall P s -> Forall P (collapse_newlines n s).
Proof.
  induction s as [|c t IH]; intros n H; [constructor|].
  inversion H as [|? ? Hc Ht]; subst. simpl.
  destruct (c =? LF)%N eqn:E.
  - apply N.eqb_eq in E. subst c.
    destruct (n <? 2)%nat; [constructor; [exact Hc | now apply IH] | now apply IH].
  - constructor; [exact Hc | now apply IH].
Qed.

Lemma collapse_blanks_Forall (P : N -> Prop) (s : jsstring) : forall b,
  P SPACE -> Forall P s -> Forall P (collapse_blanks b s).
Proof.
  induction s as [|c t IH]; intros b Hsp H; [constructor|].
  inversion H as [|? ? Hc Ht]; subst. simpl.
  destruct (is_blank c).
  - destruct b; [now apply IH | constructor; [exact Hsp | now apply IH]].
  - constructor; [exact Hc | now apply IH].
Qed.

Lemma trimStart_suffix (s : jsstring) : exists p, s = p ++ trimStart s.
Proof.
  induction s as [|c t [p Hp]]; [now exists []|].
  simpl. destruct (is_space c).
  - exists (c :: p). simpl. now rewrite <- Hp.
  - now exists [].
Qed.

Lemma trimEnd_prefix (s : jsstring) : exists r, s = trimEnd s ++ r.
Proof.
  induction s as [|c t [r Hr]]; [now exists []|].
  simpl. destruct (trimEnd t) as [|d t'] eqn:E.
  - destruct (is_space c); [now exists (c :: t) | exists t; reflexivity].
  - exists r. simpl. f_equal. exact Hr.
Qed.

Lemma trim_infix (s : jsstring) : exists p r, s = p ++ trim s ++ r.
Proof.
  destruct (trimStart_suffix s) as [p Hp].
  destruct (trimEnd_prefix (trimStart s)) as [r Hr].
  exists p, r. unfold trim. now rewrite <- Hr.
Qed.

Lemma trim_Forall (P : N -> Prop) (s : jsstring) : Forall P s -> Forall P (trim s).
Proof.
  intros H. destruct (trim_infix s) as [p [r Hs]]. rewrite Hs in H.
  apply Forall_app in H. destruct H as [_ H]. apply Forall_app in H. apply H.
Qed.

Lemma nl_ok_prefix (a b : jsstring) : forall n, nl_ok n (a ++ b) -> nl_ok n a.
Proof.
  induction a as [|c a IH]; intros n H; [exact I|].
  simpl in *. destruct (c =? LF)%N; [|now apply IH].
  destruct H as [Hn H]. split; [exact Hn | now apply IH].
Qed.

Lemma nl_ok_suffix (a b : jsstring) : forall n, nl_ok n (a ++ b) -> nl_ok 0 b.
Proof.
  induction a as [|c a IH]; intros n H.
  - apply nl_ok_mono with (n := n); [lia | exact H].
  - simpl in H. destruct (c =? LF)%N; [destruct H as [_ H]|]; now apply IH in H.
Qed.

Lemma blank_ok_prefix (a b : jsstring) : forall p, blank_ok p (a ++ b) -> blank_ok p a.
Proof.
  induction a as [|c a IH]; intros p H; [exact I|].
  simpl in *. destruct (is_blank c); [|now apply IH].
  destruct H as [H1 [H2 H3]]. repeat split; try assumption. now apply IH.
Qed.

Lemma blank_ok_suffix (a b : jsstring) : forall p, blank_ok p (a ++ b) -> blank_ok false b.
Proof.
  induction a as [|c a IH]; intros p H.
  - destruct p; [now apply blank_ok_mono | exact H].
  - simpl in H. destruct (is_blank c); [destruct H as [_ [_ H]]|]; now apply IH in H.
Qed.

Lemma trim_nl_ok (s : jsstring) : nl_ok 0 s -> nl_ok 0 (trim s).
Proof.
  intros H. destruct (trim_infix s) as [p [r Hs]]. rewrite Hs in H.
  apply nl_ok_suffix in H. now apply nl_ok_prefix in H.
Qed.

Lemma trim_blank_ok (s : jsstring) : blank_ok false s -> blank_ok false (trim s).
Proof.
  intros H. destruct (trim_infix s) as [p [r Hs]]. rewrite Hs in H.
  apply blank_ok_suffix in H. now apply blank_ok_prefix in H.
Qed.

(** A run of blanks is replaced by one space, so the line feeds on its two
    sides stay apart. *)
Lemma collapse_blanks_nl_ok (s : jsstring) :
  (forall n, nl_ok n s -> nl_ok n (collapse_blanks false s)) /\
  (nl_ok 0 s -> nl_ok 0 (collapse_blanks true s)).
Proof.
  induction s as [|c t [IHf IHt]]; [split; trivial|].
  assert (Hblank : is_blank c = true -> (c =? LF)%N = false).
  { unfold is_blank. intros H. apply orb_true_iff in H.
    destruct H as [H|H]; apply N.eqb_eq in H; subst c; reflexivity. }
  split.
  - intros n H. simpl in *. destruct (is_blank c) eqn:E.
    + rewrite (Hblank eq_refl) in H. simpl. change (SPACE =? LF)%N with false.
      cbv iota. now apply IHt.
    + simpl. destruct (c =? LF)%N; [|now apply IHf].
      destruct H as [Hn H]. split; [exact Hn | now apply IHf].
  - intros H. simpl in *. destruct (is_blank c) eqn:E.
    + rewrite (Hblank eq_refl) in H. now apply IHt.
    + simpl. destruct (c =? LF)%N; [|now apply IHf].
      destruct H as [Hn H]. split; [exact Hn | now apply IHf].
Qed.

(** ** Texts that a step leaves as they are *)

Lemma replace_crlf_id (s : jsstring) : no_cr s -> replace_crlf s = s.
Proof.
  induction 1 as [|c t Hc _ IH]; [reflexivity|].
  simpl. rewrite Hc. simpl. destruct t; [reflexivity | now rewrite IH].
Qed.

Lemma replace_cr_id (s : jsstring) : no_cr s -> replace_cr s = s.
Proof.
  induction 1 as [|c t Hc _ IH]; [reflexivity|].
  unfold replace_cr in *. simpl. now rewrite Hc, IH.
Qed.

Lemma collapse_newlines_id (s : jsstring) : forall n,
  nl_ok n s -> collapse_newlines n s = s.
Proof.
  induction s as [|c t IH]; intros n H; [reflexivity|].
  simpl in *. destruct (c =? LF)%N eqn:E.
  - destruct H as [Hn H]. apply Nat.ltb_lt in Hn. rewrite Hn.
    apply N.eqb_eq in E. subst c. now rewrite IH.
  - now rewrite IH.
Qed.

Lemma collapse_blanks_id (s : jsstring) : forall b,
  blank_ok b s -> collapse_blanks b s = s.
Proof.
  induction s as [|c t IH]; intros b H; [reflexivity|].
  simpl in *. destruct (is_blank c).
  - destruct H as [Hc [Hb H]]. subst b c. now rewrite IH.
  - now rewrite IH.
Qed.

Lemma trimStart_head (s : jsstring) :
  trimStart s = [] \/ exists c t, trimStart s = c :: t /\ is_space c = false.
Proof.
  induction s as [|c t IH]; [now left|].
  simpl. destruct (is_space c) eqn:E; [exact IH|]. right. now exists c, t.
Qed.

Lemma trimEnd_head (c : N) (t : jsstring) :
  trimEnd (c :: t) = [] \/ exists t', trimEnd (c :: t) = c :: t'.
Proof.
  simpl. destruct (trimEnd t).
  - destruct (is_space c); [now left | right; now exists []].
  - right. eexists. reflexivity.
Qed.

Lemma trimEnd_idempotent (s : jsstring) : trimEnd (trimEnd s) = trimEnd s.
Proof.
  induction s as [|c t IH]; [reflexivity|].
  simpl. destruct (trimEnd t) as [|d t'] eqn:E.
  - destruct (is_space c) eqn:Hc; [reflexivity|]. simpl. now rewrite Hc.
  - change (trimEnd (c :: d :: t'))
      with (match trimEnd (d :: t') with
            | [] => if is_space c then [] else [c]
            | x => c :: x
            end).
    now rewrite IH.
Qed.

Lemma trim_idempotent (s : jsstring) : trim (trim s) = trim s.
Proof.
  unfold trim.
  destruct (trimStart_head s) as [H | [c [t [H Hc]]]]; rewrite H; [reflexivity|].
  destruct (trimEnd_head c t) as [H' | [t' H']]; rewrite H'; [reflexivity|].
  change (trimStart (c :: t')) with (if is_space c then trimStart t' else c :: t').
  rewrite Hc, <- H'. apply trimEnd_idempotent.
Qed.

(** ** No step makes the text longer *)

Lemma replace_crlf_length (s : jsstring) : (length (replace_crlf s) <= length s)%nat.
Proof.
  assert (H : forall n s, (length s <= n)%nat -> (length (replace_crlf s) <= length s)%nat).
  { clear s. induction n as [|n IH]; intros s Hn.
    - destruct s; [simpl; lia | simpl in Hn; lia].
    - destruct s as [|c [|d t]]; [simpl; lia | simpl; lia |].
      change (replace_crlf (c :: d :: t))
        with (if ((c =? CR) && (d =? LF))%N then LF :: replace_crlf t
              else c :: replace_crlf (d :: t)).
      simpl in Hn.
      destruct ((c =? CR) && (d =? LF))%N; simpl length.
      + specialize (IH t ltac:(lia)). lia.
      + specialize (IH (d :: t) ltac:(simpl; lia)). simpl in IH. lia. }
  now apply (H (length s)).
Qed.

Lemma collapse_newlines_length (s : jsstring) : forall n,
  (length (collapse_newlines n s) <= length s)%nat.
Proof.
  induction s as [|c t IH]; intros n; [simpl; lia|].
  simpl. destruct (c =? LF)%N; [destruct (n <? 2)%nat|]; simpl;
    try (specialize (IH (S n)); lia); specialize (IH 0%nat); lia.
Qed.

Lemma collapse_blanks_length (s : jsstring) : forall b,
  (length (collapse_blanks b s) <= length s)%nat.
Proof.
  induction s as [|c t IH]; intros b; [simpl; lia|].
  simpl. destruct (is_blank c); [destruct b|]; simpl;
    try (specialize (IH true); lia); specialize (IH false); lia.
Qed.

Lemma trim_length (s : jsstring) : (length (trim s) <= length s)%nat.
Proof.
  destruct (trim_infix s) as [p [r Hs]]. rewrite Hs at 2.
  rewrite !length_app. lia.
Qed.

Lemma normalize_length (s : jsstring) : (length (normalize s) <= length s)%nat.
Proof.
  unfold normalize.
  pose proof (trim_length (collapse_blanks false (collapse_newlines 0 (replace_cr (replace_crlf s))))).
  pose proof (collapse_blanks_length (collapse_newlines 0 (replace_cr (replace_crlf s))) false).
  pose proof (collapse_newlines_length (replace_cr (replace_crlf s)) 0).
  pose proof (replace_crlf_length s).
  unfold replace_cr in *. rewrite length_map in *. lia.
Qed.

(** ** The normal form *)

Lemma normalize_no_cr (s : jsstring) : no_cr (normalize s).
Proof.
  unfold normalize, no_cr. apply trim_Forall. apply collapse_blanks_Forall; [reflexivity|].
  apply collapse_newlines_Forall. apply replace_cr_no_cr.
Qed.

Lemma normalize_nl_ok (s : jsstring) : nl_ok 0 (normalize s).
Proof.
  unfold normalize. apply trim_nl_ok. apply collapse_blanks_nl_ok. apply collapse_newlines_ok.
Qed.

Lemma normalize_blank_ok (s : jsstring) : blank_ok false (normalize s).
Proof. unfold normalize. apply trim_blank_ok. apply collapse_blanks_ok. Qed.

Lemma normalize_idempotent (s : jsstring) : normalize (normalize s) = normalize s.
Proof.
  unfold normalize at 1.
  rewrite replace_crlf_id by apply normalize_no_cr.
  rewrite replace_cr_id by apply normalize_no_cr.
  rewrite collapse_newlines_id by apply normalize_nl_ok.
  rewrite collapse_blanks_id by apply normalize_blank_ok.
  unfold normalize. apply trim_idempotent.
Qed.

Lemma replace_crlf_Forall (P : N -> Prop) (s : jsstring) :
  P LF -> Forall P s -> Forall P (replace_crlf s).
Proof.
  intros Hlf.
  assert (H : forall n s, (length s <= n)%nat -> Forall P s -> Forall P (replace_crlf s)).
  { clear s. induction n as [|n IH]; intros s Hn Hs.
    - destruct s; [constructor | simpl in Hn; lia].
    - destruct s as [|c [|d t]]; [constructor | exact Hs |].
      change (replace_crlf (c :: d :: t))
        with (if ((c =? CR) && (d =? LF))%N then LF :: replace_crlf t
              else c :: replace_crlf (d :: t)).
      inversion Hs as [|? ? Hc Hdt]; subst. inversion Hdt as [|? ? Hd Ht]; subst.
      simpl in Hn.
      destruct ((c =? CR) && (d =? LF))%N; constructor; try assumption;
        apply IH; try assumption; simpl; lia. }
  now apply (H (length s)).
Qed.

Lemma collapse_blanks_printable (t : jsstring) : forall b,
  Forall (fun c => plain_char c = true /\ (c =? CR)%N = false) t ->
  Forall (fun c => FileReaderService.is_printable c = true) (collapse_blanks b t).
Proof.
  induction t as [|c t IH]; intros b H; [constructor|].
  inversion H as [|? ? [Hc Hcr] Ht]; subst. simpl.
  destruct (is_blank c) eqn:E.
  - destruct b; [now apply IH | constructor; [reflexivity | now apply IH]].
  - constructor; [|now apply IH].
    unfold plain_char in Hc. rewrite Hcr, orb_false_r in Hc.
    apply orb_true_iff in Hc. destruct Hc as [Hc|Hc]; [exact Hc|].
    unfold is_blank in E. rewrite Hc, orb_true_r in E. discriminate.
Qed.

Lemma normalize_printable (s : jsstring) :
  Forall (fun c => plain_char c = true) s ->
  Forall (fun c => FileReaderService.is_printable c = true) (normalize s).
Proof.
  intros H. unfold normalize. apply trim_Forall.
  assert (H1 : Forall (fun c => plain_char c = true /\ (c =? CR)%N = false)
                 (collapse_newlines 0 (replace_cr (replace_crlf s)))).
  { apply collapse_newlines_Forall.
    apply replace_crlf_Forall with (P := fun c => plain_char c = true) in H; [|reflexivity].
    unfold replace_cr. apply Forall_forall. intros c Hin.
    apply in_map_iff in Hin. destruct Hin as [d [Hd Hin]].
    rewrite Forall_forall in H. specialize (H d Hin).
    destruct (d =? CR)%N eqn:E; subst c; [split; reflexivity | now split]. }
  now apply collapse_blanks_printable.
Qed.

Lemma filter_all (f : N -> bool) (s : jsstring) :
  Forall (fun c => f c = true) s -> filter f s = s.
Proof. induction 1 as [|c t Hc _ IH]; [reflexivity|]. simpl. now rewrite Hc, IH. Qed.

Lemma substring0_all (n : N) (s : jsstring) :
  (N.of_nat (length s) <= n)%N -> substring0 n s = s.
Proof. intros H. unfold substring0. apply firstn_all2. lia. Qed.

(** C4 (as amended). The clean-up of the document reader applied twice gives
    the same text as applied once, for every text of at most 10,000
    characters made of printable ASCII characters, line feeds, tabs and
    carriage returns; so does the clean-up of the extraction client for every
    text of at most 8,000 characters. *)
Theorem cleaning_idempotent :
  (forall s,
     Forall (fun c => plain_char c = true) s ->
     (N.of_nat (length s) <= 10000)%N ->
     FileReaderService.cleanExtractedText (FileReaderService.cleanExtractedText s)
     = FileReaderService.cleanExtractedText s) /\
  (forall s,
     (N.of_nat (length s) <= 8000)%N ->
     TopicExtractionService.cleanSyllabusText (TopicExtractionService.cleanSyllabusText s)
     = TopicExtractionService.cleanSyllabusText s).
Proof.
  split.
  - intros s Hplain Hlen.
    assert (Hclean : forall t,
              Forall (fun c => plain_char c = true) t ->
              (N.of_nat (length t) <= 10000)%N ->
              FileReaderService.cleanExtractedText t = normalize t).
    { intros t Ht Hl. unfold FileReaderService.cleanExtractedText.
      destruct t as [|c t]; [reflexivity|]. cbn [is_empty].
      fold (normalize (c :: t)).
      rewrite filter_all by (now apply normalize_printable).
      apply substring0_all. pose proof (normalize_length (c :: t)). lia. }
    rewrite (Hclean s Hplain Hlen).
    rewrite Hclean.
    + apply normalize_idempotent.
    + eapply Forall_impl; [|apply normalize_printable; exact Hplain].
      intros c Hc. unfold plain_char. now rewrite Hc.
    + pose proof (normalize_length s). lia.
  - intros s Hlen.
    assert (Hclean : forall t,
              (N.of_nat (length t) <= 8000)%N ->
              TopicExtractionService.cleanSyllabusText t = normalize t).
    { intros t Hl. unfold TopicExtractionService.cleanSyllabusText.
      fold (normalize t). apply substring0_all. pose proof (normalize_length t). lia. }
    rewrite (Hclean s Hlen). rewrite Hclean.
    + apply normalize_idempotent.
    + pose proof (normalize_length s). lia.
Qed.

End Cleaning.

(* ===================================================================== *)
(** * Keywords and the content column *)
(* ===================================================================== *)

Section ContentRoundTrip.
Import Str TopicService Spec.

Lemma sep_lit : lit ", " = sep.
Proof. reflexivity. Qed.

Lemma includes_tail (c : N) (k p : jsstring) :
  includes (c :: k) p = false -> includes k p = false.
Proof. simpl. intros H. apply orb_false_iff in H. apply H. Qed.

Lemma includes_head (k p : jsstring) :
  includes k p = false -> startsWith k p = false.
Proof. destruct k; simpl; intros H; apply orb_false_iff in H; apply H. Qed.

Lemma startsWith_sep (s : jsstring) :
  startsWith s sep =
    match s with
    | c :: d :: _ => (44 =? c)%N && (32 =? d)%N
    | _ => false
    end.
Proof.
  destruct s as [|c [|d s]]; unfold sep; cbn [startsWith];
    rewrite ?andb_true_r, ?andb_false_r; reflexivity.
Qed.

(** Reading a keyword that is followed by a separator, or by the end of the
    text: no separator is found before the keyword ends. *)
Lemma split_from_keyword (k : jsstring) : forall cur tail,
  includes k sep = false ->
  split_from sep 0 cur (k ++ sep ++ tail) = (rev cur ++ k) :: split_from sep 0 [] tail /\
  split_from sep 0 cur k = [rev cur ++ k].
Proof.
  induction k as [|c k IH]; intros cur tail Hk.
  - rewrite app_nil_r. split; reflexivity.
  - pose proof (includes_head _ _ Hk) as Hhead.
    destruct (IH (c :: cur) tail (includes_tail _ _ _ Hk)) as [IH1 IH2].
    assert (Hfirst : startsWith ((c :: k) ++ sep ++ tail) sep = false).
    { rewrite startsWith_sep in Hhead |- *.
      destruct k as [|d k]; cbn [app] in *; [|exact Hhead].
      destruct (44 =? c)%N; reflexivity. }
    split.
    + change (split_from sep 0 cur ((c :: k) ++ sep ++ tail))
        with (if startsWith ((c :: k) ++ sep ++ tail) sep
              then rev cur :: split_from sep (length sep - 1) [] (k ++ sep ++ tail)
              else split_from sep 0 (c :: cur) (k ++ sep ++ tail)).
      rewrite Hfirst, IH1. simpl rev. now rewrite <- app_assoc.
    + change (split_from sep 0 cur (c :: k))
        with (if startsWith (c :: k) sep
              then rev cur :: split_from sep (length sep - 1) [] k
              else split_from sep 0 (c :: cur) k).
      rewrite Hhead, IH2. simpl rev. now rewrite <- app_assoc.
Qed.

Lemma split_join (ks : list jsstring) :
  ks <> [] ->
  Forall (fun k => includes k sep = false) ks ->
  split sep (join sep ks) = ks.
Proof.
  induction ks as [|k ks IH]; intros Hne Hall; [congruence|].
  inversion Hall as [|? ? Hk Hrest]; subst.
  destruct ks as [|k2 ks].
  - simpl join. unfold split. now rewrite (proj2 (split_from_keyword k [] [] Hk)).
  - change (join sep (k :: k2 :: ks)) with (k ++ sep ++ join sep (k2 :: ks)).
    unfold split. rewrite (proj1 (split_from_keyword k [] (join sep (k2 :: ks)) Hk)).
    simpl rev. simpl app at 1. f_equal. apply IH; [discriminate | assumption].
Qed.

Lemma filter_plain (ks : list jsstring) :
  Forall plain_keyword ks ->
  filter (fun k => negb (is_empty (trim k))) ks = ks.
Proof.
  induction 1 as [|k ks [_ Hk] _ IH]; [reflexivity|].
  simpl. now rewrite Hk, IH.
Qed.

Lemma trim_nil_of_empty (k : jsstring) : is_empty (trim k) = false -> k <> [].
Proof. intros H ->. discriminate. Qed.

Lemma join_nonempty (ks : list jsstring) :
  ks <> [] -> Forall plain_keyword ks -> is_empty (join sep ks) = false.
Proof.
  intros Hne Hall. destruct ks as [|k ks]; [congruence|].
  inversion Hall as [|? ? [_ Hk] _]; subst.
  apply trim_nil_of_empty in Hk.
  destruct k as [|c k]; [congruence|]. destruct ks; reflexivity.
Qed.

(** C9 (as amended). For every ExtractedTopic whose keywords are present,
    none of them blank (empty once trimmed) and none containing the
    separator: turning it into the fields of a Topic, storing these as a row
    and turning the row back preserves its title, its order and its
    keywords. *)
Theorem topic_round_trip
    (et : ExtractedTopic) (courseId rid created : jsstring) (ks : list jsstring) :
  TopicExtractionService.keywords et = Some ks ->
  Forall plain_keyword ks ->
  let back :=
    topicToExtractedTopic (stored_topic rid created (extractedTopicToTopic et courseId)) in
  TopicExtractionService.title back = TopicExtractionService.title et /\
  TopicExtractionService.order back = TopicExtractionService.order et /\
  TopicExtractionService.keywords back = Some ks.
Proof.
  intros Hks Hall. cbv zeta.
  unfold topicToExtractedTopic, stored_topic, extractedTopicToTopic. simpl.
  split; [reflexivity|]. split; [reflexivity|].
  rewrite Hks. f_equal. rewrite sep_lit.
  destruct ks as [|k ks]; [reflexivity|].
  rewrite join_nonempty by (assumption || discriminate).
  unfold keywords_of_content. rewrite sep_lit, split_join.
  - now apply filter_plain.
  - discriminate.
  - eapply Forall_impl; [|exact Hall]. intros a [Ha _]. exact Ha.
Qed.

End ContentRoundTrip.

(* ===================================================================== *)
(** * Running the gateway against the backend *)
(* ===================================================================== *)

Section BackendSteps.
Import Str Supabase TopicService Spec.
Local Open Scope backend_scope.

Lemma eqb_refl (a : jsstring) : Str.eqb a a = true.
Proof. unfold Str.eqb. destruct (list_eq_dec N.eq_dec a a); congruence. Qed.

Lemma eqb_eq (a b : jsstring) : Str.eqb a b = true <-> a = b.
Proof. unfold Str.eqb. destruct (list_eq_dec N.eq_dec a b); split; congruence. Qed.

Lemma all_served_hd (w : Backend) : all_served w -> hd Served (answers w) = Served.
Proof. unfold all_served. destruct (answers w); intros H; [reflexivity|]. now inversion H. Qed.

Lemma all_served_pop (w : Backend) : all_served w -> all_served (pop w).
Proof.
  unfold all_served, pop. simpl. destruct (answers w); intros H; [constructor|].
  now inversion H.
Qed.

Lemma bind_ok {A B} (m : M A) (f : A -> M B) (w w' : Backend) (a : A) :
  m w = (Ok a, w') -> bind m f w = f a w'.
Proof. intros H. unfold bind. now rewrite H. Qed.

Lemma bind_throw {A B} (m : M A) (f : A -> M B) (w w' : Backend) (e : jsstring) :
  m w = (Throw e, w') -> bind m f w = (Throw e, w').
Proof. intros H. unfold bind. now rewrite H. Qed.

Lemma try_catch_ok {A} (m : M A) (h : jsstring -> M A) (w w' : Backend) (a : A) :
  m w = (Ok a, w') -> try_catch m h w = (Ok a, w').
Proof. intros H. unfold try_catch. now rewrite H. Qed.

Lemma try_catch_throw {A} (m : M A) (h : jsstring -> M A) (w w' : Backend) (e : jsstring) :
  m w = (Throw e, w') -> try_catch m h w = h e w'.
Proof. intros H. unfold try_catch. now rewrite H. Qed.

(** What a call does, by the answer it gets. *)
Lemma call_served {A} (serve : Backend -> Reply A * Backend) (w : Backend) :
  hd Served (answers w) = Served ->
  call serve w = (Ok (fst (serve (pop w))), snd (serve (pop w))).
Proof.
  intros H. unfold call, bind, next_answer, pop.
  destruct w as [s c t n k a]. simpl in *.
  destruct a as [|x a]; simpl in *; [|subst x];
    unfold with_answers; simpl; now destruct (serve _).
Qed.

Lemma call_refused {A} (serve : Backend -> Reply A * Backend) (w : Backend)
    (e : PostgrestError) (rest : list Answer) :
  answers w = Refused e :: rest ->
  call serve w = (Ok (inl e), pop w).
Proof. intros H. unfold call, bind, next_answer, pop. now rewrite H. Qed.

Lemma call_broken {A} (serve : Backend -> Reply A * Backend) (w : Backend)
    (m : jsstring) (rest : list Answer) :
  answers w = Broken m :: rest ->
  call serve w = (Throw m, pop w).
Proof. intros H. unfold call, bind, next_answer, pop. now rewrite H. Qed.

Lemma auth_getUser_served (w : Backend) :
  hd Served (answers w) = Served ->
  auth_getUser w = (Ok (session w), pop w).
Proof.
  intros Hs. unfold auth_getUser.
  erewrite bind_ok by (apply call_served; exact Hs). reflexivity.
Qed.

Lemma getCurrentUserId_served (w : Backend) (uid : jsstring) :
  hd Served (answers w) = Served ->
  session w = Some uid -> is_empty uid = false ->
  getCurrentUserId w = (Ok (Some uid), pop w).
Proof.
  intros Hs Hu Hne. unfold getCurrentUserId.
  apply try_catch_ok. erewrite bind_ok by (apply auth_getUser_served; exact Hs).
  rewrite Hu, Hne. reflexivity.
Qed.

Lemma verifyCourseOwnership_served (w : Backend) (uid courseId : jsstring) (c : Course) :
  hd Served (answers w) = Served ->
  hd Served (answers (pop w)) = Served ->
  owns w uid courseId c ->
  verifyCourseOwnership courseId w = (Ok true, pop (pop w)).
Proof.
  intros H0 H1 [Hu [Hne Hc]]. unfold verifyCourseOwnership.
  apply try_catch_ok.
  erewrite bind_ok by (apply getCurrentUserId_served; eassumption).
  unfold select_course_of_user.
  erewrite bind_ok by (apply call_served; exact H1).
  cbv beta. cbn [fst snd].
  change (courses_owned courseId uid (pop (pop w))) with (courses_owned courseId uid w).
  rewrite Hc. reflexivity.
Qed.

Lemma all_served_remove (courseId : jsstring) (w : Backend) :
  all_served w -> all_served (remove_topics_of_course courseId w).
Proof. exact (fun H => H). Qed.

Lemma all_served_add (rows : list NewTopic) (w : Backend) :
  all_served w -> all_served (add_rows rows w).
Proof. exact (fun H => H). Qed.

Lemma all_served_mark (courseId stamp : jsstring) (w : Backend) :
  all_served w -> all_served (mark_course courseId stamp w).
Proof. exact (fun H => H). Qed.

Lemma owns_pop (w : Backend) (uid courseId : jsstring) (c : Course) :
  owns w uid courseId c -> owns (pop w) uid courseId c.
Proof. exact (fun H => H). Qed.

Lemma all_served_checked (w : Backend) : all_served w -> all_served (checked w).
Proof. intros H. unfold checked. now repeat apply all_served_pop. Qed.

Lemma length_topicsToInsert (courseId stamp : jsstring) (ets : list ExtractedTopic) :
  forall index, length (topicsToInsert courseId stamp index ets) = length ets.
Proof. induction ets as [|e ets IH]; intros index; simpl; [reflexivity | now rewrite IH]. Qed.

End BackendSteps.

Create HintDb served.
#[local] Hint Resolve all_served_hd all_served_pop all_served_remove all_served_add
  all_served_mark all_served_checked owns_pop : served.

Section SaveTopics.
Import Str Supabase TopicService Spec.
Local Open Scope backend_scope.

Variables (w : Backend) (uid courseId : jsstring) (c : Course).
Hypothesis Howns : owns w uid courseId c.

Lemma save_prologue {A} (body : M (ServiceResponse A)) (h : jsstring -> M (ServiceResponse A))
    (denied1 denied2 : ServiceResponse A) :
  hd Served (answers w) = Served ->
  hd Served (answers (pop w)) = Served ->
  hd Served (answers (pop (pop w))) = Served ->
  try_catch
    (userId <- getCurrentUserId ;;
     match userId with
     | None => ret denied1
     | Some _ =>
         hasAccess <- verifyCourseOwnership courseId ;;
         if negb hasAccess then ret denied2 else body
     end) h w
  = try_catch body h (checked w).
Proof.
  intros H0 H1 H2. destruct Howns as [Hu [Hne Hc]].
  unfold try_catch at 1.
  erewrite bind_ok by (apply getCurrentUserId_served; eassumption).
  cbv beta iota.
  erewrite bind_ok
    by (eapply verifyCourseOwnership_served; [exact H1 | exact H2 | apply owns_pop; exact Howns]).
  reflexivity.
Qed.

Ltac served := auto 12 with served.

Ltac run_call :=
  erewrite bind_ok by (apply call_served; served); cbv beta; cbn [fst snd].

Lemma saveTopicsForCourse_served (ets : list ExtractedTopic) :
  all_served w -> ets <> [] ->
  let rows := topicsToInsert courseId (clock w) 0 ets in
  saveTopicsForCourse courseId ets w =
    (Ok (succeeded (store_rows (next_row w) rows)),
     mark_course courseId (clock w)
       (pop (add_rows rows (pop (remove_topics_of_course courseId (pop (checked w))))))).
Proof.
  intros Hs Hne rows. unfold saveTopicsForCourse.
  rewrite save_prologue by served. apply try_catch_ok.
  unfold delete_topics_of_course. run_call.
  erewrite bind_ok by reflexivity. cbv beta zeta.
  change (clock (remove_topics_of_course courseId (pop (checked w)))) with (clock w).
  fold rows.
  assert (Hlen : (length rows =? 0)%nat = false).
  { unfold rows. rewrite length_topicsToInsert. destruct ets; [congruence | reflexivity]. }
  rewrite Hlen. unfold insert_topics. run_call.
  unfold mark_topics_extracted. run_call. reflexivity.
Qed.

Lemma served_calls_hd (n : nat) (v : Backend) :
  served_calls (S n) v -> hd Served (answers v) = Served.
Proof.
  unfold served_calls. destruct (answers v) as [|a rest]; [reflexivity|].
  cbn [firstn hd]. intros H. now inversion H.
Qed.

Lemma served_calls_pop (n : nat) (v : Backend) :
  served_calls (S n) v -> served_calls n (pop v).
Proof.
  unfold served_calls, pop. cbn [answers with_answers].
  destruct (answers v) as [|a rest]; cbn [firstn tl].
  - intros _. destruct n; constructor.
  - intros H. now inversion H.
Qed.

(** The empty list, when the five calls of the operation are served. *)
Lemma saveTopicsForCourse_empty_run :
  served_calls 5 w ->
  saveTopicsForCourse courseId [] w =
    (Ok (succeeded []),
     mark_course courseId (clock w) (pop (remove_topics_of_course courseId (pop (checked w))))).
Proof.
  intros H5.
  pose proof (served_calls_hd H5) as Hauth. pose proof (served_calls_pop H5) as H4.
  pose proof (served_calls_hd H4) as Hauth'. pose proof (served_calls_pop H4) as H3.
  pose proof (served_calls_hd H3) as Hcourse. pose proof (served_calls_pop H3) as H2.
  pose proof (served_calls_hd H2) as Hdel. pose proof (served_calls_pop H2) as H1.
  pose proof (served_calls_hd H1) as Hupd.
  unfold saveTopicsForCourse.
  rewrite save_prologue by assumption. apply try_catch_ok.
  unfold delete_topics_of_course.
  erewrite bind_ok by (apply call_served; exact Hdel). cbv beta. cbn [fst snd].
  erewrite bind_ok by reflexivity. cbv beta zeta.
  cbn [topicsToInsert length Nat.eqb]. unfold mark_topics_extracted.
  erewrite bind_ok by (apply call_served; exact Hupd). reflexivity.
Qed.

Lemma saveTopicsForCourse_empty_served :
  all_served w ->
  saveTopicsForCourse courseId [] w =
    (Ok (succeeded []),
     mark_course courseId (clock w) (pop (remove_topics_of_course courseId (pop (checked w))))).
Proof.
  intros Hs. unfold saveTopicsForCourse.
  rewrite save_prologue by served. apply try_catch_ok.
  unfold delete_topics_of_course. run_call.
  erewrite bind_ok by reflexivity. cbv beta zeta.
  cbn [topicsToInsert length Nat.eqb]. unfold mark_topics_extracted. run_call. reflexivity.
Qed.

(** The delete is served and the insert is not. *)
Lemma saveTopicsForCourse_insert_fails (ets : list ExtractedTopic)
    (a : Answer) (rest : list Answer) :
  answers w = Served :: Served :: Served :: Served :: a :: rest ->
  a <> Served -> ets <> [] ->
  exists resp,
    saveTopicsForCourse courseId ets w =
      (Ok resp, pop (remove_topics_of_course courseId (pop (checked w)))) /\
    success resp = false /\ data resp = None /\ error resp <> None.
Proof.
  intros Ha Hbad Hne. unfold saveTopicsForCourse.
  rewrite save_prologue by (unfold pop; simpl; rewrite Ha; reflexivity).
  assert (Hdel : hd Served (answers (checked w)) = Served)
    by (unfold checked, pop; simpl; rewrite Ha; reflexivity).
  assert (Hins : answers (remove_topics_of_course courseId (pop (checked w))) = a :: rest)
    by (unfold checked, pop; simpl; rewrite Ha; reflexivity).
  set (rows := topicsToInsert courseId (clock w) 0 ets).
  assert (Hlen : (length rows =? 0)%nat = false).
  { unfold rows. rewrite length_topicsToInsert. destruct ets; [congruence | reflexivity]. }
  destruct a as [|e|m]; [congruence| |].
  - eexists. split.
    + apply try_catch_ok. unfold delete_topics_of_course.
      erewrite bind_ok by (apply call_served; exact Hdel). cbv beta. cbn [fst snd].
      erewrite bind_ok by reflexivity. cbv beta zeta.
      change (clock (remove_topics_of_course courseId (pop (checked w)))) with (clock w).
      fold rows. rewrite Hlen. unfold insert_topics.
      erewrite bind_ok by (eapply call_refused; exact Hins). reflexivity.
    + repeat split. discriminate.
  - eexists. split.
    + erewrite try_catch_throw; [reflexivity|].
      unfold delete_topics_of_course.
      erewrite bind_ok by (apply call_served; exact Hdel). cbv beta. cbn [fst snd].
      erewrite bind_ok by reflexivity. cbv beta zeta.
      change (clock (remove_topics_of_course courseId (pop (checked w)))) with (clock w).
      fold rows. rewrite Hlen. unfold insert_topics.
      erewrite bind_throw by (eapply call_broken; exact Hins). reflexivity.
    + repeat split. discriminate.
Qed.

Lemma getTopicsForCourse_served :
  all_served w ->
  getTopicsForCourse courseId w =
    (Ok (succeeded (order_by_orderIndex (topics_of_course courseId w))), pop (checked w)).
Proof.
  intros Hs. unfold getTopicsForCourse.
  rewrite save_prologue by served. apply try_catch_ok.
  unfold select_topics_of_course. run_call. reflexivity.
Qed.

Lemma createTopic_served (topicData : TopicData) :
  all_served w ->
  let row := {| new_courseId := courseId;
                new_title := data_title topicData;
                new_content := data_content topicData;
                new_orderIndex := data_orderIndex topicData;
                new_createdAt := clock w |} in
  exists stored,
    store_rows (next_row w) [row] = [stored] /\
    createTopic courseId topicData w = (Ok (succeeded stored), add_rows [row] (pop (checked w))).
Proof.
  intros Hs row. eexists. split; [reflexivity|]. unfold createTopic.
  rewrite save_prologue by served. apply try_catch_ok.
  erewrite bind_ok by reflexivity. cbv beta.
  unfold insert_topic. run_call. reflexivity.
Qed.

End SaveTopics.

(* ===================================================================== *)
(** * Properties of the persistence gateway *)
(* ===================================================================== *)

Section GatewayProperties.
Import Str Supabase TopicService Spec.

Lemma filter_none_of_course (courseId : jsstring) (rows : list Topic) :
  filter (fun t => Str.eqb (Supabase.courseId t) courseId)
    (filter (fun t => negb (Str.eqb (Supabase.courseId t) courseId)) rows) = [].
Proof.
  induction rows as [|r rows IH]; [reflexivity|]. simpl.
  destruct (Str.eqb (Supabase.courseId r) courseId) eqn:Hr; simpl; [exact IH|].
  now rewrite Hr.
Qed.

Lemma filter_stored_rows (courseId stamp : jsstring) (ets : list ExtractedTopic) :
  forall n index,
    filter (fun t => Str.eqb (Supabase.courseId t) courseId)
      (store_rows n (topicsToInsert courseId stamp index ets))
    = store_rows n (topicsToInsert courseId stamp index ets).
Proof.
  induction ets as [|e ets IH]; intros n index; [reflexivity|].
  simpl. rewrite eqb_refl. now rewrite IH.
Qed.

(** After a served delete nothing of the course is left. *)
Lemma topics_after_delete (courseId : jsstring) (w : Backend) :
  topics_of_course courseId (remove_topics_of_course courseId w) = [].
Proof. apply filter_none_of_course. Qed.

Lemma courses_owned_mark (courseId uid stamp : jsstring) (w : Backend) :
  courses_owned courseId uid (mark_course courseId stamp w)
  = List.map (set_topics_extracted stamp) (courses_owned courseId uid w).
Proof.
  unfold courses_owned, mark_course. simpl.
  induction (courses w) as [|c cs IH]; [reflexivity|]. simpl.
  destruct (Str.eqb (course_id c) courseId) eqn:Hc; simpl.
  - rewrite Hc. simpl. destruct (Str.eqb (userId c) uid); simpl; now rewrite IH.
  - rewrite Hc. simpl. exact IH.
Qed.

Lemma marked_courses (courseId stamp : jsstring) (w : Backend) (c : Course) :
  In c (courses (mark_course courseId stamp w)) ->
  course_id c = courseId -> topicsExtracted c = true.
Proof.
  unfold mark_course. simpl. intros Hin Hid.
  apply in_map_iff in Hin. destruct Hin as [c0 [Hc0 _]].
  destruct (Str.eqb (course_id c0) courseId) eqn:H0; subst c.
  - reflexivity.
  - apply eqb_eq in Hid. congruence.
Qed.

Lemma owned_course_in (w : Backend) (uid courseId : jsstring) (c : Course) :
  owns w uid courseId c ->
  In c (courses w) /\ course_id c = courseId /\ userId c = uid.
Proof.
  intros [_ [_ Hc]].
  assert (Hin : In c (courses_owned courseId uid w)) by (rewrite Hc; now left).
  unfold courses_owned in Hin. apply filter_In in Hin. destruct Hin as [Hin Hb].
  apply andb_true_iff in Hb. destruct Hb as [H1 H2].
  apply eqb_eq in H1. apply eqb_eq in H2. now repeat split.
Qed.

Lemma owned_course_marked (w : Backend) (uid courseId stamp : jsstring) (c : Course) :
  owns w uid courseId c ->
  owns (mark_course courseId stamp w) uid courseId (set_topics_extracted stamp c).
Proof.
  intros [Hu [Hne Hc]]. repeat split; try assumption.
  rewrite courses_owned_mark, Hc. reflexivity.
Qed.

(** C2. For a course owned by the signed-in caller and a backend that serves
    every call: saving the topics titled [x] (order 1) and [y] (order 2)
    succeeds, fetching the topics of the course afterwards returns exactly two
    topics, titled [x] then [y], and the course carries the flag
    [topicsExtracted]. *)
Theorem save_then_get_round_trip
    (w : Backend) (uid courseId : jsstring) (c : Course)
    (id1 id2 x y : jsstring) (ks1 ks2 : option (list jsstring)) :
  owns w uid courseId c ->
  all_served w ->
  let e1 := {| TopicExtractionService.id := id1; TopicExtractionService.title := x;
               TopicExtractionService.order := 1; TopicExtractionService.keywords := ks1 |} in
  let e2 := {| TopicExtractionService.id := id2; TopicExtractionService.title := y;
               TopicExtractionService.order := 2; TopicExtractionService.keywords := ks2 |} in
  exists saved w1 fetched w2 r1 r2 c',
    saveTopicsForCourse courseId [e1; e2] w = (Ok saved, w1) /\
    success saved = true /\
    getTopicsForCourse courseId w1 = (Ok fetched, w2) /\
    success fetched = true /\
    data fetched = Some [r1; r2] /\
    Supabase.title r1 = x /\ Supabase.title r2 = y /\
    courses_owned courseId uid w2 = [c'] /\
    topicsExtracted c' = true.
Proof.
  intros Howns Hs e1 e2.
  pose proof (@saveTopicsForCourse_served w uid courseId c Howns [e1; e2] Hs) as Hsave.
  cbv zeta in Hsave. specialize (Hsave ltac:(discriminate)).
  set (w1 := mark_course courseId (clock w)
               (pop (add_rows (topicsToInsert courseId (clock w) 0 [e1; e2])
                  (pop (remove_topics_of_course courseId (pop (checked w))))))) in *.
  assert (Howns1 : owns w1 uid courseId (set_topics_extracted (clock w) c)).
  { unfold w1. apply owned_course_marked. exact Howns. }
  assert (Hs1 : all_served w1) by (unfold w1; auto 12 with served).
  pose proof (@getTopicsForCourse_served w1 uid courseId _ Howns1 Hs1) as Hget.
  assert (Hrows : topics_of_course courseId w1
                  = store_rows (next_row w) (topicsToInsert courseId (clock w) 0 [e1; e2])).
  { unfold w1, topics_of_course, mark_course, add_rows, pop. cbn [topics with_courses
      with_topics with_answers]. rewrite filter_app.
    change (filter (fun t => Str.eqb (Supabase.courseId t) courseId)
              (topics (remove_topics_of_course courseId
                 (with_answers (tl (answers (checked w))) (checked w)))))
      with (topics_of_course courseId (remove_topics_of_course courseId
              (with_answers (tl (answers (checked w))) (checked w)))).
    rewrite topics_after_delete, app_nil_l.
    apply filter_stored_rows. }
  rewrite Hrows in Hget.
  do 7 eexists. split; [exact Hsave|]. split; [reflexivity|].
  split; [exact Hget|]. split; [reflexivity|].
  split; [reflexivity|]. split; [reflexivity|]. split; [reflexivity|].
  split; [apply Howns1 | reflexivity].
Qed.

(** C10 (as amended). For a signed-in caller who owns the course, when
    the five calls that the operation makes to the backend are served, saving
    the empty list succeeds with an empty topic list: afterwards the course
    has no stored topic, the topics of other courses are untouched, and the
    course carries the flag [topicsExtracted]. *)
Theorem save_empty_list_marks_course
    (w : Backend) (uid courseId : jsstring) (c : Course) :
  owns w uid courseId c ->
  served_calls 5 w ->
  exists resp w' c',
    saveTopicsForCourse courseId [] w = (Ok resp, w') /\
    success resp = true /\ data resp = Some [] /\ error resp = None /\
    topics_of_course courseId w' = [] /\
    topics w' = filter (fun t => negb (Str.eqb (Supabase.courseId t) courseId)) (topics w) /\
    courses_owned courseId uid w' = [c'] /\
    topicsExtracted c' = true.
Proof.
  intros Howns Hs.
  pose proof (@saveTopicsForCourse_empty_run w uid courseId c Howns Hs) as Hsave.
  do 3 eexists. split; [exact Hsave|].
  split; [reflexivity|]. split; [reflexivity|]. split; [reflexivity|].
  split; [apply topics_after_delete|]. split; [reflexivity|].
  split.
  - exact (proj2 (proj2 (owned_course_marked (clock w)
             (owns_pop (w := remove_topics_of_course courseId (pop (checked w))) Howns)))).
  - reflexivity.
Qed.

(** C3 (as amended). When the caller owns the course, the delete is served
    and the insert that follows is refused or throws, the operation returns
    an error, the course is left with no stored topic whatever it had before,
    and its row, with the flag [topicsExtracted], is as it was before the
    call. *)
Theorem save_insert_failure_not_rolled_back
    (w : Backend) (uid courseId : jsstring) (c : Course)
    (ets : list ExtractedTopic) (a : Answer) (rest : list Answer) :
  owns w uid courseId c ->
  answers w = Served :: Served :: Served :: Served :: a :: rest ->
  a <> Served ->
  ets <> [] ->
  exists resp w',
    saveTopicsForCourse courseId ets w = (Ok resp, w') /\
    success resp = false /\ data resp = None /\ error resp <> None /\
    topics_of_course courseId w' = [] /\
    courses w' = courses w.
Proof.
  intros Howns Ha Hbad Hne.
  destruct (@saveTopicsForCourse_insert_fails w uid courseId c Howns ets a rest Ha Hbad Hne)
    as [resp [Hrun [H1 [H2 H3]]]].
  exists resp. eexists. split; [exact Hrun|].
  repeat split; try assumption.
  apply (topics_after_delete courseId (pop (checked w))).
Qed.

(** ** Order indices *)

Lemma one_to_S (n : nat) : one_to (S n) = one_to n ++ [Z.of_nat (S n)].
Proof. unfold one_to. now rewrite seq_S, map_app. Qed.

Lemma reorder_orders (topics : list ExtractedTopic) : forall index,
  List.map TopicExtractionService.order (ReviewTopicsScreen.reorder index topics)
  = List.map Z.of_nat (seq (index + 1) (length topics)).
Proof.
  induction topics as [|t topics IH]; intros index; [reflexivity|].
  simpl. rewrite IH. now rewrite Nat.add_succ_l.
Qed.

Lemma reorder_length (topics : list ExtractedTopic) : forall index,
  length (ReviewTopicsScreen.reorder index topics) = length topics.
Proof. induction topics as [|t topics IH]; intros index; simpl; [reflexivity | now rewrite IH]. Qed.

Lemma removeTopic_packed (topicId : jsstring) (topics : list ExtractedTopic) :
  packed (ReviewTopicsScreen.removeTopic topicId topics).
Proof.
  unfold packed, ReviewTopicsScreen.removeTopic.
  now rewrite reorder_orders, reorder_length.
Qed.

Lemma addNewTopic_packed (now : N) (topics : list ExtractedTopic) :
  packed topics -> packed (ReviewTopicsScreen.addNewTopic now topics).
Proof.
  unfold packed, ReviewTopicsScreen.addNewTopic. intros H.
  rewrite map_app, H, length_app. cbn [map length TopicExtractionService.order].
  rewrite !Nat.add_1_r. now rewrite one_to_S.
Qed.

Lemma deleteTopic_served (w : Backend) (uid topicId : jsstring) :
  session w = Some uid -> is_empty uid = false ->
  owners_of_topic topicId w = [uid] ->
  all_served w ->
  deleteTopic topicId w = (Ok (succeeded true), remove_topic_row topicId (checked w)).
Proof.
  intros Hu Hne Hown Hs. unfold deleteTopic. apply try_catch_ok.
  erewrite bind_ok
    by (apply getCurrentUserId_served; [auto with served | exact Hu | exact Hne]).
  cbv beta iota. unfold select_owner_of_topic.
  erewrite bind_ok by (apply call_served; auto with served).
  cbv beta. cbn [fst snd].
  change (owners_of_topic topicId (pop (pop w))) with (owners_of_topic topicId w).
  rewrite Hown. cbn [single]. rewrite eqb_refl. cbn [negb].
  unfold delete_topic_row.
  erewrite bind_ok by (apply call_served; auto 12 with served).
  reflexivity.
Qed.

Lemma course_orders_add_row (courseId : jsstring) (row : NewTopic) (w : Backend) :
  new_courseId row = courseId ->
  course_orders courseId (add_rows [row] w)
  = course_orders courseId w ++ [new_orderIndex row].
Proof.
  intros Hrow. unfold course_orders, topics_of_course, add_rows. simpl.
  rewrite filter_app, map_app. simpl. rewrite Hrow, eqb_refl. reflexivity.
Qed.

Lemma dense_snoc (orders : list Z) :
  dense orders -> dense (orders ++ [Z.of_nat (length orders + 1)]).
Proof.
  unfold dense. intros H. rewrite length_app. cbn [length].
  rewrite !Nat.add_1_r, one_to_S. now apply Permutation_app_tail.
Qed.

(** C8 (as amended). In the review screen the orders of the list are 1..n
    in array order after every removal (the remaining topics are renumbered)
    and after every addition to a list that was 1..n. The gateway does not
    renumber: [createTopic] appends a row with the order index given by the
    caller, so that the order indices of the course stay 1..n+1 when the
    caller gives n+1; [deleteTopic] removes the row and leaves every other
    row as it was. *)
Theorem order_indices_after_edits :
  (forall topicId topics, packed (ReviewTopicsScreen.removeTopic topicId topics)) /\
  (forall now topics,
     packed topics -> packed (ReviewTopicsScreen.addNewTopic now topics)) /\
  (forall w uid courseId c topicData,
     owns w uid courseId c -> all_served w ->
     exists row w',
       createTopic courseId topicData w = (Ok (succeeded row), w') /\
       orderIndex row = data_orderIndex topicData /\
       course_orders courseId w' = course_orders courseId w ++ [data_orderIndex topicData] /\
       (dense (course_orders courseId w) ->
        data_orderIndex topicData = Z.of_nat (length (course_orders courseId w) + 1) ->
        dense (course_orders courseId w'))) /\
  (forall w uid topicId,
     session w = Some uid -> is_empty uid = false ->
     owners_of_topic topicId w = [uid] -> all_served w ->
     exists w',
       deleteTopic topicId w = (Ok (succeeded true), w') /\
       topics w' = filter (fun t => negb (Str.eqb (Supabase.id t) topicId)) (topics w)).
Proof.
  split; [exact removeTopic_packed|]. split; [exact addNewTopic_packed|]. split.
  - intros w uid courseId c topicData Howns Hs.
    destruct (@createTopic_served w uid courseId c Howns topicData Hs)
      as [stored [Hstored Hrun]].
    exists stored. eexists. split; [exact Hrun|].
    split; [now inversion Hstored|].
    assert (Horders : course_orders courseId
                        (add_rows [{| new_courseId := courseId;
                                      new_title := data_title topicData;
                                      new_content := data_content topicData;
                                      new_orderIndex := data_orderIndex topicData;
                                      new_createdAt := clock w |}] (pop (checked w)))
                      = course_orders courseId w ++ [data_orderIndex topicData]).
    { now rewrite course_orders_add_row. }
    split; [exact Horders|].
    intros Hdense Hnext. rewrite Horders, Hnext. now apply dense_snoc.
  - intros w uid topicId Hu Hne Hown Hs.
    eexists. split; [now apply deleteTopic_served with (uid := uid)|]. reflexivity.
Qed.

End GatewayProperties.

(* ===================================================================== *)
(** * The properties on concrete inputs *)
(* ===================================================================== *)

Lemma calculus_owned (rows : list Supabase.Topic) (answers : list Supabase.Answer) :
  Spec.owns (Fixtures.backend rows answers) (Str.lit "u1") (Str.lit "c1") Fixtures.calculus.
Proof. repeat split. Defined.

Lemma save_then_get_round_trip_witness :
  let w := Fixtures.backend Fixtures.three_rows [] in
  let e1 := {| TopicExtractionService.id := Str.lit "topic-1";
               TopicExtractionService.title := Str.lit "X";
               TopicExtractionService.order := 1;
               TopicExtractionService.keywords := None |} in
  let e2 := {| TopicExtractionService.id := Str.lit "topic-2";
               TopicExtractionService.title := Str.lit "Y";
               TopicExtractionService.order := 2;
               TopicExtractionService.keywords := Some [Str.lit "a"] |} in
  exists saved w1 fetched w2 r1 r2 c',
    TopicService.saveTopicsForCourse (Str.lit "c1") [e1; e2] w = (Ok saved, w1) /\
    TopicService.success saved = true /\
    TopicService.getTopicsForCourse (Str.lit "c1") w1 = (Ok fetched, w2) /\
    TopicService.success fetched = true /\
    TopicService.data fetched = Some [r1; r2] /\
    Supabase.title r1 = Str.lit "X" /\ Supabase.title r2 = Str.lit "Y" /\
    Supabase.courses_owned (Str.lit "c1") (Str.lit "u1") w2 = [c'] /\
    Supabase.topicsExtracted c' = true.
Proof.
  cbv zeta.
  apply (@save_then_get_round_trip (Fixtures.backend Fixtures.three_rows [])
           (Str.lit "u1") (Str.lit "c1") Fixtures.calculus
           (Str.lit "topic-1") (Str.lit "topic-2") (Str.lit "X") (Str.lit "Y")
           None (Some [Str.lit "a"])).
  - exact (calculus_owned Fixtures.three_rows []).
  - constructor.
Defined.

Lemma algebra_owned (answers : list Supabase.Answer) :
  Spec.owns (Fixtures.two_courses answers) (Str.lit "u1") (Str.lit "c2") Fixtures.algebra.
Proof. repeat split. Defined.

(** C10 as stated: the caller owns the course, which has a topic and whose
    flag is not set. With the delete served and the update of the course
    refused, the call reports a success with an empty list, and the flag is
    still not set; with the delete refused, the call fails and the topic is
    still stored. *)
Lemma save_empty_list_update_refused :
  let w := Fixtures.two_courses Fixtures.update_refused in
  let run := TopicService.saveTopicsForCourse (Str.lit "c2") [] w in
  let w0 := Fixtures.two_courses Fixtures.delete_refused in
  let run0 := TopicService.saveTopicsForCourse (Str.lit "c2") [] w0 in
  Spec.owns w (Str.lit "u1") (Str.lit "c2") Fixtures.algebra /\
  Supabase.topicsExtracted Fixtures.algebra = false /\
  (exists resp, fst run = Ok resp /\
                TopicService.success resp = true /\ TopicService.data resp = Some []) /\
  Supabase.courses_owned (Str.lit "c2") (Str.lit "u1") (snd run) = [Fixtures.algebra] /\
  Spec.owns w0 (Str.lit "u1") (Str.lit "c2") Fixtures.algebra /\
  (exists resp, fst run0 = Ok resp /\
                TopicService.success resp = false /\ TopicService.data resp = None) /\
  Supabase.topics_of_course (Str.lit "c2") (snd run0) = [Fixtures.algebra_row].
Proof.
  cbv zeta. split; [exact (algebra_owned _)|]. split; [reflexivity|].
  split; [eexists; split; [vm_compute; reflexivity | split; reflexivity]|].
  split; [vm_compute; reflexivity|].
  split; [exact (algebra_owned _)|].
  split; [eexists; split; [vm_compute; reflexivity | split; reflexivity]|].
  vm_compute; reflexivity.
Qed.

Lemma save_empty_list_marks_course_witness :
  let w := Fixtures.two_courses [] in
  Supabase.topicsExtracted Fixtures.algebra = false /\
  Supabase.topics_of_course (Str.lit "c2") w = [Fixtures.algebra_row] /\
  exists resp w' c',
    TopicService.saveTopicsForCourse (Str.lit "c2") [] w = (Ok resp, w') /\
    TopicService.success resp = true /\ TopicService.data resp = Some [] /\
    TopicService.error resp = None /\
    Supabase.topics_of_course (Str.lit "c2") w' = [] /\
    Supabase.topics w'
      = filter (fun t => negb (Str.eqb (Supabase.courseId t) (Str.lit "c2"))) (Supabase.topics w) /\
    Supabase.courses_owned (Str.lit "c2") (Str.lit "u1") w' = [c'] /\
    Supabase.topicsExtracted c' = true.
Proof.
  cbv zeta. split; [reflexivity|]. split; [reflexivity|].
  apply (@save_empty_list_marks_course (Fixtures.two_courses [])
           (Str.lit "u1") (Str.lit "c2") Fixtures.algebra).
  - exact (algebra_owned []).
  - constructor.
Defined.

(** C3 as stated: the course had its flag set before the call; the delete is
    served and the insert refused; the call fails, the course has no topic
    left, and its flag is still set. *)
Lemma save_insert_failure_keeps_flag :
  let w := Fixtures.backend Fixtures.three_rows Fixtures.insert_refused in
  let run := TopicService.saveTopicsForCourse (Str.lit "c1") [Fixtures.extracted 1 "Limits"] w in
  Spec.owns w (Str.lit "u1") (Str.lit "c1") Fixtures.calculus /\
  (exists resp, fst run = Ok resp /\ TopicService.success resp = false) /\
  Supabase.topics_of_course (Str.lit "c1") w = Fixtures.three_rows /\
  Supabase.topics_of_course (Str.lit "c1") (snd run) = [] /\
  Supabase.courses_owned (Str.lit "c1") (Str.lit "u1") (snd run) = [Fixtures.calculus] /\
  Supabase.topicsExtracted Fixtures.calculus = true.
Proof.
  cbv zeta. split; [exact (calculus_owned _ _)|].
  split; [eexists; split; vm_compute; reflexivity|].
  repeat split; vm_compute; reflexivity.
Qed.

Lemma save_insert_failure_not_rolled_back_witness :
  let w := Fixtures.backend Fixtures.three_rows Fixtures.insert_refused in
  exists resp w',
    TopicService.saveTopicsForCourse (Str.lit "c1") [Fixtures.extracted 1 "Limits"] w
      = (Ok resp, w') /\
    TopicService.success resp = false /\ TopicService.data resp = None /\
    TopicService.error resp <> None /\
    Supabase.topics_of_course (Str.lit "c1") w' = [] /\
    Supabase.courses w' = Supabase.courses w.
Proof.
  cbv zeta.
  apply (@save_insert_failure_not_rolled_back
           (Fixtures.backend Fixtures.three_rows Fixtures.insert_refused)
           (Str.lit "u1") (Str.lit "c1") Fixtures.calculus
           [Fixtures.extracted 1 "Limits"]
           (Supabase.Refused Fixtures.constraint_violation) []).
  - exact (calculus_owned _ _).
  - reflexivity.
  - discriminate.
  - discriminate.
Defined.

(** C9 as stated: a keyword made of one space is not empty and does not
    contain the separator, and it is lost on the way back. *)
Lemma topic_round_trip_loses_blank_keyword :
  let ks := [Str.lit "loops"; Str.lit " "] in
  let et := {| TopicExtractionService.id := Str.lit "topic-1";
               TopicExtractionService.title := Str.lit "Control structures";
               TopicExtractionService.order := 1;
               TopicExtractionService.keywords := Some ks |} in
  let back :=
    TopicService.topicToExtractedTopic
      (Spec.stored_topic (Str.lit "row-1") Fixtures.stamp
         (TopicService.extractedTopicToTopic et (Str.lit "c1"))) in
  Forall (fun k => k <> [] /\ Str.includes k (Str.lit ", ") = false) ks /\
  TopicExtractionService.keywords back = Some [Str.lit "loops"] /\
  TopicExtractionService.keywords back <> Some ks.
Proof.
  cbv zeta. split.
  - repeat constructor; discriminate.
  - split; [reflexivity | discriminate].
Qed.

Lemma topic_round_trip_witness :
  let ks := [Str.lit "for loops"; Str.lit "while"] in
  let et := {| TopicExtractionService.id := Str.lit "topic-1";
               TopicExtractionService.title := Str.lit "Control structures";
               TopicExtractionService.order := 1;
               TopicExtractionService.keywords := Some ks |} in
  let back :=
    TopicService.topicToExtractedTopic
      (Spec.stored_topic (Str.lit "row-1") Fixtures.stamp
         (TopicService.extractedTopicToTopic et (Str.lit "c1"))) in
  TopicExtractionService.title back = TopicExtractionService.title et /\
  TopicExtractionService.order back = TopicExtractionService.order et /\
  TopicExtractionService.keywords back = Some ks.
Proof.
  cbv zeta.
  apply (@topic_round_trip _ (Str.lit "c1") (Str.lit "row-1") Fixtures.stamp
           [Str.lit "for loops"; Str.lit "while"]).
  - reflexivity.
  - repeat constructor.
Defined.

Lemma three_rows_dense :
  Spec.dense (Spec.course_orders (Str.lit "c1") (Fixtures.backend Fixtures.three_rows [])).
Proof. exact (Permutation_refl _). Defined.

(** C8 as stated: on a course whose order indices are 1, 2, 3,
    [createTopic] with the order index 5 leaves 1, 2, 3, 5, and [deleteTopic]
    of the second topic leaves 1, 3. *)
Lemma gateway_edits_leave_gaps :
  let w := Fixtures.backend Fixtures.three_rows [] in
  let created := TopicService.createTopic (Str.lit "c1") (Fixtures.series 5) w in
  let deleted := TopicService.deleteTopic (Supabase.row_id 2) w in
  Spec.dense (Spec.course_orders (Str.lit "c1") w) /\
  (exists row, fst created = Ok (TopicService.succeeded row)) /\
  Spec.course_orders (Str.lit "c1") (snd created) = [1; 2; 3; 5]%Z /\
  ~ Spec.dense (Spec.course_orders (Str.lit "c1") (snd created)) /\
  fst deleted = Ok (TopicService.succeeded true) /\
  Spec.course_orders (Str.lit "c1") (snd deleted) = [1; 3]%Z /\
  ~ Spec.dense (Spec.course_orders (Str.lit "c1") (snd deleted)).
Proof.
  cbv zeta. split; [exact three_rows_dense|].
  split; [eexists; vm_compute; reflexivity|].
  split; [vm_compute; reflexivity|]. split.
  - intros H. apply Permutation_in with (x := 5%Z) in H.
    + vm_compute in H. destruct H as [H|[H|[H|[H|[]]]]]; discriminate.
    + vm_compute. auto.
  - split; [vm_compute; reflexivity|]. split; [vm_compute; reflexivity|].
    intros H. apply Permutation_in with (x := 3%Z) in H.
    + vm_compute in H. destruct H as [H|[H|[]]]; discriminate.
    + vm_compute. auto.
Qed.

Lemma two_topics_packed :
  Spec.packed [Fixtures.extracted 1 "Limits"; Fixtures.extracted 2 "Derivatives"].
Proof. reflexivity. Defined.

Lemma order_indices_after_edits_witness :
  let w := Fixtures.backend Fixtures.three_rows [] in
  let topics := [Fixtures.extracted 1 "Limits"; Fixtures.extracted 2 "Derivatives"] in
  Spec.packed (ReviewTopicsScreen.removeTopic (Str.lit "topic-1") topics) /\
  Spec.packed (ReviewTopicsScreen.addNewTopic 1700000000000%N topics) /\
  (exists row w',
     TopicService.createTopic (Str.lit "c1") (Fixtures.series 4) w
       = (Ok (TopicService.succeeded row), w') /\
     Spec.dense (Spec.course_orders (Str.lit "c1") w')) /\
  (exists w',
     TopicService.deleteTopic (Supabase.row_id 3) w = (Ok (TopicService.succeeded true), w') /\
     Supabase.topics w'
       = filter (fun t => negb (Str.eqb (Supabase.id t) (Supabase.row_id 3))) (Supabase.topics w)).
Proof.
  cbv zeta. destruct order_indices_after_edits as [Hremove [Hadd [Hcreate Hdelete]]].
  split; [apply Hremove|]. split; [apply Hadd; exact two_topics_packed|]. split.
  - destruct (Hcreate (Fixtures.backend Fixtures.three_rows []) (Str.lit "u1") (Str.lit "c1")
                Fixtures.calculus (Fixtures.series 4) (calculus_owned _ _)
                ltac:(constructor))
      as [row [w' [Hrun [_ [_ Hdense]]]]].
    exists row, w'. split; [exact Hrun|].
    apply Hdense; [exact three_rows_dense | reflexivity].
  - apply (Hdelete (Fixtures.backend Fixtures.three_rows []) (Str.lit "u1") (Supabase.row_id 3)).
    + reflexivity.
    + reflexivity.
    + reflexivity.
    + constructor.
Defined.

(** C4 as stated: removing the bullet of [Week 1 * Limits] (the star standing
    for U+2022) leaves two spaces side by side, which only a second
    application collapses; and a text cut at the limit may end with a space,
    which only a second application trims. *)
Lemma cleaning_twice_differs :
  FileReaderService.cleanExtractedText Fixtures.bulleted = Str.lit "Week 1  Limits" /\
  FileReaderService.cleanExtractedText (FileReaderService.cleanExtractedText Fixtures.bulleted)
    = Str.lit "Week 1 Limits" /\
  FileReaderService.cleanExtractedText (FileReaderService.cleanExtractedText Fixtures.bulleted)
    <> FileReaderService.cleanExtractedText Fixtures.bulleted /\
  TopicExtractionService.cleanSyllabusText
      (TopicExtractionService.cleanSyllabusText Fixtures.long_line)
    <> TopicExtractionService.cleanSyllabusText Fixtures.long_line.
Proof.
  split; [vm_compute; reflexivity|]. split; [vm_compute; reflexivity|]. split.
  - vm_compute. discriminate.
  - intros H. apply (f_equal (fun l => N.of_nat (length l))) in H.
    vm_compute in H. discriminate.
Qed.

Lemma untidy_plain : Forall (fun c => Spec.plain_char c = true) Fixtures.untidy.
Proof. repeat constructor. Defined.

Lemma cleaning_idempotent_witness :
  FileReaderService.cleanExtractedText (FileReaderService.cleanExtractedText Fixtures.untidy)
    = FileReaderService.cleanExtractedText Fixtures.untidy /\
  TopicExtractionService.cleanSyllabusText
      (TopicExtractionService.cleanSyllabusText Fixtures.bulleted)
    = TopicExtractionService.cleanSyllabusText Fixtures.bulleted.
Proof.
  split.
  - apply (proj1 cleaning_idempotent Fixtures.untidy).
    + exact untidy_plain.
    + apply N.leb_le. reflexivity.
  - apply (proj2 cleaning_idempotent Fixtures.bulleted).
    apply N.leb_le. reflexivity.
Defined.

Example cleanExtractedText_untidy :
  FileReaderService.cleanExtractedText Fixtures.untidy
  = Str.lit "Week 1: Limits " ++ [Str.LF; Str.LF] ++ Str.lit "Week 2: Derivatives".
Proof. vm_compute. reflexivity. Qed.

(* ===================================================================== *)
(** * What the cleaned texts look like *)
(* ===================================================================== *)

Section CleanedTexts.
Import Str Spec.

Lemma cleanSyllabusText_normalize (s : jsstring) :
  TopicExtractionService.cleanSyllabusText s = substring0 8000 (normalize s).
Proof. reflexivity. Qed.

Lemma cleanExtractedText_normalize (s : jsstring) :
  FileReaderService.cleanExtractedText s
  = substring0 10000 (filter FileReaderService.is_printable (normalize s)).
Proof. destruct s; reflexivity. Qed.

Lemma substring0_prefix (n : N) (s : jsstring) : exists r, s = substring0 n s ++ r.
Proof. exists (skipn (N.to_nat n) s). unfold substring0. now rewrite firstn_skipn. Qed.

Lemma substring0_length (n : N) (s : jsstring) :
  (N.of_nat (length (substring0 n s)) <= n)%N /\ (length (substring0 n s) <= length s)%nat.
Proof. unfold substring0. rewrite length_firstn. lia. Qed.

Lemma filter_length_le (f : N -> bool) (s : jsstring) : (length (filter f s) <= length s)%nat.
Proof. induction s as [|c t IH]; simpl; [lia|]. destruct (f c); simpl; lia. Qed.

Lemma nl_ok_no_triple (s : jsstring) : forall n,
  nl_ok n s -> includes s [LF; LF; LF] = false.
Proof.
  induction s as [|c t IH]; intros n H; [reflexivity|].
  cbn [includes]. apply orb_false_iff. split.
  - cbn [startsWith]. destruct (LF =? c)%N eqn:E1; [|reflexivity].
    apply N.eqb_eq in E1. subst c. simpl in H. destruct H as [H1 H].
    destruct t as [|d t]; [reflexivity|].
    destruct (LF =? d)%N eqn:E2; [|reflexivity].
    apply N.eqb_eq in E2. subst d. simpl in H. destruct H as [H2 H].
    destruct t as [|e t]; [reflexivity|].
    destruct (LF =? e)%N eqn:E3; [|reflexivity].
    apply N.eqb_eq in E3. subst e. simpl in H. destruct H as [H3 _]. lia.
  - simpl in H. destruct (c =? LF)%N; [destruct H as [_ H]|]; now apply IH in H.
Qed.

Lemma blank_ok_no_double (s : jsstring) : forall b,
  blank_ok b s -> includes s [SPACE; SPACE] = false /\ ~ In TAB s.
Proof.
  induction s as [|c t IH]; intros b H; [split; [reflexivity | intros []]|].
  simpl in H. destruct (is_blank c) eqn:E.
  - destruct H as [Hc [_ H]]. subst c. destruct (IH true H) as [IH1 IH2]. split.
    + cbn [includes]. apply orb_false_iff. split; [|exact IH1].
      cbn [startsWith]. destruct t as [|d t]; [reflexivity|].
      simpl in H. destruct (SPACE =? d)%N eqn:E2; [|now rewrite andb_false_r].
      apply N.eqb_eq in E2. subst d. change (is_blank SPACE) with true in H.
      destruct H as [_ [H _]]. discriminate.
    + intros [Hx|Hx]; [discriminate | now apply IH2].
  - destruct (IH false H) as [IH1 IH2]. split.
    + cbn [includes]. apply orb_false_iff. split; [|exact IH1].
      cbn [startsWith]. destruct (SPACE =? c)%N eqn:E2; [|reflexivity].
      apply N.eqb_eq in E2. subst c. discriminate.
    + intros [Hx|Hx]; [subst c; discriminate | now apply IH2].
Qed.

Lemma trimStart_trim (s : jsstring) : trimStart (trim s) = trim s.
Proof.
  unfold trim.
  destruct (trimStart_head s) as [H | [c [t [H Hc]]]]; rewrite H; [reflexivity|].
  destruct (trimEnd_head c t) as [H' | [t' H']]; rewrite H'; [reflexivity|].
  simpl. now rewrite Hc.
Qed.

Lemma trimStart_substring0 (n : N) (s : jsstring) :
  trimStart s = s -> trimStart (substring0 n s) = substring0 n s.
Proof.
  unfold substring0. destruct (N.to_nat n) as [|k]; [reflexivity|].
  destruct s as [|c t]; [reflexivity|]. simpl.
  destruct (is_space c) eqn:E; [|reflexivity].
  intros H. exfalso.
  destruct (trimStart_suffix t) as [p Hp]. rewrite H in Hp.
  apply (f_equal (@length N)) in Hp. rewrite length_app in Hp. simpl in Hp. lia.
Qed.

Lemma cleanExtractedText_printable (s : jsstring) :
  Forall (fun c => FileReaderService.is_printable c = true)
    (FileReaderService.cleanExtractedText s).
Proof.
  rewrite cleanExtractedText_normalize.
  set (t := filter FileReaderService.is_printable (normalize s)).
  assert (Ht : Forall (fun c => FileReaderService.is_printable c = true) t).
  { apply Forall_forall. intros c Hc. unfold t in Hc. apply filter_In in Hc. apply Hc. }
  destruct (substring0_prefix 10000 t) as [r Hr].
  rewrite Hr in Ht. apply Forall_app in Ht. apply Ht.
Qed.

Lemma cleanExtractedText_short (s : jsstring) :
  (N.of_nat (length (FileReaderService.cleanExtractedText s)) <= 10000)%N.
Proof. rewrite cleanExtractedText_normalize. apply substring0_length. Qed.

Lemma cleanSyllabusText_short (s : jsstring) :
  (N.of_nat (length (TopicExtractionService.cleanSyllabusText s)) <= 8000)%N.
Proof. rewrite cleanSyllabusText_normalize. apply substring0_length. Qed.

(** X1. Whatever the text, the result of the document reader's clean-up
    holds only printable ASCII characters and line feeds, has at most 10,000
    characters and is never longer than the text. *)
Theorem cleanExtractedText_output (s : jsstring) :
  Forall (fun c => FileReaderService.is_printable c = true)
    (FileReaderService.cleanExtractedText s) /\
  (N.of_nat (length (FileReaderService.cleanExtractedText s)) <= 10000)%N /\
  (length (FileReaderService.cleanExtractedText s) <= length s)%nat.
Proof.
  split; [apply cleanExtractedText_printable|].
  split; [apply cleanExtractedText_short|].
  rewrite cleanExtractedText_normalize.
  destruct (substring0_length 10000 (filter FileReaderService.is_printable (normalize s)))
    as [_ Hcut].
  pose proof (filter_length_le FileReaderService.is_printable (normalize s)) as Hkept.
  pose proof (normalize_length s) as Hnorm. lia.
Qed.

(** X2. Whatever the text, the text that the extraction client puts in its
    prompt has at most 8,000 characters, is never longer than the input, has
    no carriage return, no tab, no three line feeds in a row, no two spaces
    in a row, and does not start with white space. *)
Theorem cleanSyllabusText_output (s : jsstring) :
  let t := TopicExtractionService.cleanSyllabusText s in
  (N.of_nat (length t) <= 8000)%N /\
  (length t <= length s)%nat /\
  ~ In CR t /\ ~ In TAB t /\
  includes t [LF; LF; LF] = false /\
  includes t [SPACE; SPACE] = false /\
  trimStart t = t.
Proof.
  cbv zeta. rewrite cleanSyllabusText_normalize.
  destruct (substring0_prefix 8000 (normalize s)) as [r Hr].
  destruct (substring0_length 8000 (normalize s)) as [H1 H2].
  pose proof (normalize_length s) as Hlen.
  pose proof (normalize_no_cr s) as Hcr.
  pose proof (normalize_nl_ok s) as Hnl.
  pose proof (normalize_blank_ok s) as Hbl.
  rewrite Hr in Hcr, Hnl, Hbl.
  apply Forall_app in Hcr. destruct Hcr as [Hcr _].
  apply nl_ok_prefix in Hnl. apply blank_ok_prefix in Hbl.
  destruct (blank_ok_no_double _ _ Hbl) as [Hdouble Htab].
  split; [exact H1|]. split; [lia|]. split.
  - intros Hin. unfold no_cr in Hcr. rewrite Forall_forall in Hcr.
    specialize (Hcr CR Hin). discriminate.
  - split; [exact Htab|]. split; [now apply nl_ok_no_triple with (n := 0%nat)|].
    split; [exact Hdouble|].
    apply trimStart_substring0. unfold normalize. apply trimStart_trim.
Qed.

Lemma cleanExtractedText_plain (s : jsstring) :
  Forall (fun c => plain_char c = true) s ->
  (N.of_nat (length s) <= 10000)%N ->
  FileReaderService.cleanExtractedText s = normalize s.
Proof.
  intros Hs Hl. rewrite cleanExtractedText_normalize.
  rewrite filter_all by (now apply normalize_printable).
  apply substring0_all. pose proof (normalize_length s). lia.
Qed.

(** X3. The text of the document reader is cleaned again by the extraction
    client: for a text of at most 10,000 characters made of printable ASCII
    characters, line feeds, tabs and carriage returns, this second clean-up
    changes nothing but the length, cutting the reader's result to its first
    8,000 characters. *)
Theorem recleaning_only_cuts (s : jsstring) :
  Forall (fun c => plain_char c = true) s ->
  (N.of_nat (length s) <= 10000)%N ->
  TopicExtractionService.cleanSyllabusText (FileReaderService.cleanExtractedText s)
  = substring0 8000 (FileReaderService.cleanExtractedText s).
Proof.
  intros Hs Hl. rewrite (cleanExtractedText_plain Hs Hl).
  rewrite cleanSyllabusText_normalize. now rewrite normalize_idempotent.
Qed.

End CleanedTexts.

Lemma recleaning_only_cuts_witness :
  TopicExtractionService.cleanSyllabusText
    (FileReaderService.cleanExtractedText Fixtures.untidy)
  = Str.substring0 8000 (FileReaderService.cleanExtractedText Fixtures.untidy).
Proof.
  apply (@recleaning_only_cuts Fixtures.untidy).
  - exact untidy_plain.
  - apply N.leb_le. reflexivity.
Defined.

(* ===================================================================== *)
(** * Properties of the document reader *)
(* ===================================================================== *)

Section Reader.
Import Str Spec.
Import FileReaderService.

Variables startTime endTime : Z.

Lemma readFileText_eq (file : FileInfo) :
  readFileText startTime endTime file =
    if negb (isValid (validateFile file)) then rejected (validation_error (validateFile file))
    else if includes (type file) (lit "pdf")
         then read_result startTime endTime file
                (cleanExtractedText (getMockPDFContent (name file)))
         else if word_like file
              then read_result startTime endTime file
                     (cleanExtractedText (getMockWordContent (name file)))
              else rejected (Some (lit "Unsupported file type: " ++ type file)).
Proof.
  unfold readFileText, read_body, read_result, word_like, extractFromPDF, extractFromWord.
  destruct (negb (isValid (validateFile file))); [reflexivity|].
  destruct (includes (type file) (lit "pdf")).
  - cbv beta iota zeta.
    destruct (is_empty _ || _); reflexivity.
  - destruct (includes (type file) (lit "word") || includes (type file) (lit "document")
              || endsWith (name file) (lit ".docx")); [|reflexivity].
    cbv beta iota zeta. destruct (is_empty _ || _); reflexivity.
Qed.

Lemma mock_pdf_long (n : jsstring) :
  is_empty (cleanExtractedText (getMockPDFContent n))
  || (length (cleanExtractedText (getMockPDFContent n)) <? 50)%nat = false.
Proof. vm_compute. reflexivity. Qed.

Lemma mock_word_long (n : jsstring) :
  is_empty (cleanExtractedText (getMockWordContent n))
  || (length (cleanExtractedText (getMockWordContent n)) <? 50)%nat = false.
Proof. vm_compute. reflexivity. Qed.

Lemma validateFile_valid (file : FileInfo) :
  isValid (validateFile file) = true ->
  (size file <= maxSize)%N /\
  (existsb (fun t => includes (type file) t) supportedTypes
   || endsWith (name file) (lit ".pdf") || endsWith (name file) (lit ".doc")
   || endsWith (name file) (lit ".docx")) = true.
Proof.
  unfold validateFile. destruct (maxSize <? size file)%N eqn:E; [discriminate|].
  apply N.ltb_ge in E. cbv zeta.
  destruct (existsb _ _ || _ || _ || _); [now split | discriminate].
Qed.

(** X4. A file that passes [validateFile] only by its name, ending in
    [.pdf] or [.doc], while its content type mentions none of [pdf], [word],
    [document], is still refused by [readFileText], with the message
    [Unsupported file type:] followed by the type. *)
Theorem readFileText_rejects_extension_only (file : FileInfo) :
  (size file <= maxSize)%N ->
  endsWith (name file) (lit ".pdf") = true \/ endsWith (name file) (lit ".doc") = true ->
  includes (type file) (lit "pdf") = false ->
  word_like file = false ->
  isValid (validateFile file) = true /\
  readFileText startTime endTime file
    = rejected (Some (lit "Unsupported file type: " ++ type file)).
Proof.
  intros Hsize Hext Hpdf Hword.
  assert (Hvalid : isValid (validateFile file) = true).
  { unfold validateFile. apply N.ltb_ge in Hsize. rewrite Hsize. cbv zeta.
    destruct Hext as [H|H]; rewrite H; rewrite ?orb_true_r; reflexivity. }
  split; [exact Hvalid|].
  rewrite readFileText_eq, Hvalid, Hpdf, Hword. reflexivity.
Qed.

(** X5. Every result of [readFileText] has one of two shapes. A success
    carries a text of 50 to 10,000 characters, all printable ASCII or line
    feeds, no error, and a metadata record that repeats the name, size and
    type of the file and gives the length of the text; the file is then at
    most 50 MB. A failure carries no text, no metadata, and one of three
    messages: the size limit, the request for a PDF or Word document, or the
    unsupported type. *)
Theorem readFileText_result_shape (file : FileInfo) :
  let r := readFileText startTime endTime file in
  (success r = true /\
   (size file <= maxSize)%N /\
   exists txt md,
     text r = Some txt /\ error r = None /\ metadata r = Some md /\
     fileName md = name file /\ fileSize md = size file /\ fileType md = type file /\
     textLength md = length txt /\
     (50 <= length txt)%nat /\ (N.of_nat (length txt) <= 10000)%N /\
     Forall (fun c => is_printable c = true) txt)
  \/
  (success r = false /\ text r = None /\ metadata r = None /\
   (error r = Some (lit "File size exceeds 50MB limit. Please use a smaller file.")
    \/ error r = Some (lit "Unsupported file type. Please select a PDF or Word document.")
    \/ error r = Some (lit "Unsupported file type: " ++ type file))).
Proof.
  cbv zeta. rewrite readFileText_eq.
  assert (Hok : forall cleaned raw,
            cleaned = cleanExtractedText raw ->
            is_empty cleaned || (length cleaned <? 50)%nat = false ->
            isValid (validateFile file) = true ->
            let r := read_result startTime endTime file cleaned in
            success r = true /\ (size file <= maxSize)%N /\
            exists txt md,
              text r = Some txt /\ error r = None /\ metadata r = Some md /\
              fileName md = name file /\ fileSize md = size file /\ fileType md = type file /\
              textLength md = length txt /\
              (50 <= length txt)%nat /\ (N.of_nat (length txt) <= 10000)%N /\
              Forall (fun c => is_printable c = true) txt).
  { intros cleaned raw Hc Hlong Hvalid. cbv zeta. unfold read_result. rewrite Hlong.
    split; [reflexivity|]. split; [apply (validateFile_valid file Hvalid)|].
    eexists. eexists. do 7 (split; [reflexivity|]).
    apply orb_false_iff in Hlong. destruct Hlong as [_ Hlong]. apply Nat.ltb_ge in Hlong.
    pose proof (cleanExtractedText_printable raw) as H1.
    pose proof (cleanExtractedText_short raw) as H2. rewrite <- Hc in H1, H2.
    now repeat split. }
  destruct (isValid (validateFile file)) eqn:Hvalid; cbn [negb].
  - destruct (includes (type file) (lit "pdf")).
    + left. exact (Hok _ _ eq_refl (mock_pdf_long (name file)) eq_refl).
    + destruct (word_like file).
      * left. exact (Hok _ _ eq_refl (mock_word_long (name file)) eq_refl).
      * right. repeat split. right. right. reflexivity.
  - right. unfold validateFile in *.
    destruct (maxSize <? size file)%N; [repeat split; now left|].
    cbv zeta in *.
    destruct (negb _); [|discriminate]. repeat split. right. now left.
Qed.

(** X6. The reader is a stub: there are two fixed texts such that every file
    accepted by [validateFile] whose type mentions [pdf] yields the first,
    and every other accepted file of a Word kind yields the second, whatever
    its address, name, size and contents. *)
Theorem readFileText_ignores_the_file :
  exists pdfText wordText,
    forall file,
      isValid (validateFile file) = true ->
      (includes (type file) (lit "pdf") = true ->
       success (readFileText startTime endTime file) = true /\
       text (readFileText startTime endTime file) = Some pdfText) /\
      (includes (type file) (lit "pdf") = false -> word_like file = true ->
       success (readFileText startTime endTime file) = true /\
       text (readFileText startTime endTime file) = Some wordText).
Proof.
  exists (cleanExtractedText (getMockPDFContent [])),
         (cleanExtractedText (getMockWordContent [])).
  intros file Hvalid. split.
  - intros Hpdf. rewrite readFileText_eq, Hvalid, Hpdf. cbn [negb].
    unfold read_result. rewrite mock_pdf_long. split; reflexivity.
  - intros Hpdf Hword. rewrite readFileText_eq, Hvalid, Hpdf, Hword. cbn [negb].
    unfold read_result. rewrite mock_word_long. split; reflexivity.
Qed.

End Reader.

Lemma readFileText_rejects_extension_only_witness :
  FileReaderService.isValid (FileReaderService.validateFile Fixtures.octet_stream_pdf) = true /\
  FileReaderService.readFileText 0 5 Fixtures.octet_stream_pdf
    = FileReaderService.rejected
        (Some (Str.lit "Unsupported file type: " ++ Str.lit "application/octet-stream")).
Proof.
  apply (@readFileText_rejects_extension_only 0%Z 5%Z Fixtures.octet_stream_pdf).
  - apply N.leb_le. reflexivity.
  - left. reflexivity.
  - reflexivity.
  - reflexivity.
Defined.

Lemma readFileText_ignores_the_file_witness :
  exists pdfText wordText,
    FileReaderService.text (FileReaderService.readFileText 0 5 Fixtures.plain_pdf)
      = Some pdfText /\
    FileReaderService.text (FileReaderService.readFileText 0 5 Fixtures.word_file)
      = Some wordText.
Proof.
  destruct (readFileText_ignores_the_file 0 5) as [pdfText [wordText H]].
  exists pdfText, wordText. split.
  - apply (proj1 (H Fixtures.plain_pdf ltac:(vm_compute; reflexivity))).
    vm_compute; reflexivity.
  - apply (proj2 (H Fixtures.word_file ltac:(vm_compute; reflexivity)));
      vm_compute; reflexivity.
Defined.

(* ===================================================================== *)
(** * More properties of the extraction client *)
(* ===================================================================== *)

Section ExtractionOutcomes.
Import Str Json TopicExtractionService Spec.

Variable E : Engine.

Lemma titled_dec (e : value) : {titled e} + {~ titled e}.
Proof.
  unfold titled. destruct (get e (lit "title")) as [v|] eqn:Hv.
  - destruct v as [| | |s| |]; try (right; intros [s' [H _]]; discriminate).
    destruct s as [|c s].
    + right. intros [s' [H Hs]]. inversion H. congruence.
    + left. exists (c :: s). split; [reflexivity | discriminate].
  - right. intros [s' [H _]]. discriminate.
Qed.

Lemma parse_topic_untitled (e : value) (index : nat) :
  ~ titled e -> exists m, parse_topic E e index = Throw m.
Proof.
  intros Hno. unfold parse_topic.
  destruct e as [| | | | |fields]; try (eexists; reflexivity).
  cbn [obind]. cbv beta.
  destruct (get (JObject fields) (lit "title")) as [v|] eqn:Hv; [|eexists; reflexivity].
  destruct v as [|b|q|s|l|o]; try (eexists; reflexivity).
  - destruct b; eexists; reflexivity.
  - simpl. destruct (Qeq_bool q 0); eexists; reflexivity.
  - destruct s as [|c s]; [eexists; reflexivity|].
    exfalso. apply Hno. exists (c :: s). split; [exact Hv | discriminate].
Qed.

Lemma map_indexed_throws {A B} (f : A -> nat -> outcome B) (e : A) (xs : list A) :
  In e xs -> (forall i, exists m, f e i = Throw m) ->
  forall index, exists m, map_indexed f index xs = Throw m.
Proof.
  intros Hin Hthrow. induction xs as [|x xs IH]; intros index; [destruct Hin|].
  simpl. destruct (f x index) as [y|m] eqn:Hx; [|now exists m].
  destruct Hin as [Heq|Hin].
  - subst x. destruct (Hthrow index) as [m Hm]. congruence.
  - destruct (IH Hin (S index)) as [m Hm]. rewrite Hm. now exists m.
Qed.

Lemma parse_body_entries (data : value) (entries : list value) :
  provider_response E data entries ->
  parse_body E data =
    match map_indexed (parse_topic E) 0 entries with
    | Ok topics =>
        if (length topics =? 0)%nat then Throw (lit "No valid topics extracted")
        else Ok topics
    | Throw m => Throw m
    end.
Proof.
  intros [s [parsed [Hcontent [Hs [Hparse Htopics]]]]].
  unfold parse_body. rewrite Hcontent. simpl obind.
  assert (Hempty : is_empty s = false) by (destruct s; [congruence | reflexivity]).
  rewrite Hempty. simpl negb. cbv iota. rewrite Hparse. simpl obind.
  destruct parsed; simpl in Htopics; try discriminate.
  cbn [get]. rewrite Htopics. reflexivity.
Qed.

Lemma parseOpenAIResponse_nonempty (data : value) (ts : list ExtractedTopic) :
  parseOpenAIResponse E data = Ok ts -> ts <> [].
Proof.
  unfold parseOpenAIResponse, parse_body.
  destruct (response_content E data) as [[c|]|]; cbn [obind]; try discriminate.
  destruct (negb (truthy (Some c))); try discriminate.
  destruct (JSON_parse E c) as [parsed|]; cbn [obind]; try discriminate.
  destruct (match parsed with
            | JNull => Throw (TypeError E (lit "topics"))
            | _ => Ok (get parsed (lit "topics"))
            end) as [[v|]|]; cbn [obind]; try discriminate.
  destruct v as [| | | |items|]; try discriminate.
  destruct (map_indexed (parse_topic E) 0 items) as [topics|]; cbn [obind]; try discriminate.
  destruct topics; cbn [length Nat.eqb]; [discriminate|]. intros H. inversion H. discriminate.
Qed.

Variables (config : OpenAIConfig) (fetch : Request -> FetchResult).
Variables (startTime endTime : Z) (text : jsstring).

Lemma extractTopics_sends :
  is_empty (apiKey config) = false ->
  (50 <= length (trim text))%nat ->
  extractTopics E config fetch startTime endTime text =
    match handle_response E (fetch (request_for config text)) with
    | Ok topics =>
        ({| success := true; topics := topics; error := None;
            metadata := Some {| totalTopics := length topics;
                                processingTime := endTime - startTime;
                                confidence := calculateConfidence topics |} |},
         [(request_for config text)])
    | Throw message => (failure (getErrorMessage message), [(request_for config text)])
    end.
Proof.
  intros Hkey Hlen. unfold extractTopics. rewrite Hkey.
  assert (Hempty : is_empty text = false).
  { destruct text; [simpl in Hlen; lia | reflexivity]. }
  apply Nat.ltb_ge in Hlen. rewrite Hempty, Hlen. reflexivity.
Qed.

(** X7. No partial acceptance: for a configured client, a long enough text
    and a successful provider response whose content parses to an object with
    a [topics] array, [extractTopics] succeeds exactly when the array is not
    empty and every entry has a title that is a non-empty string; otherwise it
    fails and returns no topic at all. *)
Theorem extractTopics_all_or_nothing
    (status : N) (data : value) (entries : list value) :
  is_empty (apiKey config) = false ->
  (50 <= length (trim text))%nat ->
  fetch (request_for config text) = Response status (Ok data) ->
  response_ok status = true ->
  provider_response E data entries ->
  let r := fst (extractTopics E config fetch startTime endTime text) in
  (success r = true <-> entries <> [] /\ Forall titled entries) /\
  (success r = false -> topics r = []).
Proof.
  intros Hkey Hlen Hfetch Hok Hresp. cbv zeta.
  rewrite (extractTopics_sends Hkey Hlen), Hfetch.
  unfold handle_response. rewrite Hok. cbn [negb obind].
  split.
  - split.
    + intros Hsucc. unfold parseOpenAIResponse in Hsucc.
      rewrite (parse_body_entries Hresp) in Hsucc.
      destruct (Forall_Exists_dec titled titled_dec entries) as [Hall|Hex].
      * split; [|exact Hall]. intros ->. simpl in Hsucc. discriminate.
      * exfalso. apply Exists_exists in Hex. destruct Hex as [e [Hin Hno]].
        destruct (@map_indexed_throws _ _ (parse_topic E) e entries Hin
                    (fun i => @parse_topic_untitled e i Hno) 0) as [m Hm].
        rewrite Hm in Hsucc. discriminate.
    + intros [Hne Hall].
      destruct (parse_body_titled Hresp Hall Hne) as [ts [Hparse _]].
      now rewrite Hparse.
  - destruct (parseOpenAIResponse E data); simpl; [discriminate | reflexivity].
Qed.

(** X8. Every call of [extractTopics] ends in one of two ways. Either it
    succeeds, with at least one topic, no error, a metadata record whose
    count is the number of topics and whose time is the difference of the two
    clock readings, after exactly one request; or it fails, with no topic, an
    error message, no metadata, after at most one request. The request is
    sent exactly when the key is configured and the trimmed text has at least
    50 characters, and it is never repeated. *)
Theorem extractTopics_result_shape :
  let (r, sent) := extractTopics E config fetch startTime endTime text in
  ((success r = true /\ topics r <> [] /\ error r = None /\
    (exists md, metadata r = Some md /\ totalTopics md = length (topics r) /\
                processingTime md = (endTime - startTime)%Z) /\
    sent = [(request_for config text)])
   \/
   (success r = false /\ topics r = [] /\ error r <> None /\ metadata r = None /\
    (sent = [] \/ sent = [(request_for config text)]))) /\
  (sent = [(request_for config text)] <->
   is_empty (apiKey config) = false /\ (50 <= length (trim text))%nat).
Proof.
  destruct (is_empty (apiKey config)) eqn:Hkey.
  - unfold extractTopics. rewrite Hkey. split.
    + right. repeat split; try discriminate. now left.
    + split; [discriminate | intros [H _]; discriminate].
  - destruct (Nat.lt_ge_cases (length (trim text)) 50) as [Hshort|Hlong].
    + unfold extractTopics. rewrite Hkey. apply Nat.ltb_lt in Hshort.
      rewrite Hshort, orb_true_r. split.
      * right. repeat split; try discriminate. now left.
      * split; [discriminate|]. intros [_ H]. apply Nat.ltb_lt in Hshort. lia.
    + rewrite (extractTopics_sends Hkey Hlong).
      destruct (handle_response E (fetch (request_for config text))) as [ts|m] eqn:Hh.
      * split; [|now split]. left. split; [reflexivity|]. split.
        -- cbn [topics]. unfold handle_response in Hh.
           destruct (fetch (request_for config text)) as [|status json]; [discriminate|].
           destruct (negb (response_ok status)).
           ++ destruct (match json with Ok d => d | Throw _ => JObject [] end);
                simpl in Hh; try discriminate;
                destruct (assoc _ _) as [[]|]; discriminate.
           ++ destruct json as [data|]; simpl in Hh; [|discriminate].
              now apply parseOpenAIResponse_nonempty with (data := data).
        -- split; [reflexivity|]. split; [|reflexivity].
           eexists. split; [reflexivity|]. split; reflexivity.
      * split; [|now split]. right. repeat split; try discriminate. now right.
Qed.

End ExtractionOutcomes.

Section Confidence.
Import Str TopicExtractionService Spec.

Lemma filter_length_all {A} (f : A -> bool) (l : list A) :
  length (filter f l) = length l <-> Forall (fun x => f x = true) l.
Proof.
  assert (Hle : forall l, (length (filter f l) <= length l)%nat).
  { intros l0. induction l0 as [|x l0 IH]; simpl; [lia|]. destruct (f x); simpl; lia. }
  induction l as [|x l IH]; simpl; [split; [constructor | reflexivity]|].
  destruct (f x) eqn:E; simpl.
  - split.
    + intros H. constructor; [exact E|]. apply IH. lia.
    + intros H. inversion H; subst. f_equal. now apply IH.
  - split.
    + intros H. specialize (Hle l). lia.
    + intros H. inversion H; subst. congruence.
Qed.

Lemma kept_length_le {A} (f : A -> bool) (l : list A) :
  (length (filter f l) <= length l)%nat.
Proof. induction l as [|x l IH]; simpl; [lia|]. destruct (f x); simpl; lia. Qed.

Lemma calculateConfidence_counts (ts : list ExtractedTopic) :
  calculateConfidence ts
  = confidence_of (length ts) (Num.of_nat (length (filter has_keywords ts)))
      (Num.of_nat (length ts)).
Proof. reflexivity. Qed.

(** The table of the confidences of 1 to 1000 topics, computed. *)
Lemma confidence_table_1000 : confidence_table 1000 = true.
Proof. vm_compute. reflexivity. Qed.

Lemma seq_first (n : nat) : forall start len,
  (n <= len)%nat -> firstn n (seq start len) = seq start n.
Proof.
  induction n as [|n IH]; intros start len Hn; [reflexivity|].
  destruct len as [|len]; [lia|]. cbn [seq firstn]. f_equal. apply IH. lia.
Qed.

Lemma counts_first (bound n : nat) :
  (n <= bound)%nat -> firstn (S n) (counts bound) = counts n.
Proof.
  intros Hn. unfold counts. rewrite firstn_map, seq_first by lia. reflexivity.
Qed.

Lemma counts_In (bound n : nat) :
  (n <= bound)%nat -> In (n, Num.of_nat n) (counts bound).
Proof.
  intros Hn. unfold counts.
  apply (in_map (fun n => (n, Num.of_nat n))). apply in_seq. lia.
Qed.

Lemma confidence_table_sound (bound n k : nat) :
  confidence_table bound = true ->
  (1 <= n <= bound)%nat -> (k <= n)%nat ->
  confidence_in_range n k (Num.of_nat n) (Num.of_nat k) = true.
Proof.
  intros Htable Hn Hk. unfold confidence_table in Htable. cbv zeta in Htable.
  rewrite forallb_forall in Htable.
  specialize (Htable (n, Num.of_nat n) (@counts_In bound n (proj2 Hn))). cbv beta iota in Htable.
  replace (n =? 0)%nat with false in Htable by (symmetry; apply Nat.eqb_neq; lia).
  cbn [orb] in Htable. rewrite counts_first in Htable by lia.
  rewrite forallb_forall in Htable.
  exact (Htable (k, Num.of_nat k) (@counts_In n k Hk)).
Qed.

(** X9. On doubles, as the program computes it: the confidence of the
    empty list is [NaN]; the confidence of a non-empty list of at most 1000
    topics lies between 40 and 100, and it is 100 exactly when the list has
    5 to 15 topics and every topic carries at least one keyword. *)
Theorem calculateConfidence_range :
  PrimFloat.is_nan (calculateConfidence []) = true /\
  forall ts : list ExtractedTopic,
    ts <> [] -> (length ts <= 1000)%nat ->
    PrimFloat.leb 40 (calculateConfidence ts) = true /\
    PrimFloat.leb (calculateConfidence ts) 100 = true /\
    (PrimFloat.eqb (calculateConfidence ts) 100 = true <->
     (5 <= length ts <= 15)%nat /\ Forall (fun t => has_keywords t = true) ts).
Proof.
  split; [vm_compute; reflexivity|].
  intros ts Hne Hbound.
  assert (Hn : (1 <= length ts <= 1000)%nat)
    by (destruct ts; [congruence | cbn [length] in *; lia]).
  pose proof (@confidence_table_sound 1000 (length ts) (length (filter has_keywords ts))
                confidence_table_1000 Hn (kept_length_le has_keywords ts)) as Hcheck.
  unfold confidence_in_range in Hcheck. cbv zeta in Hcheck.
  rewrite <- calculateConfidence_counts in Hcheck.
  apply andb_true_iff in Hcheck. destruct Hcheck as [Hcheck Heq].
  apply andb_true_iff in Hcheck. destruct Hcheck as [Hlow Hhigh].
  split; [exact Hlow|]. split; [exact Hhigh|].
  apply Bool.eqb_prop in Heq. rewrite Heq, !andb_true_iff, !Nat.leb_le, Nat.eqb_eq.
  rewrite filter_length_all. tauto.
Qed.

End Confidence.

Section ExtractionErrors.
Import Str Json TopicExtractionService Spec.

Variable E : Engine.

Lemma includes_app_r (a b p : jsstring) :
  includes b p = true -> includes (a ++ b) p = true.
Proof.
  intros H. induction a as [|c a IH]; [exact H|].
  simpl. rewrite IH. apply orb_true_r.
Qed.

Lemma startsWith_app (p b : jsstring) : startsWith (p ++ b) p = true.
Proof. induction p as [|c p IH]; [reflexivity|]. simpl. now rewrite N.eqb_refl, IH. Qed.

Lemma includes_self_app (p b : jsstring) : includes (p ++ b) p = true.
Proof.
  destruct (p ++ b) as [|c t] eqn:H.
  - apply app_eq_nil in H. destruct H as [-> _]. reflexivity.
  - cbn [includes]. rewrite <- H, startsWith_app. reflexivity.
Qed.

Lemma createExtractionPrompt_length (s : jsstring) :
  length (createExtractionPrompt s) = (818 + length s)%nat.
Proof.
  unfold createExtractionPrompt.
  repeat (rewrite length_app; cbn [length]).
  repeat match goal with
         | |- context [length (lit ?x)] =>
             let n := eval vm_compute in (length (lit x)) in
             change (length (lit x)) with n
         end.
  lia.
Qed.

(** X10. The prompt sent to the provider is bounded: whatever the text, the
    user message of the request has at most 8,818 characters, the 818 of the
    fixed instructions and at most 8,000 of cleaned text, which it contains. *)
Theorem prompt_is_bounded (config : OpenAIConfig) (text : jsstring) :
  (N.of_nat (length (body_user_content (request_for config text))) <= 8818)%N /\
  includes (body_user_content (request_for config text)) (cleanSyllabusText text) = true.
Proof.
  unfold request_for, build_request. cbn [body_user_content]. split.
  - rewrite createExtractionPrompt_length.
    pose proof (cleanSyllabusText_short text) as H. lia.
  - unfold createExtractionPrompt.
    repeat first [apply includes_self_app | apply includes_app_r].
Qed.

(** X11. A response outside 200-299 never yields topics, whatever its body:
    the call fails after its single request. When the body carries the
    provider's error message and this message mentions [API key], the user
    is told that the key is invalid or missing. *)
Theorem extractTopics_http_error
    (config : OpenAIConfig) (fetch : Request -> FetchResult) (startTime endTime : Z)
    (text : jsstring) (status : N) (json : outcome value) :
  is_empty (apiKey config) = false ->
  (50 <= length (trim text))%nat ->
  fetch (request_for config text) = Response status json ->
  response_ok status = false ->
  let (r, sent) := extractTopics E config fetch startTime endTime text in
  success r = false /\ topics r = [] /\ metadata r = None /\
  sent = [request_for config text] /\
  (forall body err detail,
     json = Ok body ->
     get body (lit "error") = Some err ->
     get err (lit "message") = Some (JString detail) ->
     includes detail (lit "API key") = true ->
     error r = Some (lit "OpenAI API key is invalid or missing. Please check your configuration.")).
Proof.
  intros Hkey Hlen Hfetch Hbad.
  rewrite (@extractTopics_sends E config fetch startTime endTime text Hkey Hlen), Hfetch.
  unfold handle_response. rewrite Hbad. cbn [negb].
  set (errorData := match json with Ok d => d | Throw _ => JObject [] end).
  destruct (match errorData with
            | JNull => Throw (TypeError E (lit "error"))
            | _ => match get errorData (lit "error") with
                   | None | Some JNull => Ok None
                   | Some err => Ok (get err (lit "message"))
                   end
            end) as [detail|m] eqn:Hd; cbn [obind].
  - repeat split. intros body err d Hjson Herr Hmsg Hinc.
    unfold errorData in Hd. rewrite Hjson in Hd.
    destruct body; simpl in Herr; try discriminate.
    cbn [get] in Hd. rewrite Herr in Hd.
    destruct err; simpl in Hmsg; try discriminate.
    cbn [get] in Hd. rewrite Hmsg in Hd. inversion Hd. subst detail.
    assert (Hne : is_empty d = false)
      by (apply includes_nonempty with (p := lit "API key"); [discriminate | exact Hinc]).
    cbn [truthy]. rewrite Hne. cbn [negb failure error]. f_equal.
    unfold getErrorMessage.
    set (m := lit "OpenAI API error: " ++ of_nat (N.to_nat status) ++ lit " - " ++ d).
    assert (Hm : is_empty m = false) by reflexivity.
    assert (Hinc' : includes m (lit "API key") = true).
    { unfold m. rewrite !app_assoc. now apply includes_app_r. }
    cbv zeta. now rewrite Hm, Hinc'.
  - repeat split. intros body err d Hjson Herr Hmsg Hinc. exfalso.
    unfold errorData in Hd. rewrite Hjson in Hd.
    destruct body; simpl in Herr; try discriminate.
    cbn [get] in Hd. rewrite Herr in Hd.
    destruct err; simpl in Hmsg; try discriminate.
Qed.

(** X12. A title made only of white space passes the test for a missing
    title: under the conditions of a successful extraction, an entry whose
    title is a non-empty string of white space is accepted with the others,
    and the topic at its position has the empty title. *)
Theorem extractTopics_accepts_blank_title
    (config : OpenAIConfig) (fetch : Request -> FetchResult) (startTime endTime : Z)
    (text : jsstring) (status : N) (data : value) (entries : list value)
    (i : nat) (entry : value) (s : jsstring) :
  is_empty (apiKey config) = false ->
  (50 <= length (trim text))%nat ->
  fetch (request_for config text) = Response status (Ok data) ->
  response_ok status = true ->
  provider_response E data entries ->
  Forall titled entries ->
  nth_error entries i = Some entry ->
  get entry (lit "title") = Some (JString s) ->
  trim s = [] ->
  let r := fst (extractTopics E config fetch startTime endTime text) in
  success r = true /\
  length (topics r) = length entries /\
  exists t, nth_error (topics r) i = Some t /\ title t = [].
Proof.
  intros Hkey Hlen Hfetch Hok Hresp Hall Hentry Hget Htrim. cbv zeta.
  assert (Hne : entries <> []) by (intros ->; destruct i; discriminate).
  destruct (parse_body_titled Hresp Hall Hne) as [ts [Hparse [Hlength Hnth]]].
  rewrite (@extractTopics_sends E config fetch startTime endTime text Hkey Hlen), Hfetch.
  unfold handle_response. rewrite Hok. cbn [negb obind]. rewrite Hparse.
  cbn [fst success topics]. split; [reflexivity|]. split; [exact Hlength|].
  destruct (Hnth i entry Hentry) as [t [Ht [_ [_ [_ [s' [Hget' Htitle]]]]]]].
  exists t. split; [exact Ht|].
  rewrite Hget in Hget'. inversion Hget'; subst s'. now rewrite Htitle.
Qed.

End ExtractionErrors.

(* ===================================================================== *)
(** * What the gateway leaves alone, whatever the backend answers *)
(* ===================================================================== *)

Section Frames.
Import Str Supabase TopicService Spec.
Local Open Scope backend_scope.

Variable R : Backend -> Backend -> Prop.
Hypothesis F : frame R.

Lemma keeps_ret {A} (a : A) : keeps R (ret a).
Proof. intros w. apply (frame_refl F). Qed.

Lemma keeps_throw {A} (m : jsstring) : keeps R (@throw A m).
Proof. intros w. apply (frame_refl F). Qed.

Lemma keeps_now : keeps R now.
Proof. intros w. apply (frame_refl F). Qed.

Lemma keeps_bind {A B} (m : M A) (f : A -> M B) :
  keeps R m -> (forall a, keeps R (f a)) -> keeps R (bind m f).
Proof.
  intros Hm Hf w. unfold bind. specialize (Hm w).
  destruct (m w) as [[a|e] w1]; simpl in *; [|exact Hm].
  apply (frame_trans F) with (w2 := w1); [exact Hm | apply Hf].
Qed.

Lemma keeps_try_catch {A} (m : M A) (h : jsstring -> M A) :
  keeps R m -> (forall e, keeps R (h e)) -> keeps R (try_catch m h).
Proof.
  intros Hm Hh w. unfold try_catch. specialize (Hm w).
  destruct (m w) as [[a|e] w1]; simpl in *; [exact Hm|].
  apply (frame_trans F) with (w2 := w1); [exact Hm | apply Hh].
Qed.

Lemma keeps_next_answer : keeps R next_answer.
Proof.
  intros w. unfold next_answer. destruct (answers w); simpl;
    [apply (frame_refl F) | apply (frame_answers F)].
Qed.

Lemma keeps_call {A} (serve : Backend -> Reply A * Backend) :
  (forall w, R w (snd (serve w))) -> keeps R (call serve).
Proof.
  intros Hs. unfold call. apply keeps_bind; [apply keeps_next_answer|].
  intros [|e|m]; [|apply keeps_ret | apply keeps_throw].
  intros w. specialize (Hs w). now destruct (serve w).
Qed.

End Frames.

Ltac keeps_step F :=
  first
    [ apply (keeps_ret F)
    | apply (keeps_now F)
    | apply (keeps_call F)
    | apply (keeps_try_catch F)
    | apply (keeps_bind F)
    | match goal with
      | |- Spec.keeps _ (match ?x with _ => _ end) => destruct x
      | |- Spec.keeps _ (if ?x then _ else _) => destruct x
      | |- forall _, _ => intro
      | |- _ _ (snd _) => cbn [snd]; apply (Spec.frame_refl F)
      end ].

Section GatewayFrames.
Import Str Supabase TopicService Spec.
Local Open Scope backend_scope.

Lemma Forall2_refl' {A} (P : A -> A -> Prop) (l : list A) :
  (forall x, P x x) -> Forall2 P l l.
Proof. intros H. induction l; constructor; auto. Qed.

Lemma Forall2_trans' {A} (P : A -> A -> Prop) (l1 l2 l3 : list A) :
  (forall x y z, P x y -> P y z -> P x z) ->
  Forall2 P l1 l2 -> Forall2 P l2 l3 -> Forall2 P l1 l3.
Proof.
  intros Ht H12. revert l3. induction H12; intros l3 H23; inversion H23; subst;
    constructor; eauto.
Qed.

Lemma same_tables_frame : frame same_tables.
Proof.
  split.
  - intros w. now repeat split.
  - intros w1 w2 w3 [A1 [B1 C1]] [A2 [B2 C2]]. repeat split; congruence.
  - intros w a. now repeat split.
Qed.

Lemma course_step_trans (courseId : jsstring) (x y z : Course) :
  course_step courseId x y -> course_step courseId y z -> course_step courseId x z.
Proof.
  intros [->|[H1 [H2 H3]]] [->|[H4 [H5 H6]]]; try (now left).
  - right. now repeat split.
  - right. now repeat split.
  - right. repeat split; [exact H1 | congruence | exact H6].
Qed.

Lemma save_frame_frame (courseId : jsstring) : frame (save_frame courseId).
Proof.
  split.
  - intros w. repeat split. apply Forall2_refl'. now left.
  - intros w1 w2 w3 [A1 [B1 C1]] [A2 [B2 C2]]. repeat split; try congruence.
    eapply Forall2_trans'; [apply course_step_trans | exact C1 | exact C2].
  - intros w a. repeat split. apply Forall2_refl'. now left.
Qed.

Lemma create_frame_frame (courseId : jsstring) : frame (create_frame courseId).
Proof.
  split.
  - intros w. repeat split. exists []. split; [now rewrite app_nil_r | constructor].
  - intros w1 w2 w3 [A1 [B1 [a1 [C1 D1]]]] [A2 [B2 [a2 [C2 D2]]]].
    repeat split; try congruence. exists (a1 ++ a2). split.
    + now rewrite C2, C1, app_assoc.
    + apply Forall_app. now split.
  - intros w a. repeat split. exists []. split; [simpl; now rewrite app_nil_r | constructor].
Qed.

Lemma update_frame_frame (topicId : jsstring) : frame (update_frame topicId).
Proof.
  split.
  - intros w. repeat split. apply Forall2_refl'. now repeat split.
  - intros w1 w2 w3 [A1 [B1 C1]] [A2 [B2 C2]]. repeat split; try congruence.
    eapply Forall2_trans'; [|exact C1 | exact C2].
    intros x y z [H1 [H2 [H3 H4]]] [H5 [H6 [H7 H8]]].
    repeat split; try congruence.
    intros Hx. rewrite H8 by congruence. now apply H4.
  - intros w a. repeat split. apply Forall2_refl'. now repeat split.
Qed.

Lemma filter_idempotent {A} (f : A -> bool) (l : list A) :
  filter f (filter f l) = filter f l.
Proof.
  induction l as [|x l IH]; [reflexivity|]. simpl.
  destruct (f x) eqn:E; simpl; rewrite ?E, IH; reflexivity.
Qed.

Lemma delete_frame_frame (topicId : jsstring) : frame (delete_frame topicId).
Proof.
  split.
  - intros w. repeat split. now left.
  - intros w1 w2 w3 [A1 [B1 C1]] [A2 [B2 C2]]. repeat split; try congruence.
    destruct C1 as [C1|C1], C2 as [C2|C2]; rewrite C2, C1;
      rewrite ?filter_idempotent; auto.
  - intros w a. repeat split. now left.
Qed.

Section Generic.
Variable R : Backend -> Backend -> Prop.
Hypothesis F : frame R.

Lemma keeps_getCurrentUserId : keeps R getCurrentUserId.
Proof. unfold getCurrentUserId, auth_getUser. repeat keeps_step F. Qed.

Lemma keeps_verifyCourseOwnership (courseId : jsstring) :
  keeps R (verifyCourseOwnership courseId).
Proof.
  unfold verifyCourseOwnership, select_course_of_user.
  repeat first [apply keeps_getCurrentUserId | keeps_step F].
Qed.

Lemma keeps_select_owner (topicId : jsstring) : keeps R (select_owner_of_topic topicId).
Proof. unfold select_owner_of_topic. repeat keeps_step F. Qed.

End Generic.

Lemma other_topics_stored (courseId stamp : jsstring) (ets : list ExtractedTopic) :
  forall n index,
    filter (fun t => negb (Str.eqb (Supabase.courseId t) courseId))
      (store_rows n (topicsToInsert courseId stamp index ets)) = [].
Proof.
  induction ets as [|e ets IH]; intros n index; [reflexivity|].
  simpl. rewrite eqb_refl. simpl. apply IH.
Qed.

Lemma mark_course_steps (courseId stamp : jsstring) (cs : list Course) :
  Forall2 (course_step courseId) cs
    (List.map (fun c => if Str.eqb (course_id c) courseId
                        then set_topics_extracted stamp c else c) cs).
Proof.
  induction cs as [|c cs IH]; constructor; [|exact IH].
  destruct (Str.eqb (course_id c) courseId) eqn:E; [|now left].
  right. apply eqb_eq in E. now repeat split.
Qed.

(** X13. Whatever the caller, the topics given and the answers of the
    backend, [saveTopicsForCourse] leaves the session as it is, does not
    touch the topics of any other course, and changes nothing in the table
    of courses except, for the course given, the flag, which it can only
    set, and the time of update. *)
Theorem saveTopicsForCourse_frame
    (courseId : jsstring) (ets : list ExtractedTopic) (w : Backend) :
  save_frame courseId w (snd (saveTopicsForCourse courseId ets w)).
Proof.
  revert w. change (keeps (save_frame courseId) (saveTopicsForCourse courseId ets)).
  pose proof (save_frame_frame courseId) as F.
  unfold saveTopicsForCourse, delete_topics_of_course, insert_topics, mark_topics_extracted.
  repeat first [ apply (keeps_getCurrentUserId F)
               | apply (keeps_verifyCourseOwnership F)
               | keeps_step F ];
    cbn [snd]; repeat split;
    try (apply Forall2_refl'; now left);
    try apply mark_course_steps.
  - unfold other_topics, remove_topics_of_course. cbn [topics with_topics].
    apply filter_idempotent.
  - unfold other_topics, add_rows. cbn [topics with_topics].
    now rewrite filter_app, other_topics_stored, app_nil_r.
Qed.

Lemma patch_rows_frame (topicId : jsstring) (patch : TopicPatch) (rows : list Topic) :
  Forall2 (fun t t' =>
             Supabase.id t' = Supabase.id t /\
             Supabase.courseId t' = Supabase.courseId t /\
             Supabase.createdAt t' = Supabase.createdAt t /\
             (Supabase.id t <> topicId -> t' = t))
    rows
    (List.map (fun t => if Str.eqb (Supabase.id t) topicId then apply_patch patch t else t) rows).
Proof.
  induction rows as [|t rows IH]; constructor; [|exact IH].
  destruct (Str.eqb (Supabase.id t) topicId) eqn:E.
  - apply eqb_eq in E. repeat split. intros H. congruence.
  - now repeat split.
Qed.

(** X14. Whatever the caller and the answers of the backend:
    [getTopicsForCourse] changes nothing; [createTopic] only appends rows
    of the course given; [updateTopic] keeps the number and order of the
    rows, their identifiers, courses and creation times, and every row with
    another identifier; [deleteTopic] at most removes the rows with the
    identifier given. None of them touches the session or the courses. *)
Theorem gateway_frames :
  (forall courseId w, same_tables w (snd (getTopicsForCourse courseId w))) /\
  (forall courseId topicData w,
     create_frame courseId w (snd (createTopic courseId topicData w))) /\
  (forall topicId updates w, update_frame topicId w (snd (updateTopic topicId updates w))) /\
  (forall topicId w, delete_frame topicId w (snd (deleteTopic topicId w))).
Proof.
  split; [|split; [|split]].
  - intros courseId. change (keeps same_tables (getTopicsForCourse courseId)).
    pose proof same_tables_frame as F.
    unfold getTopicsForCourse, select_topics_of_course.
    repeat first [ apply (keeps_getCurrentUserId F)
                 | apply (keeps_verifyCourseOwnership F)
                 | keeps_step F ].
  - intros courseId topicData. change (keeps (create_frame courseId) (createTopic courseId topicData)).
    pose proof (create_frame_frame courseId) as F.
    unfold createTopic, insert_topic.
    repeat first [ apply (keeps_getCurrentUserId F)
                 | apply (keeps_verifyCourseOwnership F)
                 | keeps_step F ].
    cbn [snd]. repeat split. eexists. split; [reflexivity|].
    repeat constructor.
  - intros topicId updates. change (keeps (update_frame topicId) (updateTopic topicId updates)).
    pose proof (update_frame_frame topicId) as F.
    unfold updateTopic, update_topic_row.
    repeat first [ apply (keeps_getCurrentUserId F)
                 | apply (keeps_select_owner F)
                 | keeps_step F ].
    cbn [snd]. repeat split. apply patch_rows_frame.
  - intros topicId. change (keeps (delete_frame topicId) (deleteTopic topicId)).
    pose proof (delete_frame_frame topicId) as F.
    unfold deleteTopic, delete_topic_row.
    repeat first [ apply (keeps_getCurrentUserId F)
                 | apply (keeps_select_owner F)
                 | keeps_step F ].
    cbn [snd]. repeat split. now right.
Qed.

End GatewayFrames.

(* ===================================================================== *)
(** * Who may use the gateway *)
(* ===================================================================== *)

Section AccessControl.
Import Str Supabase TopicService Spec.
Local Open Scope backend_scope.

Lemma call_eq {A} (serve : Backend -> Reply A * Backend) (w : Backend) :
  call serve w =
    match hd Served (answers w) with
    | Served => (Ok (fst (serve (pop w))), snd (serve (pop w)))
    | Refused e => (Ok (inl e), pop w)
    | Broken m => (Throw m, pop w)
    end.
Proof.
  destruct (answers w) as [|a rest] eqn:Ha.
  - simpl. apply call_served. now rewrite Ha.
  - simpl. destruct a as [|e|m].
    + apply call_served. now rewrite Ha.
    + now apply call_refused with (rest := rest).
    + now apply call_broken with (rest := rest).
Qed.

Lemma getCurrentUserId_cases (w : Backend) :
  exists r,
    getCurrentUserId w = (Ok r, pop w) /\
    (r = None \/
     exists uid, r = Some uid /\ session w = Some uid /\ is_empty uid = false).
Proof.
  unfold getCurrentUserId, auth_getUser, try_catch, bind. rewrite call_eq.
  destruct (hd Served (answers w)); cbv beta; cbn [fst snd].
  - change (session (pop w)) with (session w).
    destruct (session w) as [uid|] eqn:Hs; [|exists None; split; [reflexivity | now left]].
    unfold ret. destruct (is_empty uid) eqn:He.
    + exists None. split; [reflexivity | now left].
    + exists (Some uid). split; [reflexivity|]. right. now exists uid.
  - exists None. split; [reflexivity | now left].
  - exists None. split; [reflexivity | now left].
Qed.

Lemma same_tables_pop (w : Backend) : same_tables w (pop w).
Proof. now repeat split. Qed.

Lemma verifyCourseOwnership_cases (courseId : jsstring) (w : Backend) :
  exists b w',
    verifyCourseOwnership courseId w = (Ok b, w') /\
    same_tables w w' /\
    (b = true -> exists uid c, owns w uid courseId c).
Proof.
  unfold verifyCourseOwnership, try_catch, bind.
  destruct (getCurrentUserId_cases w) as [r [Hr Hcase]]. rewrite Hr.
  destruct Hcase as [->|[uid [-> [Hs He]]]].
  - exists false, (pop w). now repeat split.
  - unfold select_course_of_user. rewrite call_eq.
    destruct (hd Served (answers (pop w))); cbv beta; cbn [fst snd].
    + change (courses_owned courseId uid (pop (pop w))) with (courses_owned courseId uid w).
      destruct (courses_owned courseId uid w) as [|c [|c2 rest]] eqn:Hc; cbn [single].
      * exists false, (pop (pop w)). now repeat split.
      * exists true, (pop (pop w)). repeat split. intros _. exists uid, c. now repeat split.
      * exists false, (pop (pop w)). now repeat split.
    + exists false, (pop (pop w)). now repeat split.
    + exists false, (pop (pop w)). now repeat split.
Qed.

(** The first two steps of the operations on a course, for a caller who
    does not own it. *)
Lemma prologue_denied {A} (courseId : jsstring) (w : Backend)
    (body : M (ServiceResponse A)) (h : jsstring -> M (ServiceResponse A))
    (denied1 denied2 : ServiceResponse A) :
  (forall uid c, ~ owns w uid courseId c) ->
  exists d w',
    try_catch
      (userId <- getCurrentUserId ;;
       match userId with
       | None => ret denied1
       | Some _ =>
           hasAccess <- verifyCourseOwnership courseId ;;
           if negb hasAccess then ret denied2 else body
       end) h w
    = (Ok d, w') /\
    (d = denied1 \/ d = denied2) /\ same_tables w w'.
Proof.
  intros Hno. unfold try_catch at 1. unfold bind at 1.
  destruct (getCurrentUserId_cases w) as [r [Hr Hcase]]. rewrite Hr.
  destruct Hcase as [->|[uid [-> _]]].
  - exists denied1, (pop w). now repeat split; [left|..].
  - unfold bind.
    destruct (verifyCourseOwnership_cases courseId (pop w)) as [b [w' [Hv [Hsame Hb]]]].
    rewrite Hv. destruct b.
    + exfalso. destruct (Hb eq_refl) as [u [c Hown]]. exact (Hno u c Hown).
    + exists denied2, w'. split; [reflexivity|]. split; [now right | exact Hsame].
Qed.

(** X15. Unless the caller is signed in and the ownership lookup finds
    exactly the course for this caller, [saveTopicsForCourse],
    [getTopicsForCourse] and [createTopic] fail, return no data, and leave
    the session and both tables as they were, whatever the backend
    answers. *)
Theorem course_operations_need_the_owner (courseId : jsstring) (w : Backend) :
  (forall uid c, ~ owns w uid courseId c) ->
  (forall ets, exists resp w',
     saveTopicsForCourse courseId ets w = (Ok resp, w') /\
     success resp = false /\ data resp = None /\ same_tables w w') /\
  (exists resp w',
     getTopicsForCourse courseId w = (Ok resp, w') /\
     success resp = false /\ data resp = None /\ same_tables w w') /\
  (forall topicData, exists resp w',
     createTopic courseId topicData w = (Ok resp, w') /\
     success resp = false /\ data resp = None /\ same_tables w w').
Proof.
  intros Hno. split; [|split].
  - intros ets. unfold saveTopicsForCourse.
    match goal with
    | |- context [try_catch (bind getCurrentUserId ?k) ?h w] =>
        match k with
        | (fun userId => match userId with
                         | None => ret ?d1
                         | Some _ => bind _ (fun hasAccess =>
                                       if negb hasAccess then ret ?d2 else ?body)
                         end) =>
            destruct (prologue_denied body h d1 d2 Hno) as [d [w' [Hrun [Hd Hsame]]]]
        end
    end.
    exists d, w'. split; [exact Hrun|].
    destruct Hd as [->| ->]; (split; [reflexivity|]; split; [reflexivity | exact Hsame]).
  - unfold getTopicsForCourse.
    match goal with
    | |- context [try_catch (bind getCurrentUserId ?k) ?h w] =>
        match k with
        | (fun userId => match userId with
                         | None => ret ?d1
                         | Some _ => bind _ (fun hasAccess =>
                                       if negb hasAccess then ret ?d2 else ?body)
                         end) =>
            destruct (prologue_denied body h d1 d2 Hno) as [d [w' [Hrun [Hd Hsame]]]]
        end
    end.
    exists d, w'. split; [exact Hrun|].
    destruct Hd as [->| ->]; (split; [reflexivity|]; split; [reflexivity | exact Hsame]).
  - intros topicData. unfold createTopic.
    match goal with
    | |- context [try_catch (bind getCurrentUserId ?k) ?h w] =>
        match k with
        | (fun userId => match userId with
                         | None => ret ?d1
                         | Some _ => bind _ (fun hasAccess =>
                                       if negb hasAccess then ret ?d2 else ?body)
                         end) =>
            destruct (prologue_denied body h d1 d2 Hno) as [d [w' [Hrun [Hd Hsame]]]]
        end
    end.
    exists d, w'. split; [exact Hrun|].
    destruct Hd as [->| ->]; (split; [reflexivity|]; split; [reflexivity | exact Hsame]).
Qed.

Lemma topic_prologue_denied {A} (topicId : jsstring) (w : Backend)
    (body : M (ServiceResponse A)) (denied1 denied2 denied3 broken : ServiceResponse A) :
  (forall uid, ~ owns_topic w uid topicId) ->
  exists d w',
    try_catch
      (userId <- getCurrentUserId ;;
       match userId with
       | None => ret denied1
       | Some uid =>
           topic <- select_owner_of_topic topicId ;;
           match topic with
           | inl _ => ret denied2
           | inr owner => if negb (Str.eqb owner uid) then ret denied3 else body
           end
       end) (fun _ => ret broken) w
    = (Ok d, w') /\
    (d = denied1 \/ d = denied2 \/ d = denied3 \/ d = broken) /\ same_tables w w'.
Proof.
  intros Hno. unfold try_catch, bind.
  destruct (getCurrentUserId_cases w) as [r [Hr Hcase]]. rewrite Hr.
  destruct Hcase as [->|[uid [-> [Hs He]]]].
  - exists denied1, (pop w). split; [reflexivity|]. split; [now left | now repeat split].
  - unfold select_owner_of_topic. rewrite call_eq.
    destruct (hd Served (answers (pop w))); cbv beta; cbn [fst snd].
    + change (owners_of_topic topicId (pop (pop w))) with (owners_of_topic topicId w).
      destruct (owners_of_topic topicId w) as [|o [|o2 rest]] eqn:Ho; cbn [single].
      * exists denied2, (pop (pop w)). split; [reflexivity|].
        split; [now right; left | now repeat split].
      * destruct (Str.eqb o uid) eqn:Eo.
        -- exfalso. apply eqb_eq in Eo. subst o. apply (Hno uid). now repeat split.
        -- exists denied3, (pop (pop w)). split; [reflexivity|].
           split; [now right; right; left | now repeat split].
      * exists denied2, (pop (pop w)). split; [reflexivity|].
        split; [now right; left | now repeat split].
    + exists denied2, (pop (pop w)). split; [reflexivity|].
      split; [now right; left | now repeat split].
    + exists broken, (pop (pop w)). split; [reflexivity|].
      split; [now right; right; right | now repeat split].
Qed.

(** X16. Unless the caller is signed in and is the one owner found for the
    topic, [updateTopic] and [deleteTopic] fail, return no data, and leave
    the session and both tables as they were, whatever the backend
    answers. *)
Theorem topic_operations_need_the_owner (topicId : jsstring) (w : Backend) :
  (forall uid, ~ owns_topic w uid topicId) ->
  (forall updates, exists resp w',
     updateTopic topicId updates w = (Ok resp, w') /\
     success resp = false /\ data resp = None /\ same_tables w w') /\
  (exists resp w',
     deleteTopic topicId w = (Ok resp, w') /\
     success resp = false /\ data resp = None /\ same_tables w w').
Proof.
  intros Hno. split.
  - intros updates.
    destruct (@topic_prologue_denied Topic topicId w
                (r <- update_topic_row topicId updates ;;
                 match r with
                 | inl e => ret (failed (lit "Failed to update topic") (pg_code e))
                 | inr row => ret (succeeded row)
                 end)
                (failed (lit "User not authenticated") None)
                (failed (lit "Topic not found or access denied") None)
                (failed (lit "Topic not found or access denied") None)
                (failed (lit "Network error while updating topic") None) Hno)
      as [d [w' [Hrun [Hd Hsame]]]].
    exists d, w'. split; [exact Hrun|].
    destruct Hd as [->|[->|[->| ->]]];
      (split; [reflexivity|]; split; [reflexivity | exact Hsame]).
  - destruct (@topic_prologue_denied bool topicId w
                (r <- delete_topic_row topicId ;;
                 match r with
                 | inl e => ret (failed (lit "Failed to delete topic") (pg_code e))
                 | inr _ => ret (succeeded true)
                 end)
                (failed (lit "User not authenticated") None)
                (failed (lit "Topic not found or access denied") None)
                (failed (lit "Topic not found or access denied") None)
                (failed (lit "Network error while deleting topic") None) Hno)
      as [d [w' [Hrun [Hd Hsame]]]].
    exists d, w'. split; [exact Hrun|].
    destruct Hd as [->|[->|[->| ->]]];
      (split; [reflexivity|]; split; [reflexivity | exact Hsame]).
Qed.

End AccessControl.

(* ===================================================================== *)
(** * More on saving and fetching *)
(* ===================================================================== *)

Section SavingAndFetching.
Import Str Supabase TopicService Spec.
Local Open Scope backend_scope.

Variables (w : Backend) (uid courseId : jsstring) (c : Course).
Hypothesis Howns : owns w uid courseId c.

(** X17. The flag is written last and its failure is not undone: when the
    delete and the insert are served and the update of the course is not,
    the new topics are stored and the course row is as it was; the call
    still reports success when the update is refused, and reports a failure
    when the update throws. *)
Theorem save_flag_update_failure
    (ets : list ExtractedTopic) (a : Answer) (rest : list Answer) :
  ets <> [] ->
  answers w = Served :: Served :: Served :: Served :: Served :: a :: rest ->
  a <> Served ->
  exists resp w',
    saveTopicsForCourse courseId ets w = (Ok resp, w') /\
    topics_of_course courseId w' = stored_rows w courseId ets /\
    courses w' = courses w /\
    (forall e, a = Refused e -> success resp = true /\ data resp = Some (stored_rows w courseId ets)) /\
    (forall m, a = Broken m -> success resp = false /\ data resp = None).
Proof.
  intros Hne Ha Hbad. unfold saveTopicsForCourse.
  rewrite (save_prologue Howns) by (unfold pop; simpl; rewrite Ha; reflexivity).
  assert (Hdel : hd Served (answers (checked w)) = Served)
    by (unfold checked, pop; simpl; rewrite Ha; reflexivity).
  set (rows := topicsToInsert courseId (clock w) 0 ets).
  assert (Hlen : (length rows =? 0)%nat = false).
  { unfold rows. rewrite length_topicsToInsert. destruct ets; [congruence | reflexivity]. }
  set (w4 := remove_topics_of_course courseId (pop (checked w))).
  assert (Hins : hd Served (answers w4) = Served)
    by (unfold w4, checked, pop; simpl; rewrite Ha; reflexivity).
  set (w5 := add_rows rows (pop w4)).
  assert (Hupd : answers w5 = a :: rest)
    by (unfold w5, w4, checked, pop; simpl; rewrite Ha; reflexivity).
  assert (Htopics : topics_of_course courseId (pop w5) = stored_rows w courseId ets).
  { unfold w5, topics_of_course, add_rows, pop. cbn [topics with_topics with_answers].
    rewrite filter_app.
    change (filter (fun t => Str.eqb (Supabase.courseId t) courseId) (topics w4))
      with (topics_of_course courseId w4).
    unfold w4. rewrite topics_after_delete, app_nil_l. apply filter_stored_rows. }
  destruct a as [|e|m]; [congruence| |].
  - eexists. eexists. split.
    + apply try_catch_ok. unfold delete_topics_of_course.
      erewrite bind_ok by (apply call_served; exact Hdel). cbv beta. cbn [fst snd].
      erewrite bind_ok by reflexivity. cbv beta zeta.
      change (clock (remove_topics_of_course courseId (pop (checked w)))) with (clock w).
      fold rows. rewrite Hlen. unfold insert_topics.
      erewrite bind_ok by (apply call_served; exact Hins). cbv beta. cbn [fst snd].
      unfold mark_topics_extracted.
      erewrite bind_ok by (eapply call_refused; exact Hupd). reflexivity.
    + split; [exact Htopics|]. split; [reflexivity|].
      split; [intros e0 _; split; reflexivity | intros m H; discriminate].
  - eexists. eexists. split.
    + erewrite try_catch_throw; [reflexivity|].
      unfold delete_topics_of_course.
      erewrite bind_ok by (apply call_served; exact Hdel). cbv beta. cbn [fst snd].
      erewrite bind_ok by reflexivity. cbv beta zeta.
      change (clock (remove_topics_of_course courseId (pop (checked w)))) with (clock w).
      fold rows. rewrite Hlen. unfold insert_topics.
      erewrite bind_ok by (apply call_served; exact Hins). cbv beta. cbn [fst snd].
      unfold mark_topics_extracted.
      erewrite bind_throw by (eapply call_broken; exact Hupd). reflexivity.
    + split; [exact Htopics|]. split; [reflexivity|].
      split; [intros e0 H; discriminate | intros m0 _; split; reflexivity].
Qed.

Lemma stored_titles (stamp : jsstring) (ets : list ExtractedTopic) : forall n index,
  List.map Supabase.title (store_rows n (topicsToInsert courseId stamp index ets))
  = List.map TopicExtractionService.title ets.
Proof. induction ets as [|e ets IH]; intros n index; simpl; [reflexivity | now rewrite IH]. Qed.

Lemma stored_length (ets : list ExtractedTopic) :
  length (stored_rows w courseId ets) = length ets.
Proof.
  unfold stored_rows. generalize (next_row w) as n. generalize 0%nat as i.
  induction ets as [|e l IH]; intros i n; simpl; [reflexivity | now rewrite IH].
Qed.

Lemma stored_orders (stamp : jsstring) (ets : list ExtractedTopic) : forall n index,
  List.map TopicExtractionService.order ets
    = List.map Z.of_nat (seq (index + 1) (length ets)) ->
  List.map orderIndex (store_rows n (topicsToInsert courseId stamp index ets))
  = List.map Z.of_nat (seq (index + 1) (length ets)).
Proof.
  induction ets as [|e ets IH]; intros n index H; [reflexivity|].
  cbn [map seq length] in H. injection H as Ho Hrest.
  cbn [topicsToInsert store_rows map seq length orderIndex new_orderIndex].
  rewrite Ho.
  replace (Z.of_nat (index + 1) =? 0)%Z with false by (symmetry; apply Z.eqb_neq; lia).
  f_equal. rewrite <- Nat.add_succ_l. apply IH. now rewrite Nat.add_succ_l.
Qed.

Lemma order_by_sorted (rows : list Topic) : forall a,
  List.map orderIndex rows = List.map Z.of_nat (seq a (length rows)) ->
  order_by_orderIndex rows = rows.
Proof.
  unfold order_by_orderIndex.
  induction rows as [|r rows IH]; intros a H; [reflexivity|].
  cbn [map seq length] in H. injection H as Hr Hrest.
  cbn [fold_right]. rewrite (IH (S a) Hrest).
  destruct rows as [|u rows]; [reflexivity|].
  cbn [map seq length] in Hrest. injection Hrest as Hu _.
  assert (Hlt : (orderIndex r <? orderIndex u)%Z = true) by (apply Z.ltb_lt; lia).
  cbn [insert_sorted]. now rewrite Hlt.
Qed.

Lemma content_round_trip (ks : list jsstring) :
  Forall plain_keyword ks ->
  (if is_empty (join (lit ", ") ks) then [] else keywords_of_content (join (lit ", ") ks))
  = ks.
Proof.
  intros Hall. rewrite sep_lit. destruct ks as [|k ks]; [reflexivity|].
  rewrite join_nonempty by (assumption || discriminate).
  unfold keywords_of_content. rewrite sep_lit, split_join.
  - now apply filter_plain.
  - discriminate.
  - eapply Forall_impl; [|exact Hall]. intros x [Hx _]. exact Hx.
Qed.

Lemma stored_keywords (stamp : jsstring) (ets : list ExtractedTopic) : forall n index,
  Forall2 (fun e r =>
             forall ks, TopicExtractionService.keywords e = Some ks ->
                        Forall plain_keyword ks ->
                        TopicExtractionService.keywords (topicToExtractedTopic r) = Some ks)
    ets (store_rows n (topicsToInsert courseId stamp index ets)).
Proof.
  induction ets as [|e ets IH]; intros n index; simpl; constructor; [|apply IH].
  intros ks Hks Hplain. unfold topicToExtractedTopic. simpl. rewrite Hks.
  f_equal. now apply content_round_trip.
Qed.

(** X18. Saving then fetching keeps a whole list: when the caller owns the
    course, every call of the backend is served and the orders of the list
    are 1..n in array order, [saveTopicsForCourse] followed by
    [getTopicsForCourse] returns one row per topic, in the same order, with
    the same titles and the order indices 1..n; turned back with
    [topicToExtractedTopic], each row has the keywords of its topic whenever
    these are present, none blank and none containing the separator. *)
Theorem save_then_get_keeps_the_list (ets : list ExtractedTopic) :
  all_served w ->
  packed ets ->
  exists saved w1 fetched w2 rows,
    saveTopicsForCourse courseId ets w = (Ok saved, w1) /\
    success saved = true /\
    getTopicsForCourse courseId w1 = (Ok fetched, w2) /\
    success fetched = true /\ data fetched = Some rows /\
    List.map Supabase.title rows = List.map TopicExtractionService.title ets /\
    List.map orderIndex rows = one_to (length ets) /\
    Forall2 (fun e r =>
               forall ks, TopicExtractionService.keywords e = Some ks ->
                          Forall plain_keyword ks ->
                          TopicExtractionService.keywords (topicToExtractedTopic r) = Some ks)
      ets rows.
Proof.
  intros Hs Hpacked.
  assert (Hget : forall w1,
            owns w1 uid courseId (set_topics_extracted (clock w) c) -> all_served w1 ->
            topics_of_course courseId w1 = stored_rows w courseId ets ->
            getTopicsForCourse courseId w1
            = (Ok (succeeded (stored_rows w courseId ets)), pop (checked w1))).
  { intros w1 Ho1 Hs1 Ht. rewrite (getTopicsForCourse_served Ho1 Hs1), Ht.
    rewrite (order_by_sorted (stored_rows w courseId ets) 1); [reflexivity|].
    unfold stored_rows at 1. rewrite (stored_orders (clock w) ets (next_row w) 0 Hpacked).
    now rewrite stored_length. }
  destruct ets as [|e0 ets0] eqn:Hets.
  - pose proof (saveTopicsForCourse_empty_served Howns Hs) as Hsave.
    eexists. eexists. eexists. eexists. exists [].
    split; [exact Hsave|]. split; [reflexivity|].
    split.
    + apply Hget.
      * apply owned_course_marked. exact Howns.
      * auto 12 with served.
      * apply topics_after_delete.
    + split; [reflexivity|]. split; [reflexivity|].
      split; [reflexivity|]. split; [reflexivity | constructor].
  - rewrite <- Hets in *.
    pose proof (@saveTopicsForCourse_served w uid courseId c Howns ets Hs) as Hsave.
    cbv zeta in Hsave. specialize (Hsave ltac:(rewrite Hets; discriminate)).
    eexists. eexists. eexists. eexists. exists (stored_rows w courseId ets).
    split; [exact Hsave|]. split; [reflexivity|].
    split.
    + apply Hget.
      * apply owned_course_marked. exact Howns.
      * auto 12 with served.
      * unfold topics_of_course, mark_course, add_rows, pop.
        cbn [topics with_courses with_topics with_answers]. rewrite filter_app.
        change (filter (fun t => Str.eqb (Supabase.courseId t) courseId)
                  (topics (remove_topics_of_course courseId
                     (with_answers (tl (answers (checked w))) (checked w)))))
          with (topics_of_course courseId (remove_topics_of_course courseId
                  (with_answers (tl (answers (checked w))) (checked w)))).
        rewrite topics_after_delete, app_nil_l. apply filter_stored_rows.
    + split; [reflexivity|]. split; [reflexivity|].
      split; [apply stored_titles|]. split.
      * unfold stored_rows. now rewrite (stored_orders (clock w) ets (next_row w) 0).
      * apply stored_keywords.
Qed.

End SavingAndFetching.

(* ===================================================================== *)
(** * The status line of a course *)
(* ===================================================================== *)

Section CourseStatus.
Import Str CourseDetailScreen Spec.
Local Open Scope Z_scope.

Lemma ceil_div_spec (a b : Z) :
  0 < b -> b * (ceil_div a b - 1) < a <= b * ceil_div a b.
Proof.
  intros Hb. unfold ceil_div.
  pose proof (Z.div_mod (- a) b ltac:(lia)) as Hdm.
  pose proof (Z.mod_pos_bound (- a) b Hb) as Hm.
  nia.
Qed.

Lemma ceil_div_unique (a b q : Z) :
  0 < b -> b * (q - 1) < a <= b * q -> ceil_div a b = q.
Proof.
  intros Hb Hq. pose proof (ceil_div_spec a Hb) as Hc. nia.
Qed.

Lemma ceil_div_lt (a b q : Z) : 0 < b -> (ceil_div a b < q <-> a <= b * (q - 1)).
Proof. intros Hb. pose proof (ceil_div_spec a Hb). split; intros; nia. Qed.

Lemma ceil_div_le (a b q : Z) : 0 < b -> (ceil_div a b <= q <-> a <= b * q).
Proof. intros Hb. pose proof (ceil_div_spec a Hb). split; intros; nia. Qed.

Variables endTime today : Z.

(** X19. With exact division, the status of a course depends on the time
    left, [end - today], by whole days: it is [ended] only once a whole day
    has passed since the end date, [urgent] from less than one day after the
    end date up to seven days before it, and [active] when more than seven
    days remain. *)
Theorem getCourseStatus_thresholds :
  let left := endTime - today in
  let s := getCourseStatus endTime today in
  (status s = ended <-> left <= - day) /\
  (status s = urgent <-> - day < left <= 7 * day) /\
  (status s = active <-> 7 * day < left).
Proof.
  cbv zeta. unfold getCourseStatus. cbv zeta.
  change (1000 * 60 * 60 * 24) with day.
  assert (Hday : 0 < day) by reflexivity.
  pose proof (ceil_div_lt (endTime - today) 0 Hday) as Hlt.
  pose proof (ceil_div_le (endTime - today) 7 Hday) as Hle.
  destruct (ceil_div (endTime - today) day <? 0) eqn:H0.
  - apply Z.ltb_lt in H0. cbn [status].
    repeat split; intros; try discriminate; lia.
  - apply Z.ltb_ge in H0.
    destruct (ceil_div (endTime - today) day <=? 7) eqn:H7.
    + apply Z.leb_le in H7. cbn [status].
      repeat split; intros; try discriminate; lia.
    + apply Z.leb_gt in H7. cbn [status].
      repeat split; intros; try discriminate; lia.
Qed.

(** X20. The text of the status line, with exact division. With more than
    seven days left it counts weeks, rounded up, and the count is at least 2,
    so that the singular [week] is never shown. With more than one and at
    most seven days left it counts the days, rounded up; with some time and
    at most a day left it reads [1 day remaining]; from the end date until a
    whole day has passed it reads [0 days remaining]. After that it counts
    the whole days passed, from 1, always followed by [days ago]. *)
Theorem getCourseStatus_text :
  let left := endTime - today in
  let s := getCourseStatus endTime today in
  (7 * day < left ->
   exists weeks,
     2 <= weeks /\ 7 * day * (weeks - 1) < left <= 7 * day * weeks /\
     text s = of_N (Z.to_N weeks) ++ lit " weeks remaining") /\
  (day < left <= 7 * day ->
   exists days,
     2 <= days <= 7 /\ day * (days - 1) < left <= day * days /\
     text s = of_N (Z.to_N days) ++ lit " days remaining") /\
  (0 < left <= day -> text s = lit "1 day remaining") /\
  (- day < left <= 0 -> text s = lit "0 days remaining") /\
  (left <= - day ->
   exists days,
     1 <= days /\ day * days <= - left < day * (days + 1) /\
     text s = lit "Ended " ++ of_N (Z.to_N days) ++ lit " days ago").
Proof.
  cbv zeta. unfold getCourseStatus. cbv zeta.
  change (1000 * 60 * 60 * 24) with day.
  assert (Hday : 0 < day) by reflexivity.
  pose proof (ceil_div_spec (endTime - today) Hday) as Hd.
  set (diffDays := ceil_div (endTime - today) day) in *.
  split; [|split; [|split; [|split]]].
  - intros Hleft.
    assert (H7 : 7 < diffDays) by nia.
    pose proof (ceil_div_spec diffDays (b := 7) ltac:(lia)) as Hw.
    exists (ceil_div diffDays 7).
    assert (Hweeks : 2 <= ceil_div diffDays 7) by lia.
    split; [exact Hweeks|]. split; [nia|].
    replace (diffDays <? 0) with false by (symmetry; apply Z.ltb_ge; lia).
    replace (diffDays <=? 7) with false by (symmetry; apply Z.leb_gt; lia).
    replace (ceil_div diffDays 7 =? 1) with false by (symmetry; apply Z.eqb_neq; lia).
    reflexivity.
  - intros Hleft.
    assert (H2 : 2 <= diffDays <= 7) by nia.
    exists diffDays. split; [exact H2|]. split; [lia|].
    replace (diffDays <? 0) with false by (symmetry; apply Z.ltb_ge; lia).
    replace (diffDays <=? 7) with true by (symmetry; apply Z.leb_le; lia).
    replace (diffDays =? 1) with false by (symmetry; apply Z.eqb_neq; lia).
    reflexivity.
  - intros Hleft. replace diffDays with 1 by nia. reflexivity.
  - intros Hleft. replace diffDays with 0 by nia. reflexivity.
  - intros Hleft.
    assert (Hneg : diffDays <= -1) by nia.
    exists (- diffDays). split; [lia|]. split; [nia|].
    replace (diffDays <? 0) with true by (symmetry; apply Z.ltb_lt; lia).
    replace (Z.abs diffDays) with (- diffDays) by lia.
    reflexivity.
Qed.

End CourseStatus.

(* ===================================================================== *)
(** * The edits of the review screen *)
(* ===================================================================== *)

Section ReviewScreen.
Import Str TopicExtractionService Spec.

Lemma rename_fields (target newTitle : jsstring) (t : ExtractedTopic) :
  id (ReviewTopicsScreen.rename target newTitle t) = id t /\
  order (ReviewTopicsScreen.rename target newTitle t) = order t /\
  keywords (ReviewTopicsScreen.rename target newTitle t) = keywords t.
Proof. unfold ReviewTopicsScreen.rename. destruct (Str.eqb (id t) target); now repeat split. Qed.

Lemma map_rename {A} (f : ExtractedTopic -> A) (target newTitle : jsstring)
    (ts : list ExtractedTopic) :
  (forall t, f (ReviewTopicsScreen.rename target newTitle t) = f t) ->
  List.map f (List.map (ReviewTopicsScreen.rename target newTitle) ts) = List.map f ts.
Proof. intros H. rewrite map_map. apply map_ext. exact H. Qed.

Lemma saveEdit_cases (st : ReviewTopicsScreen.State) :
  (ReviewTopicsScreen.saveEdit st = st /\
   (ReviewTopicsScreen.editingId st = None \/ ReviewTopicsScreen.editingId st = Some [] \/
    trim (ReviewTopicsScreen.editingTitle st) = [])) \/
  (exists target,
     ReviewTopicsScreen.editingId st = Some target /\ target <> [] /\
     trim (ReviewTopicsScreen.editingTitle st) <> [] /\
     ReviewTopicsScreen.saveEdit st
     = {| ReviewTopicsScreen.topics :=
            List.map (ReviewTopicsScreen.rename target
                        (trim (ReviewTopicsScreen.editingTitle st))) (ReviewTopicsScreen.topics st);
          ReviewTopicsScreen.editingId := None;
          ReviewTopicsScreen.editingTitle := [] |}).
Proof.
  unfold ReviewTopicsScreen.saveEdit.
  destruct (ReviewTopicsScreen.editingId st) as [target|]; [|left; auto].
  destruct target as [|c target]; [left; auto|].
  destruct (trim (ReviewTopicsScreen.editingTitle st)) as [|d title] eqn:Htitle.
  - left. auto.
  - right. exists (c :: target). repeat split; discriminate.
Qed.

(** X21. Submitting an edit changes titles only: the list keeps its
    length, its identifiers, its orders and its keywords. With a topic in
    edition and a title that is not blank, every topic with the edited
    identifier gets the trimmed title, every other topic is as it was, and the
    edition is closed. With no topic in edition, or a blank title, nothing
    changes at all: the edition stays open and the old title is kept. *)
Theorem saveEdit_changes_titles_only (st : ReviewTopicsScreen.State) :
  let st' := ReviewTopicsScreen.saveEdit st in
  List.map id (ReviewTopicsScreen.topics st') = List.map id (ReviewTopicsScreen.topics st) /\
  List.map order (ReviewTopicsScreen.topics st') = List.map order (ReviewTopicsScreen.topics st) /\
  List.map keywords (ReviewTopicsScreen.topics st') = List.map keywords (ReviewTopicsScreen.topics st) /\
  (forall target,
     ReviewTopicsScreen.editingId st = Some target -> target <> [] ->
     trim (ReviewTopicsScreen.editingTitle st) <> [] ->
     ReviewTopicsScreen.editingId st' = None /\
     Forall2 (fun t t' =>
                (id t = target -> title t' = trim (ReviewTopicsScreen.editingTitle st)) /\
                (id t <> target -> t' = t))
       (ReviewTopicsScreen.topics st) (ReviewTopicsScreen.topics st')) /\
  (ReviewTopicsScreen.editingId st = None \/ ReviewTopicsScreen.editingId st = Some [] \/
   trim (ReviewTopicsScreen.editingTitle st) = [] -> st' = st).
Proof.
  cbv zeta. destruct (saveEdit_cases st) as [[Hsame Hwhy]|[target [Hid [Hne [Htitle Hrun]]]]].
  - rewrite Hsame. split; [reflexivity|]. split; [reflexivity|]. split; [reflexivity|].
    split; [|reflexivity].
    intros target Hid Hne Htitle. destruct Hwhy as [H|[H|H]]; congruence.
  - rewrite Hrun. cbn [ReviewTopicsScreen.topics ReviewTopicsScreen.editingId].
    split; [apply map_rename; intros t; apply rename_fields|].
    split; [apply map_rename; intros t; apply rename_fields|].
    split; [apply map_rename; intros t; apply rename_fields|].
    split.
    + intros target' Hid' _ _. rewrite Hid in Hid'. inversion Hid'; subst target'.
      split; [reflexivity|]. clear Hrun.
      induction (ReviewTopicsScreen.topics st) as [|t ts IH]; [constructor|].
      cbn [map]. constructor; [|exact IH].
      unfold ReviewTopicsScreen.rename.
      destruct (Str.eqb (id t) target) eqn:Heq.
      * split; [reflexivity|]. intros Hneq. apply eqb_eq in Heq. contradiction.
      * split; [|reflexivity]. intros Heq'. rewrite Heq', eqb_refl in Heq. discriminate.
    + intros [H|[H|H]]; congruence.
Qed.

Lemma reorder_fields {A} (f : ExtractedTopic -> A) (ts : list ExtractedTopic) :
  (forall t i, f {| id := id t; title := title t; order := i; keywords := keywords t |} = f t) ->
  forall index, List.map f (ReviewTopicsScreen.reorder index ts) = List.map f ts.
Proof.
  intros Hf. induction ts as [|t ts IH]; intros index; [reflexivity|].
  cbn [ReviewTopicsScreen.reorder map]. now rewrite Hf, IH.
Qed.

Lemma filter_others (topicId : jsstring) (ts : list ExtractedTopic) :
  ~ In topicId (List.map id ts) ->
  filter (fun topic => negb (Str.eqb (id topic) topicId)) ts = ts.
Proof.
  induction ts as [|t ts IH]; intros Hnot; [reflexivity|].
  cbn [filter]. destruct (Str.eqb (id t) topicId) eqn:Heq.
  - apply eqb_eq in Heq. exfalso. apply Hnot. now left.
  - cbn [negb]. rewrite IH; [reflexivity|]. intros Hin. apply Hnot. now right.
Qed.

Lemma filter_one (t : ExtractedTopic) (before rest : list ExtractedTopic) :
  NoDup (List.map id (before ++ t :: rest)) ->
  filter (fun topic => negb (Str.eqb (id topic) (id t))) (before ++ t :: rest)
  = before ++ rest.
Proof.
  intros Hnd. rewrite map_app in Hnd. cbn [map] in Hnd.
  pose proof (NoDup_remove_2 _ _ _ Hnd) as Hnot.
  rewrite filter_app. cbn [filter]. rewrite eqb_refl. cbn [negb].
  rewrite !filter_others; [reflexivity | |];
    intros Hin; apply Hnot; apply in_or_app; [now right | now left].
Qed.

(** X22. Removing renumbers and, with identifiers that are all different,
    removes one topic: the topics before and after the removed one are kept,
    in order, with their identifiers, titles and keywords, and the orders of
    the new list are 1..n-1. Whatever the identifiers, no topic with the
    removed identifier is left. *)
Theorem removeTopic_removes_one :
  (forall (topicId : jsstring) (ts : list ExtractedTopic),
     ~ In topicId (List.map id (ReviewTopicsScreen.removeTopic topicId ts))) /\
  (forall (t : ExtractedTopic) (ts : list ExtractedTopic),
     NoDup (List.map id ts) ->
     In t ts ->
     exists before rest,
       ts = before ++ t :: rest /\
       let left := ReviewTopicsScreen.removeTopic (id t) ts in
       List.map id left = List.map id (before ++ rest) /\
       List.map title left = List.map title (before ++ rest) /\
       List.map keywords left = List.map keywords (before ++ rest) /\
       List.map order left = one_to (length ts - 1)).
Proof.
  split.
  - intros topicId ts Hin. unfold ReviewTopicsScreen.removeTopic in Hin.
    rewrite reorder_fields in Hin by reflexivity.
    apply in_map_iff in Hin. destruct Hin as [x [Hid Hx]].
    apply filter_In in Hx. destruct Hx as [_ Hkept].
    rewrite Hid, eqb_refl in Hkept. discriminate.
  - intros t ts Hnd Hin. destruct (in_split _ _ Hin) as [before [rest Hts]].
    exists before, rest. split; [exact Hts|]. cbv zeta.
    assert (Hleft : ReviewTopicsScreen.removeTopic (id t) ts
                    = ReviewTopicsScreen.reorder 0 (before ++ rest)).
    { unfold ReviewTopicsScreen.removeTopic. rewrite Hts. rewrite filter_one; [reflexivity|].
      now rewrite <- Hts. }
    rewrite Hleft.
    split; [apply reorder_fields; reflexivity|].
    split; [apply reorder_fields; reflexivity|].
    split; [apply reorder_fields; reflexivity|].
    rewrite reorder_orders. unfold one_to. f_equal. f_equal.
    rewrite Hts, !length_app. cbn [length]. lia.
Qed.

(** What every event keeps. *)
Lemma handle_packed (st : ReviewTopicsScreen.State) (e : event) :
  packed (ReviewTopicsScreen.topics st) ->
  packed (ReviewTopicsScreen.topics (handle st e)).
Proof.
  intros Hp. destruct e; cbn [handle]; try exact Hp.
  - now apply addNewTopic_packed.
  - unfold packed.
    destruct (saveEdit_cases st) as [[Hsame _]|[target [_ [_ [_ Hrun]]]]];
      rewrite ?Hsame, ?Hrun; [exact Hp|].
    cbn [ReviewTopicsScreen.topics]. rewrite length_map.
    rewrite map_rename; [exact Hp|]. intros t. apply rename_fields.
  - apply removeTopic_packed.
Qed.

Lemma handle_titles (st : ReviewTopicsScreen.State) (e : event) :
  Forall (fun t => title t <> []) (ReviewTopicsScreen.topics st) ->
  Forall (fun t => title t <> []) (ReviewTopicsScreen.topics (handle st e)).
Proof.
  intros Ht. destruct e; cbn [handle]; try exact Ht.
  - cbn. apply Forall_app. split; [exact Ht|]. constructor; [discriminate | constructor].
  - destruct (saveEdit_cases st) as [[Hsame _]|[target [_ [_ [Hne Hrun]]]]];
      rewrite ?Hsame, ?Hrun; [exact Ht|].
    cbn [ReviewTopicsScreen.topics]. apply Forall_map.
    eapply Forall_impl; [|exact Ht]. intros t Htitle. cbv beta in *.
    unfold ReviewTopicsScreen.rename. destruct (Str.eqb (id t) target); [exact Hne | exact Htitle].
  - cbn [ReviewTopicsScreen.removeTopic_action ReviewTopicsScreen.topics].
    unfold ReviewTopicsScreen.removeTopic.
    apply Forall_forall. intros t Hin.
    assert (Hmap : In (title t) (List.map title (ReviewTopicsScreen.reorder 0
               (filter (fun topic => negb (Str.eqb (id topic) topicId))
                  (ReviewTopicsScreen.topics st))))) by (now apply in_map).
    rewrite reorder_fields in Hmap by reflexivity.
    apply in_map_iff in Hmap. destruct Hmap as [t0 [Heq Hin0]].
    apply filter_In in Hin0. rewrite <- Heq.
    rewrite Forall_forall in Ht. apply Ht. apply Hin0.
Qed.

Lemma comes_from_more (initialTopics : list ExtractedTopic) (seen more : list event)
    (t : ExtractedTopic) :
  comes_from initialTopics seen t -> comes_from initialTopics (seen ++ more) t.
Proof.
  intros [H|[now [Hin H]]]; [now left|].
  right. exists now. split; [apply in_or_app; now left | exact H].
Qed.

Lemma handle_origins (initialTopics : list ExtractedTopic) (seen : list event)
    (st : ReviewTopicsScreen.State) (e : event) :
  Forall (comes_from initialTopics seen) (ReviewTopicsScreen.topics st) ->
  Forall (comes_from initialTopics (seen ++ [e])) (ReviewTopicsScreen.topics (handle st e)).
Proof.
  intros Hc.
  assert (Hmore : Forall (comes_from initialTopics (seen ++ [e])) (ReviewTopicsScreen.topics st)).
  { eapply Forall_impl; [|exact Hc]. intros t. apply comes_from_more. }
  destruct e; cbn [handle]; try exact Hmore.
  - cbn. apply Forall_app. split; [exact Hmore|].
    constructor; [|constructor]. right. exists now.
    split; [apply in_or_app; right; now left | split; reflexivity].
  - destruct (saveEdit_cases st) as [[Hsame _]|[target [_ [_ [_ Hrun]]]]];
      rewrite ?Hsame, ?Hrun; [exact Hmore|].
    cbn [ReviewTopicsScreen.topics]. apply Forall_map.
    eapply Forall_impl; [|exact Hmore]. intros t Hfrom.
    destruct (rename_fields target (trim (ReviewTopicsScreen.editingTitle st)) t)
      as [Hid [_ Hkw]].
    unfold comes_from. rewrite Hid, Hkw. exact Hfrom.
  - cbn [ReviewTopicsScreen.removeTopic_action ReviewTopicsScreen.topics].
    unfold ReviewTopicsScreen.removeTopic.
    generalize 0%nat as index.
    induction (ReviewTopicsScreen.topics st) as [|t ts IH]; intros index; [constructor|].
    inversion Hc as [|? ? Hhead Htail]; subst.
    inversion Hmore as [|? ? Hhead' Htail']; subst.
    cbn [filter]. destruct (negb (Str.eqb (id t) topicId)).
    + cbn [ReviewTopicsScreen.reorder]. constructor; [exact Hhead' | now apply IH].
    + now apply IH.
Qed.

(** X23. Whatever the user does on the review screen, in any order: a list
    whose orders were 1..n when the screen opened still has the orders 1..n of
    its array positions; titles that were not empty stay so; every topic
    shown has the identifier and the keywords of a topic the screen was
    opened with, or comes from a press on the add button and has no keyword;
    and the list handed over by [handleSave] is never empty. *)
Theorem review_screen_invariant
    (initialTopics : list ExtractedTopic) (events : list event) :
  packed initialTopics ->
  let st := after events (ReviewTopicsScreen.initial initialTopics) in
  packed (ReviewTopicsScreen.topics st) /\
  (Forall (fun t => title t <> []) initialTopics ->
   Forall (fun t => title t <> []) (ReviewTopicsScreen.topics st)) /\
  Forall (comes_from initialTopics events) (ReviewTopicsScreen.topics st) /\
  (forall ets, ReviewTopicsScreen.handleSave st = Some ets ->
               ets = ReviewTopicsScreen.topics st /\ ets <> [] /\ packed ets).
Proof.
  intros Hp. cbv zeta.
  assert (Hall : forall events st seen,
            packed (ReviewTopicsScreen.topics st) ->
            Forall (comes_from initialTopics seen) (ReviewTopicsScreen.topics st) ->
            packed (ReviewTopicsScreen.topics (after events st)) /\
            (Forall (fun t => title t <> []) (ReviewTopicsScreen.topics st) ->
             Forall (fun t => title t <> []) (ReviewTopicsScreen.topics (after events st))) /\
            Forall (comes_from initialTopics (seen ++ events))
              (ReviewTopicsScreen.topics (after events st))).
  { clear. induction events as [|e events IH]; intros st seen Hp Hc.
    - rewrite app_nil_r. now repeat split.
    - cbn [after fold_left].
      destruct (IH (handle st e) (seen ++ [e]) (@handle_packed st e Hp)
                  (@handle_origins initialTopics seen st e Hc))
        as [H1 [H2 H3]].
      split; [exact H1|]. split.
      + intros Ht. apply H2. now apply handle_titles.
      + now rewrite <- app_assoc in H3. }
  destruct (Hall events (ReviewTopicsScreen.initial initialTopics) [] Hp) as [H1 [H2 H3]].
  { cbn. apply Forall_forall. intros t Hin. left. exists t. now repeat split. }
  split; [exact H1|]. split; [exact H2|]. split; [exact H3|].
  intros ets Hsave. unfold ReviewTopicsScreen.handleSave in Hsave.
  destruct (length (ReviewTopicsScreen.topics (after events (ReviewTopicsScreen.initial initialTopics)))
            =? 0)%nat eqn:Hlen; [discriminate|].
  inversion Hsave; subst ets. split; [reflexivity|]. split; [|exact H1].
  intros Hnil. rewrite Hnil in Hlen. discriminate.
Qed.

End ReviewScreen.

(* ===================================================================== *)
(** * From the file to the review screen *)
(* ===================================================================== *)

Section Pipeline.
Import Str Json TopicExtractionService Spec.

Variable E : Engine.

Lemma parse_topic_ok (entry : value) (index : nat) (t : ExtractedTopic) :
  parse_topic E entry index = Ok t ->
  id t = lit "topic-" ++ of_nat (index + 1) /\
  order t = Z.of_nat (index + 1) /\
  exists s, title t = trim s.
Proof.
  unfold parse_topic.
  destruct (match entry with
            | JNull => Throw (TypeError E (lit "title"))
            | _ => Ok (get entry (lit "title"))
            end) as [title_|]; cbn [obind]; [|discriminate].
  destruct (negb (truthy title_)); [discriminate|].
  destruct title_ as [[| | |s| |]|]; cbn [obind]; try discriminate.
  intros H. inversion H. cbn. split; [reflexivity|]. split; [reflexivity|]. now exists s.
Qed.

Lemma map_indexed_ok (entries : list value) : forall index ts,
  map_indexed (parse_topic E) index entries = Ok ts ->
  forall i t, nth_error ts i = Some t ->
    id t = lit "topic-" ++ of_nat (index + i + 1) /\
    order t = Z.of_nat (index + i + 1) /\
    exists s, title t = trim s.
Proof.
  induction entries as [|e entries IH]; intros index ts Hmap i t Hnth.
  - inversion Hmap; subst. destruct i; discriminate.
  - cbn [map_indexed] in Hmap.
    destruct (parse_topic E e index) as [y|] eqn:Hy; [|discriminate].
    destruct (map_indexed (parse_topic E) (S index) entries) as [ys|] eqn:Hys; [|discriminate].
    inversion Hmap; subst ts. destruct i as [|i]; cbn [nth_error] in Hnth.
    + inversion Hnth; subst t. rewrite Nat.add_0_r. exact (@parse_topic_ok e index y Hy).
    + replace (index + S i + 1)%nat with (S index + i + 1)%nat by lia.
      exact (IH (S index) ys Hys i t Hnth).
Qed.

Lemma parseOpenAIResponse_ok (data : value) (ts : list ExtractedTopic) :
  parseOpenAIResponse E data = Ok ts ->
  forall i t, nth_error ts i = Some t ->
    id t = lit "topic-" ++ of_nat (i + 1) /\
    order t = Z.of_nat (i + 1) /\
    exists s, title t = trim s.
Proof.
  unfold parseOpenAIResponse, parse_body.
  destruct (response_content E data) as [[c|]|]; cbn [obind]; try discriminate.
  destruct (negb (truthy (Some c))); try discriminate.
  destruct (JSON_parse E c) as [parsed|]; cbn [obind]; try discriminate.
  destruct (match parsed with
            | JNull => Throw (TypeError E (lit "topics"))
            | _ => Ok (get parsed (lit "topics"))
            end) as [[v|]|]; cbn [obind]; try discriminate.
  destruct v as [| | | |items|]; try discriminate.
  destruct (map_indexed (parse_topic E) 0 items) as [topics|] eqn:Hmap; cbn [obind];
    try discriminate.
  destruct (length topics =? 0)%nat; [discriminate|]. intros H. inversion H; subst ts.
  intros i t Hnth. exact (@map_indexed_ok items 0%nat topics Hmap i t Hnth).
Qed.

Lemma handle_response_ok (answer : FetchResult) (ts : list ExtractedTopic) :
  handle_response E answer = Ok ts ->
  exists status data,
    answer = Response status (Ok data) /\ response_ok status = true /\
    parseOpenAIResponse E data = Ok ts.
Proof.
  intros Hh. unfold handle_response in Hh.
  destruct answer as [|status json]; [discriminate|].
  destruct (response_ok status) eqn:Hok; cbn [negb] in Hh.
  - destruct json as [data|]; cbn [obind] in Hh; [|discriminate].
    now exists status, data.
  - destruct (match json with Ok d => d | Throw _ => JObject [] end);
      simpl in Hh; try discriminate;
      destruct (assoc _ _) as [[]|]; discriminate.
Qed.

Variables (config : OpenAIConfig) (fetch : Request -> FetchResult).
Variables (startTime endTime : Z).

Lemma extractTopics_topics (text : jsstring) :
  let r := fst (extractTopics E config fetch startTime endTime text) in
  (success r = false /\ topics r = []) \/
  (success r = true /\ exists data, parseOpenAIResponse E data = Ok (topics r)).
Proof.
  cbv zeta. unfold extractTopics.
  destruct (is_empty (apiKey config)); [left; now split|].
  destruct (is_empty text || (length (trim text) <? 50)%nat); [left; now split|].
  cbv zeta.
  destruct (handle_response E _) as [ts|m] eqn:Hh; [|left; now split].
  right. split; [reflexivity|].
  destruct (@handle_response_ok _ ts Hh) as [status [data [_ [_ Hparse]]]].
  now exists data.
Qed.

Lemma extractTopics_numbered (text : jsstring) :
  numbered (topics (fst (extractTopics E config fetch startTime endTime text))).
Proof.
  destruct (extractTopics_topics text) as [[_ Hnone]|[_ [data Hparse]]].
  - rewrite Hnone. intros [|i] t H; discriminate.
  - intros i t Hnth.
    destruct (@parseOpenAIResponse_ok data _ Hparse i t Hnth) as [Hid [Hord _]]. now split.
Qed.

(** X24. Whatever the text and whatever the provider answers, the topics of
    a result of [extractTopics] are numbered from 1 in array order, in their
    identifiers [topic-1], [topic-2], ... and in their orders, and no title
    starts or ends with white space. *)
Theorem extractTopics_numbers_every_result (text : jsstring) :
  let r := fst (extractTopics E config fetch startTime endTime text) in
  numbered (topics r) /\
  packed (topics r) /\
  Forall (fun t => trim (title t) = title t) (topics r).
Proof.
  cbv zeta.
  destruct (extractTopics_topics text) as [[_ Hnone]|[_ [data Hparse]]].
  - rewrite Hnone. split; [|split; [reflexivity | constructor]].
    intros [|i] t H; discriminate.
  - pose proof (@parseOpenAIResponse_ok data _ Hparse) as Hok.
    set (ts := topics (fst (extractTopics E config fetch startTime endTime text))) in *.
    clearbody ts. split; [|split].
    + intros i t Hnth. destruct (Hok i t Hnth) as [Hid [Hord _]]. now split.
    + unfold packed, one_to. apply nth_error_ext. intros i.
      rewrite !nth_error_map. destruct (nth_error ts i) as [t|] eqn:Hnth.
      * destruct (Hok i t Hnth) as [_ [Hord _]]. cbn [option_map]. rewrite Hord.
        assert (Hi : (i < length ts)%nat) by (apply nth_error_Some; congruence).
        rewrite (nth_error_nth' _ 0%nat) by (rewrite length_seq; exact Hi).
        rewrite seq_nth by exact Hi. cbn [option_map]. f_equal. f_equal. lia.
      * apply nth_error_None in Hnth. cbn [option_map].
        rewrite (proj2 (nth_error_None _ _)); [reflexivity|]. now rewrite length_seq.
    + apply Forall_forall. intros t Hin. apply In_nth_error in Hin. destruct Hin as [i Hnth].
      destruct (Hok i t Hnth) as [_ [_ [s Hs]]]. rewrite Hs. apply trim_idempotent.
Qed.

Variables readStart readEnd : Z.

Lemma or_else_nonempty (message : option jsstring) (fallback : string) :
  lit fallback <> [] -> AddContentScreen.or_else message fallback <> [].
Proof.
  intros Hf. unfold AddContentScreen.or_else.
  destruct message as [[|c m]|]; cbn [is_empty]; [exact Hf | discriminate | exact Hf].
Qed.

Lemma mock_pdf_text (n : jsstring) :
  FileReaderService.cleanExtractedText (FileReaderService.getMockPDFContent n) = pdf_text.
Proof. unfold pdf_text, FileReaderService.getMockPDFContent. reflexivity. Qed.

Lemma mock_word_text (n : jsstring) :
  FileReaderService.cleanExtractedText (FileReaderService.getMockWordContent n) = word_text.
Proof. unfold word_text, FileReaderService.getMockWordContent. reflexivity. Qed.

Lemma process_body_eq (file : FileReaderService.FileInfo) :
  AddContentScreen.process_body E config fetch readStart readEnd startTime endTime file =
    if negb (FileReaderService.isValid (FileReaderService.validateFile file)) then
      (Throw (AddContentScreen.or_else
                (FileReaderService.validation_error (FileReaderService.validateFile file))
                "Failed to read file content"), [])
    else if includes (FileReaderService.type file) (lit "pdf") then
      extract_step E config fetch startTime endTime pdf_text
    else if word_like file then
      extract_step E config fetch startTime endTime word_text
    else (Throw (lit "Unsupported file type: " ++ FileReaderService.type file), []).
Proof.
  unfold AddContentScreen.process_body. cbv zeta.
  replace {| FileReaderService.uri := FileReaderService.uri file;
             FileReaderService.name := FileReaderService.name file;
             FileReaderService.type := FileReaderService.type file;
             FileReaderService.size := FileReaderService.size file |}
    with file by (now destruct file).
  rewrite readFileText_eq.
  destruct (negb (FileReaderService.isValid (FileReaderService.validateFile file)));
    [reflexivity|].
  destruct (includes (FileReaderService.type file) (lit "pdf")).
  - unfold read_result. rewrite mock_pdf_long.
    cbn [FileReaderService.success FileReaderService.text].
    rewrite (mock_pdf_text (FileReaderService.name file)).
    replace (is_empty pdf_text) with false by (vm_compute; reflexivity).
    reflexivity.
  - destruct (word_like file); [|reflexivity].
    unfold read_result. rewrite mock_word_long.
    cbn [FileReaderService.success FileReaderService.text].
    rewrite (mock_word_text (FileReaderService.name file)).
    replace (is_empty word_text) with false by (vm_compute; reflexivity).
    reflexivity.
Qed.

Lemma extract_step_outcomes (text : jsstring) :
  (50 <= length (trim text))%nat ->
  let (result, sent) := extract_step E config fetch startTime endTime text in
  (sent = [] \/ sent = [request_for config text]) /\
  (sent <> [] <-> is_empty (apiKey config) = false) /\
  match result with
  | Ok ts => ts <> [] /\ numbered ts /\ sent <> []
  | Throw message => message <> []
  end.
Proof.
  intros Hlen. unfold extract_step.
  pose proof (extractTopics_numbered text) as Hnum.
  destruct (is_empty (apiKey config)) eqn:Hkey.
  - unfold extractTopics. rewrite Hkey. cbn.
    split; [now left|]. split; [split; [congruence | discriminate]|]. discriminate.
  - rewrite (@extractTopics_sends E config fetch startTime endTime text Hkey Hlen) in *.
    destruct (handle_response E (fetch (request_for config text))) as [ts|m] eqn:Hh.
    + cbn [success negb topics]. split; [now right|].
      split; [split; [reflexivity | discriminate]|].
      destruct (@handle_response_ok _ ts Hh) as [status [data [_ [_ Hparse]]]].
      split; [now apply parseOpenAIResponse_nonempty with (E := E) (data := data)|].
      split; [exact Hnum | discriminate].
    + cbn [success negb failure error]. split; [now right|].
      split; [split; [reflexivity | discriminate]|].
      apply or_else_nonempty. discriminate.
Qed.

(** X25. From a selected file to the review screen. The provider is asked
    at most once, and only about one of the two fixed texts of the reader:
    the request is sent exactly when the key is configured and the file is
    accepted as a PDF or a Word document, whatever the file contains. The
    topics handed to the review screen are never an empty list and are
    numbered from 1; a failure always shows a message. *)
Theorem processSyllabus_outcomes (file : FileReaderService.FileInfo) :
  let (alert, sent) :=
    AddContentScreen.processSyllabus E config fetch readStart readEnd startTime endTime
      (Some file) in
  (sent = [] \/ sent = [request_for config pdf_text] \/ sent = [request_for config word_text]) /\
  (sent <> [] <->
   is_empty (apiKey config) = false /\
   FileReaderService.isValid (FileReaderService.validateFile file) = true /\
   (includes (FileReaderService.type file) (lit "pdf") = true \/ word_like file = true)) /\
  match alert with
  | AddContentScreen.NoFile => False
  | AddContentScreen.Extracted ts => ts <> [] /\ numbered ts /\ sent <> []
  | AddContentScreen.ProcessingFailed message => message <> []
  end.
Proof.
  unfold AddContentScreen.processSyllabus. rewrite process_body_eq.
  destruct (FileReaderService.isValid (FileReaderService.validateFile file)) eqn:Hvalid;
    cbn [negb].
  - destruct (includes (FileReaderService.type file) (lit "pdf")) eqn:Hpdf.
    + pose proof (@extract_step_outcomes pdf_text ltac:(vm_compute; lia)) as Hstep.
      destruct (extract_step E config fetch startTime endTime pdf_text) as [[ts|m] sent];
        destruct Hstep as [Hsent [Hiff Hres]].
      * split; [destruct Hsent as [H|H]; [left | right; left]; exact H|]. split; [|exact Hres].
        rewrite Hiff. split; [intros Hkey; split; [exact Hkey|]; split; [reflexivity|]; now left | now intros [Hkey _]].
      * split; [destruct Hsent as [H|H]; [left | right; left]; exact H|]. split.
        -- rewrite Hiff. split; [intros Hkey; split; [exact Hkey|]; split; [reflexivity|]; now left | now intros [Hkey _]].
        -- apply or_else_nonempty. discriminate.
    + destruct (word_like file) eqn:Hword.
      * pose proof (@extract_step_outcomes word_text ltac:(vm_compute; lia)) as Hstep.
        destruct (extract_step E config fetch startTime endTime word_text) as [[ts|m] sent];
          destruct Hstep as [Hsent [Hiff Hres]].
        -- split; [destruct Hsent as [H|H]; [left | right; right]; exact H|]. split; [|exact Hres].
           rewrite Hiff. split; [intros Hkey; split; [exact Hkey|]; split; [reflexivity|]; now right | now intros [Hkey _]].
        -- split; [destruct Hsent as [H|H]; [left | right; right]; exact H|]. split.
           ++ rewrite Hiff. split; [intros Hkey; split; [exact Hkey|]; split; [reflexivity|]; now right | now intros [Hkey _]].
           ++ apply or_else_nonempty. discriminate.
      * split; [now left|]. split.
        -- split; [congruence|]. intros [_ [_ [H|H]]]; discriminate.
        -- apply or_else_nonempty. discriminate.
  - split; [now left|]. split.
    + split; [congruence|]. intros [_ [H _]]; discriminate.
    + apply or_else_nonempty. discriminate.
Qed.

End Pipeline.

(* ===================================================================== *)
(** * The responses of the gateway *)
(* ===================================================================== *)

Section Responses.
Import Str Supabase TopicService Spec.
Local Open Scope backend_scope.

Lemma yields_ret {A} (P : A -> Prop) (a : A) : P a -> yields P (ret a).
Proof. intros H w b Hb. inversion Hb. now subst. Qed.

Lemma yields_bind {A B} (P : B -> Prop) (m : M A) (k : A -> M B) :
  (forall a, yields P (k a)) -> yields P (bind m k).
Proof.
  intros Hk w b. unfold bind. destruct (m w) as [[a|e] w'].
  - apply Hk.
  - discriminate.
Qed.

Lemma returns_ret {A} (P : A -> Prop) (a : A) : P a -> returns P (ret a).
Proof. intros H w. now exists a. Qed.

Lemma returns_try_catch {A} (P : A -> Prop) (m : M A) (h : jsstring -> M A) :
  yields P m -> (forall e, returns P (h e)) -> returns P (try_catch m h).
Proof.
  intros Hm Hh w. unfold try_catch. destruct (m w) as [[a|e] w'] eqn:Hrun.
  - exists a. split; [reflexivity|]. apply (Hm w). now rewrite Hrun.
  - apply Hh.
Qed.

Lemma well_formed_succeeded {T} (d : T) : well_formed (succeeded d).
Proof. left. split; [reflexivity|]. split; [now exists d | reflexivity]. Qed.

Lemma well_formed_failed {T} (msg : jsstring) (c : option jsstring) :
  msg <> [] -> well_formed (@failed T msg c).
Proof.
  intros Hmsg. right. split; [reflexivity|]. split; [reflexivity|].
  eexists. split; [reflexivity | exact Hmsg].
Qed.

End Responses.

Ltac yields_step :=
  first
    [ apply yields_ret;
      first [ apply well_formed_succeeded | apply well_formed_failed; discriminate ]
    | apply yields_bind; intros ?
    | match goal with
      | |- Spec.yields _ (match ?x with _ => _ end) => destruct x
      end ].

Ltac gateway_returns :=
  apply returns_try_catch;
  [ repeat yields_step
  | intros ?; apply returns_ret; apply well_formed_failed; discriminate ].

Section GatewayResponses.
Import Str Supabase TopicService Spec.
Local Open Scope backend_scope.

Lemma saveTopicsForCourse_returns (courseId : jsstring) (ets : list ExtractedTopic) :
  returns well_formed (saveTopicsForCourse courseId ets).
Proof. unfold saveTopicsForCourse. gateway_returns. Qed.

Lemma getTopicsForCourse_returns (courseId : jsstring) :
  returns well_formed (getTopicsForCourse courseId).
Proof. unfold getTopicsForCourse. gateway_returns. Qed.

Lemma createTopic_returns (courseId : jsstring) (topicData : TopicData) :
  returns well_formed (createTopic courseId topicData).
Proof. unfold createTopic. gateway_returns. Qed.

Lemma updateTopic_returns (topicId : jsstring) (updates : TopicPatch) :
  returns well_formed (updateTopic topicId updates).
Proof. unfold updateTopic. gateway_returns. Qed.

Lemma deleteTopic_returns (topicId : jsstring) :
  returns well_formed (deleteTopic topicId).
Proof. unfold deleteTopic. gateway_returns. Qed.

(** X26. The five operations of the gateway never throw, whatever the
    backend answers and even when a call of the backend throws: each returns
    a response that is either a success, with data and no error, or a
    failure, with no data and an error whose message is not empty. *)
Theorem gateway_responses_well_formed :
  (forall courseId ets, returns well_formed (saveTopicsForCourse courseId ets)) /\
  (forall courseId, returns well_formed (getTopicsForCourse courseId)) /\
  (forall courseId topicData, returns well_formed (createTopic courseId topicData)) /\
  (forall topicId updates, returns well_formed (updateTopic topicId updates)) /\
  (forall topicId, returns well_formed (deleteTopic topicId)).
Proof.
  split; [exact saveTopicsForCourse_returns|].
  split; [exact getTopicsForCourse_returns|].
  split; [exact createTopic_returns|].
  split; [exact updateTopic_returns | exact deleteTopic_returns].
Qed.

End GatewayResponses.

(* ===================================================================== *)
(** * The topic actions of the store *)
(* ===================================================================== *)

Section Store.
Import Str Supabase Spec.
Local Open Scope backend_scope.

(** An action of the store runs the operation of the gateway, then its own
    continuation on the response. *)
Lemma store_runs {T B} (g : M (TopicService.ServiceResponse T))
    (k : TopicService.ServiceResponse T -> M B) (h : jsstring -> M B) (w : Backend) :
  returns well_formed g ->
  exists resp,
    g w = (Ok resp, snd (g w)) /\ well_formed resp /\
    (forall b w', k resp (snd (g w)) = (Ok b, w') ->
                  try_catch (bind g k) h w = (Ok b, w')).
Proof.
  intros Hg. destruct (Hg w) as [resp [Hrun Hwf]].
  exists resp. destruct (g w) as [r w1] eqn:Hgw. cbn [fst snd] in *. subst r.
  split; [reflexivity|]. split; [exact Hwf|].
  intros b w' Hk. unfold try_catch, bind. now rewrite Hgw, Hk.
Qed.

Lemma error_text_nonempty {T} (response : TopicService.ServiceResponse T) (fallback : string) :
  lit fallback <> [] -> CourseStore.error_text response fallback <> [].
Proof.
  intros Hf. unfold CourseStore.error_text.
  destruct (TopicService.error response) as [e|]; [|exact Hf].
  destruct (TopicService.message e); [exact Hf | discriminate].
Qed.

Variables (st : CourseStore.State) (w : Backend).

(** X27. The store's [saveTopicsForCourse] follows the gateway: it never
    throws, it returns the [success] of the gateway's response and leaves the
    backend as the gateway left it, and it always ends the loading. On a
    success the local topics are the rows returned, the error is cleared, and
    the local courses with the identifier given, and no other, get the flag;
    on a failure the local topics, courses and selected course are as they
    were and a message is recorded. *)
Theorem store_save_follows_gateway
    (courseId : jsstring) (ets : list TopicExtractionService.ExtractedTopic) :
  exists resp ok st' w',
    TopicService.saveTopicsForCourse courseId ets w = (Ok resp, w') /\
    CourseStore.saveTopicsForCourse courseId ets st w = (Ok (ok, st'), w') /\
    ok = TopicService.success resp /\
    CourseStore.isLoadingTopics st' = false /\
    (ok = true ->
     TopicService.data resp = Some (CourseStore.topics st') /\
     CourseStore.topicError st' = None /\
     Forall2 (fun c c' =>
                if Str.eqb (course_id c) courseId
                then topicsExtracted c' = true /\ course_core c' = course_core c
                else c' = c)
       (CourseStore.courses st) (CourseStore.courses st')) /\
    (ok = false ->
     CourseStore.topics st' = CourseStore.topics st /\
     CourseStore.courses st' = CourseStore.courses st /\
     CourseStore.selectedCourse st' = CourseStore.selectedCourse st /\
     exists m, CourseStore.topicError st' = Some m /\ m <> []).
Proof.
  unfold CourseStore.saveTopicsForCourse. cbv zeta.
  match goal with
  | |- context [try_catch (bind _ ?k) ?h w] =>
      destruct (@store_runs _ _ (TopicService.saveTopicsForCourse courseId ets) k h w
                  (saveTopicsForCourse_returns courseId ets))
        as [resp [Hrun [Hwf Hstore]]]
  end.
  exists resp.
  destruct Hwf as [[Hs [[rows Hd] He]]|[Hs [Hd [e [He Hm]]]]].
  - eexists. eexists. eexists. split; [exact Hrun|].
    split; [apply Hstore; rewrite Hs, Hd; reflexivity|].
    split; [now rewrite Hs|]. split; [reflexivity|].
    split; [|intros H; discriminate]. intros _.
    split; [exact Hd|]. split; [reflexivity|].
    cbn [CourseStore.courses CourseStore.set_courses CourseStore.set_topics].
    induction (CourseStore.courses st) as [|c cs IH]; [constructor|].
    cbn [map]. constructor; [|exact IH].
    destruct (Str.eqb (course_id c) courseId); [now split | reflexivity].
  - eexists. eexists. eexists. split; [exact Hrun|].
    split; [apply Hstore; rewrite Hs; reflexivity|].
    split; [now rewrite Hs|]. split; [reflexivity|].
    split; [intros H; discriminate|]. intros _.
    split; [reflexivity|]. split; [reflexivity|]. split; [reflexivity|].
    eexists. split; [reflexivity|]. apply error_text_nonempty. discriminate.
Qed.

(** X28. The other topic actions of the store follow the gateway in the
    same way: none throws, each ends the loading, leaves the backend as the
    gateway left it and records a message exactly when the gateway failed.
    A failed fetch empties the local list, while a failed create, update or
    delete keeps it; a successful fetch shows the rows returned, a successful
    create appends the row returned, a successful update puts the row
    returned in the place of every local topic with the identifier, and a
    successful delete removes every local topic with the identifier. *)
Theorem store_topic_actions_follow_gateway :
  (forall courseId, exists resp st' w',
     TopicService.getTopicsForCourse courseId w = (Ok resp, w') /\
     CourseStore.fetchTopicsForCourse courseId st w = (Ok st', w') /\
     CourseStore.isLoadingTopics st' = false /\
     (TopicService.success resp = true ->
      TopicService.data resp = Some (CourseStore.topics st') /\
      CourseStore.topicError st' = None) /\
     (TopicService.success resp = false ->
      CourseStore.topics st' = [] /\
      exists m, CourseStore.topicError st' = Some m /\ m <> [])) /\
  (forall courseId topicData, exists resp ok st' w',
     TopicService.createTopic courseId topicData w = (Ok resp, w') /\
     CourseStore.createTopic courseId topicData st w = (Ok (ok, st'), w') /\
     ok = TopicService.success resp /\
     CourseStore.isLoadingTopics st' = false /\
     (ok = true ->
      exists row, TopicService.data resp = Some row /\
                  CourseStore.topics st' = CourseStore.topics st ++ [row] /\
                  CourseStore.topicError st' = None) /\
     (ok = false ->
      CourseStore.topics st' = CourseStore.topics st /\
      exists m, CourseStore.topicError st' = Some m /\ m <> [])) /\
  (forall topicId updates, exists resp ok st' w',
     TopicService.updateTopic topicId updates w = (Ok resp, w') /\
     CourseStore.updateTopic topicId updates st w = (Ok (ok, st'), w') /\
     ok = TopicService.success resp /\
     CourseStore.isLoadingTopics st' = false /\
     (ok = true ->
      exists row, TopicService.data resp = Some row /\
                  CourseStore.topics st'
                  = List.map (fun topic => if Str.eqb (id topic) topicId then row else topic)
                      (CourseStore.topics st) /\
                  CourseStore.topicError st' = None) /\
     (ok = false ->
      CourseStore.topics st' = CourseStore.topics st /\
      exists m, CourseStore.topicError st' = Some m /\ m <> [])) /\
  (forall topicId, exists resp ok st' w',
     TopicService.deleteTopic topicId w = (Ok resp, w') /\
     CourseStore.deleteTopic topicId st w = (Ok (ok, st'), w') /\
     ok = TopicService.success resp /\
     CourseStore.isLoadingTopics st' = false /\
     (ok = true ->
      CourseStore.topics st'
      = filter (fun topic => negb (Str.eqb (id topic) topicId)) (CourseStore.topics st) /\
      CourseStore.topicError st' = None) /\
     (ok = false ->
      CourseStore.topics st' = CourseStore.topics st /\
      exists m, CourseStore.topicError st' = Some m /\ m <> [])).
Proof.
  split; [|split; [|split]].
  - intros courseId. unfold CourseStore.fetchTopicsForCourse. cbv zeta.
    match goal with
    | |- context [try_catch (bind _ ?k) ?h w] =>
        destruct (@store_runs _ _ (TopicService.getTopicsForCourse courseId) k h w
                    (getTopicsForCourse_returns courseId))
          as [resp [Hrun [Hwf Hstore]]]
    end.
    exists resp.
    destruct Hwf as [[Hs [[rows Hd] He]]|[Hs [Hd [e [He Hm]]]]].
    + eexists. eexists. split; [exact Hrun|].
      split; [apply Hstore; rewrite Hs, Hd; reflexivity|].
      split; [reflexivity|]. split; [|intros H; congruence].
      intros _. split; [exact Hd | reflexivity].
    + eexists. eexists. split; [exact Hrun|].
      split; [apply Hstore; rewrite Hs; reflexivity|].
      split; [reflexivity|]. split; [intros H; congruence|].
      intros _. split; [reflexivity|].
      eexists. split; [reflexivity|]. apply error_text_nonempty. discriminate.
  - intros courseId topicData. unfold CourseStore.createTopic. cbv zeta.
    match goal with
    | |- context [try_catch (bind _ ?k) ?h w] =>
        destruct (@store_runs _ _ (TopicService.createTopic courseId topicData) k h w
                    (createTopic_returns courseId topicData))
          as [resp [Hrun [Hwf Hstore]]]
    end.
    exists resp.
    destruct Hwf as [[Hs [[row Hd] He]]|[Hs [Hd [e [He Hm]]]]].
    + eexists. eexists. eexists. split; [exact Hrun|].
      split; [apply Hstore; rewrite Hs, Hd; reflexivity|].
      split; [now rewrite Hs|]. split; [reflexivity|]. split; [|intros H; discriminate].
      intros _. exists row. split; [exact Hd|]. split; reflexivity.
    + eexists. eexists. eexists. split; [exact Hrun|].
      split; [apply Hstore; rewrite Hs; reflexivity|].
      split; [now rewrite Hs|]. split; [reflexivity|]. split; [intros H; discriminate|].
      intros _. split; [reflexivity|].
      eexists. split; [reflexivity|]. apply error_text_nonempty. discriminate.
  - intros topicId updates. unfold CourseStore.updateTopic. cbv zeta.
    match goal with
    | |- context [try_catch (bind _ ?k) ?h w] =>
        destruct (@store_runs _ _ (TopicService.updateTopic topicId updates) k h w
                    (updateTopic_returns topicId updates))
          as [resp [Hrun [Hwf Hstore]]]
    end.
    exists resp.
    destruct Hwf as [[Hs [[row Hd] He]]|[Hs [Hd [e [He Hm]]]]].
    + eexists. eexists. eexists. split; [exact Hrun|].
      split; [apply Hstore; rewrite Hs, Hd; reflexivity|].
      split; [now rewrite Hs|]. split; [reflexivity|]. split; [|intros H; discriminate].
      intros _. exists row. split; [exact Hd|]. split; reflexivity.
    + eexists. eexists. eexists. split; [exact Hrun|].
      split; [apply Hstore; rewrite Hs; reflexivity|].
      split; [now rewrite Hs|]. split; [reflexivity|]. split; [intros H; discriminate|].
      intros _. split; [reflexivity|].
      eexists. split; [reflexivity|]. apply error_text_nonempty. discriminate.
  - intros topicId. unfold CourseStore.deleteTopic. cbv zeta.
    match goal with
    | |- context [try_catch (bind _ ?k) ?h w] =>
        destruct (@store_runs _ _ (TopicService.deleteTopic topicId) k h w
                    (deleteTopic_returns topicId))
          as [resp [Hrun [Hwf Hstore]]]
    end.
    exists resp.
    destruct Hwf as [[Hs [[row Hd] He]]|[Hs [Hd [e [He Hm]]]]].
    + eexists. eexists. eexists. split; [exact Hrun|].
      split; [apply Hstore; rewrite Hs; reflexivity|].
      split; [now rewrite Hs|]. split; [reflexivity|]. split; [|intros H; discriminate].
      intros _. split; reflexivity.
    + eexists. eexists. eexists. split; [exact Hrun|].
      split; [apply Hstore; rewrite Hs; reflexivity|].
      split; [now rewrite Hs|]. split; [reflexivity|]. split; [intros H; discriminate|].
      intros _. split; [reflexivity|].
      eexists. split; [reflexivity|]. apply error_text_nonempty. discriminate.
Qed.

End Store.

(* ===================================================================== *)
(** * The store and the backend after a save that fails half-way *)
(* ===================================================================== *)

Section StoreAndBackend.
Import Str Supabase Spec.
Local Open Scope backend_scope.

Variables (st : CourseStore.State) (w : Backend) (uid courseId : jsstring) (c : Course).
Hypothesis Howns : owns w uid courseId c.

Lemma saveTopicsForCourse_flag_refused
    (ets : list TopicExtractionService.ExtractedTopic) (e : PostgrestError)
    (rest : list Answer) :
  ets <> [] ->
  answers w = Served :: Served :: Served :: Served :: Served :: Refused e :: rest ->
  exists w',
    TopicService.saveTopicsForCourse courseId ets w
    = (Ok (TopicService.succeeded (stored_rows w courseId ets)), w') /\
    courses w' = courses w /\ session w' = session w.
Proof.
  intros Hne Ha. unfold TopicService.saveTopicsForCourse.
  rewrite (save_prologue Howns) by (unfold pop; simpl; rewrite Ha; reflexivity).
  assert (Hdel : hd Served (answers (checked w)) = Served)
    by (unfold checked, pop; simpl; rewrite Ha; reflexivity).
  set (rows := TopicService.topicsToInsert courseId (clock w) 0 ets).
  assert (Hlen : (length rows =? 0)%nat = false).
  { unfold rows. rewrite length_topicsToInsert. destruct ets; [congruence | reflexivity]. }
  set (w4 := remove_topics_of_course courseId (pop (checked w))).
  assert (Hins : hd Served (answers w4) = Served)
    by (unfold w4, checked, pop; simpl; rewrite Ha; reflexivity).
  set (w5 := add_rows rows (pop w4)).
  assert (Hupd : answers w5 = Refused e :: rest)
    by (unfold w5, w4, checked, pop; simpl; rewrite Ha; reflexivity).
  eexists. split.
  - apply try_catch_ok. unfold delete_topics_of_course.
    erewrite bind_ok by (apply call_served; exact Hdel). cbv beta. cbn [fst snd].
    erewrite bind_ok by reflexivity. cbv beta zeta.
    change (clock (remove_topics_of_course courseId (pop (checked w)))) with (clock w).
    fold rows. rewrite Hlen. unfold insert_topics.
    erewrite bind_ok by (apply call_served; exact Hins). cbv beta. cbn [fst snd].
    unfold mark_topics_extracted.
    erewrite bind_ok by (eapply call_refused; exact Hupd). reflexivity.
  - split; reflexivity.
Qed.

(** X29. After a save whose insert fails, the store and the backend
    disagree on the topics: the store reports the failure with a message and
    keeps showing the topics it had, while the backend has no topic left for
    the course. *)
Theorem store_keeps_topics_the_backend_lost
    (ets : list TopicExtractionService.ExtractedTopic) (a : Answer) (rest : list Answer) :
  ets <> [] ->
  answers w = Served :: Served :: Served :: Served :: a :: rest ->
  a <> Served ->
  exists st' w',
    CourseStore.saveTopicsForCourse courseId ets st w = (Ok (false, st'), w') /\
    CourseStore.topics st' = CourseStore.topics st /\
    CourseStore.isLoadingTopics st' = false /\
    (exists m, CourseStore.topicError st' = Some m /\ m <> []) /\
    topics_of_course courseId w' = [].
Proof.
  intros Hne Ha Hbad.
  destruct (@saveTopicsForCourse_insert_fails w uid courseId c Howns ets a rest Ha Hbad Hne)
    as [resp [Hrun [Hs [Hd He]]]].
  eexists. eexists. split.
  - unfold CourseStore.saveTopicsForCourse, try_catch, bind. rewrite Hrun, Hs. reflexivity.
  - split; [reflexivity|]. split; [reflexivity|]. split.
    + eexists. split; [reflexivity|]. apply error_text_nonempty. discriminate.
    + apply (topics_after_delete courseId (pop (checked w))).
Qed.

(** X30. After a save whose last step, the update of the course, is
    refused, the store and the backend disagree on the flag: the store
    reports a success, shows the new topics and marks its courses with the
    identifier given, while the row of the course in the backend is the one
    from before the call. *)
Theorem store_flag_ahead_of_backend
    (ets : list TopicExtractionService.ExtractedTopic) (e : PostgrestError)
    (rest : list Answer) :
  ets <> [] ->
  answers w = Served :: Served :: Served :: Served :: Served :: Refused e :: rest ->
  exists st' w',
    CourseStore.saveTopicsForCourse courseId ets st w = (Ok (true, st'), w') /\
    CourseStore.topics st' = stored_rows w courseId ets /\
    Forall (fun c' => course_id c' = courseId -> topicsExtracted c' = true)
      (CourseStore.courses st') /\
    courses_owned courseId uid w' = [c].
Proof.
  intros Hne Ha.
  destruct (saveTopicsForCourse_flag_refused Hne Ha) as [w' [Hrun [Hcourses Hsession]]].
  eexists. eexists. split.
  - unfold CourseStore.saveTopicsForCourse, try_catch, bind. rewrite Hrun. reflexivity.
  - split; [reflexivity|]. split.
    + cbn [CourseStore.courses CourseStore.set_courses CourseStore.set_topics].
      apply Forall_map. apply Forall_forall. intros c0 _ Hid.
      destruct (Str.eqb (course_id c0) courseId) eqn:Heq; [reflexivity|].
      cbv beta iota in Hid. rewrite Hid, eqb_refl in Heq. discriminate.
    + unfold courses_owned. rewrite Hcourses. apply Howns.
Qed.

End StoreAndBackend.

(* ===================================================================== *)
(** * The further properties on concrete inputs *)
(* ===================================================================== *)

Lemma extractTopics_all_or_nothing_witness :
  let r := fst (TopicExtractionService.extractTopics Fixtures.engine Fixtures.config
                  (Fixtures.network Fixtures.content_one_topic) 0 1 Fixtures.syllabus) in
  (TopicExtractionService.success r = true <->
   [Fixtures.entry_limits] <> [] /\ Forall Spec.titled [Fixtures.entry_limits]) /\
  (TopicExtractionService.success r = false -> TopicExtractionService.topics r = []).
Proof.
  apply (@extractTopics_all_or_nothing Fixtures.engine Fixtures.config
           (Fixtures.network Fixtures.content_one_topic) 0 1 Fixtures.syllabus
           200%N (Fixtures.reply Fixtures.content_one_topic) [Fixtures.entry_limits]).
  - reflexivity.
  - vm_compute; lia.
  - reflexivity.
  - reflexivity.
  - exact reply_one_topic.
Defined.

Lemma calculateConfidence_range_witness :
  let ts := [Fixtures.extracted 1 "Limits"; Fixtures.extracted_with 2 "Series" [Str.lit "sum"]] in
  PrimFloat.leb 40 (TopicExtractionService.calculateConfidence ts) = true /\
  PrimFloat.leb (TopicExtractionService.calculateConfidence ts) 100 = true /\
  (PrimFloat.eqb (TopicExtractionService.calculateConfidence ts) 100 = true <->
   (5 <= length ts <= 15)%nat /\
   Forall (fun t => TopicExtractionService.has_keywords t = true) ts).
Proof.
  apply (proj2 calculateConfidence_range
           [Fixtures.extracted 1 "Limits"; Fixtures.extracted_with 2 "Series" [Str.lit "sum"]]).
  - discriminate.
  - cbn [length]. lia.
Defined.

(** Seven topics, one of them with a keyword: 70 + (1 / 7) * 30 on doubles,
    which prints as 74.28571428571429. *)
Example calculateConfidence_one_in_seven :
  TopicExtractionService.calculateConfidence
    (Fixtures.extracted_with 1 "Limits" [Str.lit "epsilon"]
     :: List.map (fun n => Fixtures.extracted n "Topic") (seq 2 6))
  = (0x1.2924924924925p+6)%float.
Proof. vm_compute. reflexivity. Qed.

Lemma extractTopics_http_error_witness :
  let (r, sent) :=
    TopicExtractionService.extractTopics Fixtures.engine Fixtures.config
      Fixtures.unauthorized 0 1 Fixtures.syllabus in
  TopicExtractionService.success r = false /\
  TopicExtractionService.topics r = [] /\
  TopicExtractionService.metadata r = None /\
  sent = [Spec.request_for Fixtures.config Fixtures.syllabus] /\
  (forall body err detail,
     Ok Fixtures.unauthorized_body = Ok body ->
     Json.get body (Str.lit "error") = Some err ->
     Json.get err (Str.lit "message") = Some (Json.JString detail) ->
     Str.includes detail (Str.lit "API key") = true ->
     TopicExtractionService.error r
     = Some (Str.lit "OpenAI API key is invalid or missing. Please check your configuration.")).
Proof.
  apply (@extractTopics_http_error Fixtures.engine Fixtures.config
           Fixtures.unauthorized 0 1 Fixtures.syllabus 401%N (Ok Fixtures.unauthorized_body)).
  - reflexivity.
  - vm_compute; lia.
  - reflexivity.
  - reflexivity.
Defined.

Lemma reply_blank_title :
  Spec.provider_response Fixtures.engine_blank (Fixtures.reply Fixtures.content_blank_title)
    [Fixtures.blank_title_entry].
Proof.
  exists Fixtures.content_blank_title,
    (Json.JObject [(Str.lit "topics", Json.JArray [Fixtures.blank_title_entry])]).
  split; [reflexivity|]. split; [discriminate|]. split; reflexivity.
Defined.

Lemma extractTopics_accepts_blank_title_witness :
  let r := fst (TopicExtractionService.extractTopics Fixtures.engine_blank Fixtures.config
                  (Fixtures.network Fixtures.content_blank_title) 0 1 Fixtures.syllabus) in
  TopicExtractionService.success r = true /\
  length (TopicExtractionService.topics r) = length [Fixtures.blank_title_entry] /\
  exists t, nth_error (TopicExtractionService.topics r) 0 = Some t /\
            TopicExtractionService.title t = [].
Proof.
  apply (@extractTopics_accepts_blank_title Fixtures.engine_blank Fixtures.config
           (Fixtures.network Fixtures.content_blank_title) 0 1 Fixtures.syllabus
           200%N (Fixtures.reply Fixtures.content_blank_title) [Fixtures.blank_title_entry]
           0%nat Fixtures.blank_title_entry (Str.lit "   ")).
  - reflexivity.
  - vm_compute; lia.
  - reflexivity.
  - reflexivity.
  - exact reply_blank_title.
  - constructor; [|constructor]. exists (Str.lit "   "). split; [reflexivity | discriminate].
  - reflexivity.
  - reflexivity.
  - reflexivity.
Defined.

Lemma course_operations_need_the_owner_witness :
  let w := Fixtures.signed_out Fixtures.three_rows [] in
  (forall ets, exists resp w',
     TopicService.saveTopicsForCourse (Str.lit "c1") ets w = (Ok resp, w') /\
     TopicService.success resp = false /\ TopicService.data resp = None /\
     Spec.same_tables w w') /\
  (exists resp w',
     TopicService.getTopicsForCourse (Str.lit "c1") w = (Ok resp, w') /\
     TopicService.success resp = false /\ TopicService.data resp = None /\
     Spec.same_tables w w') /\
  (forall topicData, exists resp w',
     TopicService.createTopic (Str.lit "c1") topicData w = (Ok resp, w') /\
     TopicService.success resp = false /\ TopicService.data resp = None /\
     Spec.same_tables w w').
Proof.
  apply (@course_operations_need_the_owner (Str.lit "c1")
           (Fixtures.signed_out Fixtures.three_rows [])).
  intros uid c [Hsession _]. discriminate Hsession.
Defined.

Lemma topic_operations_need_the_owner_witness :
  let w := Fixtures.backend Fixtures.three_rows [] in
  (forall updates, exists resp w',
     TopicService.updateTopic (Str.lit "row-7") updates w = (Ok resp, w') /\
     TopicService.success resp = false /\ TopicService.data resp = None /\
     Spec.same_tables w w') /\
  (exists resp w',
     TopicService.deleteTopic (Str.lit "row-7") w = (Ok resp, w') /\
     TopicService.success resp = false /\ TopicService.data resp = None /\
     Spec.same_tables w w').
Proof.
  apply (@topic_operations_need_the_owner (Str.lit "row-7")
           (Fixtures.backend Fixtures.three_rows [])).
  intros uid [_ [_ Howners]]. discriminate Howners.
Defined.

Lemma save_flag_update_failure_witness :
  let w := Fixtures.backend Fixtures.three_rows Fixtures.flag_update_refused in
  let ets := [Fixtures.extracted 1 "Limits"] in
  exists resp w',
    TopicService.saveTopicsForCourse (Str.lit "c1") ets w = (Ok resp, w') /\
    Supabase.topics_of_course (Str.lit "c1") w' = Spec.stored_rows w (Str.lit "c1") ets /\
    Supabase.courses w' = Supabase.courses w /\
    (forall e, Supabase.Refused Fixtures.constraint_violation = Supabase.Refused e ->
       TopicService.success resp = true /\
       TopicService.data resp = Some (Spec.stored_rows w (Str.lit "c1") ets)) /\
    (forall m, Supabase.Refused Fixtures.constraint_violation = Supabase.Broken m ->
       TopicService.success resp = false /\ TopicService.data resp = None).
Proof.
  apply (@save_flag_update_failure
           (Fixtures.backend Fixtures.three_rows Fixtures.flag_update_refused)
           (Str.lit "u1") (Str.lit "c1") Fixtures.calculus
           (calculus_owned Fixtures.three_rows Fixtures.flag_update_refused)
           [Fixtures.extracted 1 "Limits"]
           (Supabase.Refused Fixtures.constraint_violation) []).
  - discriminate.
  - reflexivity.
  - discriminate.
Defined.

Lemma save_then_get_keeps_the_list_witness :
  let w := Fixtures.backend Fixtures.three_rows [] in
  let ets := [Fixtures.extracted 1 "Limits";
              Fixtures.extracted_with 2 "Series" [Str.lit "sum"; Str.lit "ratio test"]] in
  exists saved w1 fetched w2 rows,
    TopicService.saveTopicsForCourse (Str.lit "c1") ets w = (Ok saved, w1) /\
    TopicService.success saved = true /\
    TopicService.getTopicsForCourse (Str.lit "c1") w1 = (Ok fetched, w2) /\
    TopicService.success fetched = true /\ TopicService.data fetched = Some rows /\
    List.map Supabase.title rows = List.map TopicExtractionService.title ets /\
    List.map Supabase.orderIndex rows = Spec.one_to (length ets) /\
    Forall2 (fun e r =>
               forall ks, TopicExtractionService.keywords e = Some ks ->
                          Forall Spec.plain_keyword ks ->
                          TopicExtractionService.keywords (TopicService.topicToExtractedTopic r)
                          = Some ks)
      ets rows.
Proof.
  apply (@save_then_get_keeps_the_list
           (Fixtures.backend Fixtures.three_rows [])
           (Str.lit "u1") (Str.lit "c1") Fixtures.calculus
           (calculus_owned Fixtures.three_rows [])
           [Fixtures.extracted 1 "Limits";
            Fixtures.extracted_with 2 "Series" [Str.lit "sum"; Str.lit "ratio test"]]).
  - constructor.
  - reflexivity.
Defined.

Lemma removeTopic_removes_one_witness :
  exists before rest,
    Fixtures.three_topics = before ++ Fixtures.extracted 2 "Series" :: rest /\
    let left :=
      ReviewTopicsScreen.removeTopic
        (TopicExtractionService.id (Fixtures.extracted 2 "Series")) Fixtures.three_topics in
    List.map TopicExtractionService.id left
    = List.map TopicExtractionService.id (before ++ rest) /\
    List.map TopicExtractionService.title left
    = List.map TopicExtractionService.title (before ++ rest) /\
    List.map TopicExtractionService.keywords left
    = List.map TopicExtractionService.keywords (before ++ rest) /\
    List.map TopicExtractionService.order left
    = Spec.one_to (length Fixtures.three_topics - 1).
Proof.
  apply (proj2 removeTopic_removes_one (Fixtures.extracted 2 "Series") Fixtures.three_topics).
  - vm_compute.
    constructor; [intros [H|[H|[]]]; discriminate H|].
    constructor; [intros [H|[]]; discriminate H|].
    constructor; [intros []|]. constructor.
  - right. left. reflexivity.
Defined.

Lemma review_screen_invariant_witness :
  let st := Spec.after Fixtures.edits (ReviewTopicsScreen.initial Fixtures.three_topics) in
  Spec.packed (ReviewTopicsScreen.topics st) /\
  (Forall (fun t => TopicExtractionService.title t <> []) Fixtures.three_topics ->
   Forall (fun t => TopicExtractionService.title t <> []) (ReviewTopicsScreen.topics st)) /\
  Forall (Spec.comes_from Fixtures.three_topics Fixtures.edits) (ReviewTopicsScreen.topics st) /\
  (forall ets, ReviewTopicsScreen.handleSave st = Some ets ->
               ets = ReviewTopicsScreen.topics st /\ ets <> [] /\ Spec.packed ets).
Proof.
  apply (@review_screen_invariant Fixtures.three_topics Fixtures.edits).
  reflexivity.
Defined.

Lemma store_keeps_topics_the_backend_lost_witness :
  let w := Fixtures.backend Fixtures.three_rows Fixtures.insert_refused in
  let st := Fixtures.store Fixtures.three_rows in
  exists st' w',
    CourseStore.saveTopicsForCourse (Str.lit "c1") [Fixtures.extracted 1 "Vectors"] st w
    = (Ok (false, st'), w') /\
    CourseStore.topics st' = CourseStore.topics st /\
    CourseStore.isLoadingTopics st' = false /\
    (exists m, CourseStore.topicError st' = Some m /\ m <> []) /\
    Supabase.topics_of_course (Str.lit "c1") w' = [].
Proof.
  apply (@store_keeps_topics_the_backend_lost
           (Fixtures.store Fixtures.three_rows)
           (Fixtures.backend Fixtures.three_rows Fixtures.insert_refused)
           (Str.lit "u1") (Str.lit "c1") Fixtures.calculus
           (calculus_owned Fixtures.three_rows Fixtures.insert_refused)
           [Fixtures.extracted 1 "Vectors"]
           (Supabase.Refused Fixtures.constraint_violation) []).
  - discriminate.
  - reflexivity.
  - discriminate.
Defined.

Lemma store_flag_ahead_of_backend_witness :
  let w := Fixtures.two_courses Fixtures.flag_update_refused in
  Supabase.topicsExtracted Fixtures.algebra = false /\
  exists st' w',
    CourseStore.saveTopicsForCourse (Str.lit "c2") [Fixtures.extracted 1 "Vectors"]
      Fixtures.store_of_two w
    = (Ok (true, st'), w') /\
    CourseStore.topics st'
    = Spec.stored_rows w (Str.lit "c2") [Fixtures.extracted 1 "Vectors"] /\
    Forall (fun c' => Supabase.course_id c' = Str.lit "c2" -> Supabase.topicsExtracted c' = true)
      (CourseStore.courses st') /\
    Supabase.courses_owned (Str.lit "c2") (Str.lit "u1") w' = [Fixtures.algebra].
Proof.
  split; [reflexivity|].
  apply (@store_flag_ahead_of_backend
           Fixtures.store_of_two
           (Fixtures.two_courses Fixtures.flag_update_refused)
           (Str.lit "u1") (Str.lit "c2") Fixtures.algebra
           (algebra_owned Fixtures.flag_update_refused)
           [Fixtures.extracted 1 "Vectors"] Fixtures.constraint_violation []).
  - discriminate.
  - reflexivity.
Defined.
